(** * The perf-buffer monitor of the runtime security probe

    A shallow embedding of [pkg/security/probe/perf_buffer_monitor.go]:
    the statistics cell and its binary decoder, the counter grids, the
    hot-path recorders, the query accessors, the kernel reconciler and the
    emitter, followed by the properties the specification states about
    them.

    Conventions of the embedding:
    - a Go [uint64] is a [Z] in [0, 2^64); additions wrap ([add64]);
      an [int64] is a [Z] in [-2^63, 2^63) ([addInt64], [int64]);
    - a Go [int] used as an index is a [Z]; an event type (unsigned in Go)
      is an [N], and its values fit in a Go [int];
    - a Go map is a [gmap]; reading a missing key yields the zero value
      (for a slice-valued map the nil slice, see [mapSlice]);
    - an array [[MaxEventType]T] is a list; in a state of the program it
      has [MaxEventType] elements (see [wfMonitor]), and [len] or [range]
      over it use that constant without reading the array;
    - a run-time panic (index out of range, nil dereference) is the
      outcome [Panic]; a Go [error] result is an ordinary value. *)

From Stdlib Require Import ZArith NArith Lia.
From Stdlib.Strings Require Import Byte.
From stdpp Require Import gmap strings list fin_maps.

#[local] Open Scope Z_scope.

(** ** Machine integers *)

Definition two64 : Z := 2 ^ 64.
Definition two63 : Z := 2 ^ 63.

(** [a + b] on [uint64]. *)
Definition add64 (a b : Z) : Z := (a + b) mod two64.

(** The conversion [int64(u)] of a [uint64]. *)
Definition int64 (u : Z) : Z := if u <? two63 then u else u - two64.

(** [a + b] on [int64]. *)
Definition addInt64 (a b : Z) : Z := (a + b + two63) mod two64 - two63.

Definition is_uint64 (a : Z) : Prop := 0 <= a < two64.

Definition sumZ (l : list Z) : Z := foldr Z.add 0 l.

(** ** Errors and outcomes *)

Inductive error : Type :=
  | ErrNotEnoughData
  | ErrIterator (msg : string)
  | ErrTransport (msg : string)
  | ErrOther (msg : string)
  | Wrapf (cause : error) (msg : string).

Inductive panic : Type :=
  | IndexOutOfRange
  | NilDereference.

Inductive Outcome (A : Type) : Type :=
  | Done (a : A)
  | Panic (p : panic).
Arguments Done {A} a.
Arguments Panic {A} p.

(** ** Declarations of other packages

    The monitor uses a few declarations of package [model] (the event-type
    enumeration and the byte order of the probe) that are declared outside
    this file; they are parameters of the development. *)

(** The interface [binary.ByteOrder], restricted to the method in use.
    [Uint64 b] is called on slices of eight bytes. *)
Record ByteOrderT : Type := { Uint64 : list byte -> Z }.

Definition byteZ (b : byte) : Z := Z.of_N (Byte.to_N b).

(** [uint64(b[0]) | uint64(b[1])<<8 | ... | uint64(b[7])<<56] *)
Definition leUint64 (b : list byte) : Z :=
  foldr (fun x acc => Z.lor (byteZ x) (Z.shiftl acc 8)) 0 (take 8 b).

(** [uint64(b[7]) | uint64(b[6])<<8 | ... | uint64(b[0])<<56] *)
Definition beUint64 (b : list byte) : Z :=
  foldl (fun acc x => Z.lor (Z.shiftl acc 8) (byteZ x)) 0 (take 8 b).

Definition LittleEndian : ByteOrderT := {| Uint64 := leUint64 |}.
Definition BigEndian : ByteOrderT := {| Uint64 := beUint64 |}.

Abbreviation EventType := N (only parsing).

Class Model : Type := {
  (** [model.MaxEventType]: the number of event types; the last member of
      the enumeration, hence a constant. *)
  MaxEventType : N;
  FileRenameEventType : EventType;
  FileUnlinkEventType : EventType;
  FileRmdirEventType : EventType;
  (** [EventType.String] *)
  EventType_String : EventType -> string;
  (** [model.ByteOrder] *)
  ByteOrder : ByteOrderT
}.

(** What the Go run time leaves open: the order in which [range] visits a
    map, and the rounding of the [float64] conversions in the lost-read
    emitter.  A [float64] that holds a converted counter is represented by
    its value, an integer. *)
Class GoRuntime : Type := {
  rangeMap : forall A : Type, gmap string A -> list (string * A);
  float64_of_uint64 : Z -> Z;
  float64_add : Z -> Z -> Z;
  int64_of_float64 : Z -> Z
}.
Arguments rangeMap {_ _} _.

(** [range] visits every entry of the map exactly once. *)
Definition rangeMap_sound (rt : GoRuntime) : Prop :=
  forall (A : Type) (m : gmap string A), rangeMap m ≡ₚ map_to_list m.

(** ** Slices *)

(** [l[i]] for a Go [int] index: out of range panics. *)
Definition goIndex {A : Type} (l : list A) (i : Z) : option A :=
  if i <? 0 then None else l !! Z.to_nat i.

(** [len(l)] *)
Definition len {A : Type} (l : list A) : Z := Z.of_nat (length l).

(** [data[lo:hi]] *)
Definition slice {A : Type} (lo hi : nat) (l : list A) : list A :=
  take (hi - lo) (drop lo l).

(** [m[k]] for a map of slices: the nil slice when [k] is missing. *)
Definition mapSlice {A : Type} (m : gmap string (list A)) (k : string) : list A :=
  default [] (m !! k).

(** ** The statistics cell *)

(** [PerfMapStats]: the metrics of one event type on one cpu. *)
Record PerfMapStats : Type := mkStats {
  Bytes : Z;
  Count : Z;
  Lost : Z
}.

Definition zeroStats : PerfMapStats := mkStats 0 0 0.

Section Decoder.
Context {model : Model}.

(** [UnmarshalBinary]: the receiver after the call and the error. *)
Definition UnmarshalBinary (s : PerfMapStats) (data : list byte)
  : PerfMapStats * option error :=
  if len data <? 24 then (s, Some ErrNotEnoughData)
  else
    let s1 := mkStats (Uint64 ByteOrder (slice 0 8 data)) (Count s) (Lost s) in
    let s2 := mkStats (Bytes s1) (Uint64 ByteOrder (slice 8 16 data)) (Lost s1) in
    let s3 := mkStats (Bytes s2) (Count s2) (Uint64 ByteOrder (slice 16 24 data)) in
    (s3, None).

End Decoder.

(** ** Computations

    A Go function that reads and writes a state [S] and may panic. *)

Definition Go (S A : Type) : Type := S -> Outcome (A * S).

#[export] Instance Go_ret {S : Type} : MRet (Go S) :=
  fun A a s => Done (a, s).

#[export] Instance Go_bind {S : Type} : MBind (Go S) :=
  fun A B k m s =>
    match m s with
    | Done (a, s') => k a s'
    | Panic p => Panic p
    end.

Definition getState {S : Type} : Go S S := fun s => Done (s, s).

(** A [for ... range] loop whose body updates the local variables [acc]. *)
Fixpoint foldGo {S A B : Type} (body : A -> B -> Go S B) (l : list A) (acc : B)
  : Go S B :=
  match l with
  | [] => mret acc
  | x :: l' => acc' ← body x acc; foldGo body l' acc'
  end.

(** A [for ... range] loop whose body may [return r] from the enclosing
    function ([inl r]) or go on with the local variables ([inr acc]). *)
Fixpoint forEach {S A B R : Type} (body : A -> B -> Go S (R + B)) (l : list A)
  (acc : B) : Go S (R + B) :=
  match l with
  | [] => mret (inr acc)
  | x :: l' =>
      r ← body x acc;
      match r with
      | inl v => mret (inl v)
      | inr acc' => forEach body l' acc'
      end
  end.

(** [keeps R m]: whenever [m] returns, the states before and after are
    related by [R]. *)
Definition keeps {S A : Type} (R : S -> S -> Prop) (m : Go S A) : Prop :=
  forall s a s', m s = Done (a, s') -> R s s'.

(** The indices [0 .. len(l)-1] that [range l] visits. *)
Definition rangeIdx {A : Type} (l : list A) : list Z := seqZ 0 (len l).

(** ** The monitor *)

(** What iterating a kernel statistics table delivers in one reporting
    cycle: the entries that [Next] decodes into [(id, cpuStats)] before it
    returns false, and the value of [Err] afterwards. *)
Record StatsMap : Type := mkStatsMap {
  entries : list (N * list PerfMapStats);
  iterErr : option error
}.

(** [PerfBufferMonitor]; of the probe only the tag cardinality of its
    configuration is kept, and the statsd client and the probe's event
    dispatcher appear through their effects (see [World]).  A statistics
    map handle stands for what iterating it delivers ([StatsMap]);
    [numCPU] is the cpu count of the host. *)
Record PerfBufferMonitor : Type := mkMonitor {
  StatsTagsCardinality : string;
  numCPU : Z;
  perfBufferStatsMaps : gmap string StatsMap;
  stats : gmap string (list (list PerfMapStats));
  kernelStats : gmap string (list (list PerfMapStats));
  readLostEvents : gmap string (list Z);
  sortingErrorStats : gmap string (list Z);
  lastTimestamp : Z;
  shouldBumpGeneration : Z
}.

Definition set_stats (g : gmap string (list (list PerfMapStats)))
  (pbm : PerfBufferMonitor) : PerfBufferMonitor :=
  mkMonitor (StatsTagsCardinality pbm) (numCPU pbm) (perfBufferStatsMaps pbm) g
    (kernelStats pbm) (readLostEvents pbm) (sortingErrorStats pbm)
    (lastTimestamp pbm) (shouldBumpGeneration pbm).

Definition set_kernelStats (g : gmap string (list (list PerfMapStats)))
  (pbm : PerfBufferMonitor) : PerfBufferMonitor :=
  mkMonitor (StatsTagsCardinality pbm) (numCPU pbm) (perfBufferStatsMaps pbm)
    (stats pbm) g (readLostEvents pbm) (sortingErrorStats pbm)
    (lastTimestamp pbm) (shouldBumpGeneration pbm).

Definition set_readLostEvents (r : gmap string (list Z))
  (pbm : PerfBufferMonitor) : PerfBufferMonitor :=
  mkMonitor (StatsTagsCardinality pbm) (numCPU pbm) (perfBufferStatsMaps pbm)
    (stats pbm) (kernelStats pbm) r (sortingErrorStats pbm)
    (lastTimestamp pbm) (shouldBumpGeneration pbm).

Definition set_sortingErrorStats (e : gmap string (list Z))
  (pbm : PerfBufferMonitor) : PerfBufferMonitor :=
  mkMonitor (StatsTagsCardinality pbm) (numCPU pbm) (perfBufferStatsMaps pbm)
    (stats pbm) (kernelStats pbm) (readLostEvents pbm) e
    (lastTimestamp pbm) (shouldBumpGeneration pbm).

Definition set_lastTimestamp (t : Z) (pbm : PerfBufferMonitor)
  : PerfBufferMonitor :=
  mkMonitor (StatsTagsCardinality pbm) (numCPU pbm) (perfBufferStatsMaps pbm)
    (stats pbm) (kernelStats pbm) (readLostEvents pbm) (sortingErrorStats pbm)
    t (shouldBumpGeneration pbm).

Definition set_shouldBumpGeneration (b : Z) (pbm : PerfBufferMonitor)
  : PerfBufferMonitor :=
  mkMonitor (StatsTagsCardinality pbm) (numCPU pbm) (perfBufferStatsMaps pbm)
    (stats pbm) (kernelStats pbm) (readLostEvents pbm) (sortingErrorStats pbm)
    (lastTimestamp pbm) b.

(** *** Cells of the grids *)

Inductive GridSel : Type := UserGrid | KernelGrid.
Inductive Field : Type := FBytes | FCount | FLost.

Definition gridOf (sel : GridSel) (pbm : PerfBufferMonitor)
  : gmap string (list (list PerfMapStats)) :=
  match sel with UserGrid => stats pbm | KernelGrid => kernelStats pbm end.

Definition setGrid (sel : GridSel) (g : gmap string (list (list PerfMapStats)))
  (pbm : PerfBufferMonitor) : PerfBufferMonitor :=
  match sel with UserGrid => set_stats g pbm | KernelGrid => set_kernelStats g pbm end.

Definition getField (f : Field) (c : PerfMapStats) : Z :=
  match f with FBytes => Bytes c | FCount => Count c | FLost => Lost c end.

Definition setField (f : Field) (v : Z) (c : PerfMapStats) : PerfMapStats :=
  match f with
  | FBytes => mkStats v (Count c) (Lost c)
  | FCount => mkStats (Bytes c) v (Lost c)
  | FLost => mkStats (Bytes c) (Count c) v
  end.

(** [g[perfMap][cpu][eventType]], [None] when an index is out of range *)
Definition cellAt (g : gmap string (list (list PerfMapStats))) (perfMap : string)
  (cpu : Z) (eventType : EventType) : option PerfMapStats :=
  row ← goIndex (mapSlice g perfMap) cpu; row !! N.to_nat eventType.

(** [g[perfMap][cpu][eventType] = c] for an existing cell *)
Definition setCell (g : gmap string (list (list PerfMapStats))) (perfMap : string)
  (cpu : Z) (eventType : EventType) (c : PerfMapStats)
  : gmap string (list (list PerfMapStats)) :=
  <[perfMap := alter (fun row => <[N.to_nat eventType := c]> row) (Z.to_nat cpu)
                 (mapSlice g perfMap)]> g.

(** [atomic.LoadUint64(&grid[perfMap][cpu][eventType].f)] *)
Definition loadCell (sel : GridSel) (f : Field) (eventType : EventType)
  (perfMap : string) (cpu : Z) : Go PerfBufferMonitor Z :=
  fun pbm =>
    match cellAt (gridOf sel pbm) perfMap cpu eventType with
    | Some c => Done (getField f c, pbm)
    | None => Panic IndexOutOfRange
    end.

(** [atomic.SwapUint64(&grid[perfMap][cpu][eventType].f, value)] *)
Definition swapCell (sel : GridSel) (f : Field) (eventType : EventType)
  (perfMap : string) (cpu : Z) (value : Z) : Go PerfBufferMonitor Z :=
  fun pbm =>
    match cellAt (gridOf sel pbm) perfMap cpu eventType with
    | Some c =>
        Done (getField f c,
              setGrid sel (setCell (gridOf sel pbm) perfMap cpu eventType
                             (setField f value c)) pbm)
    | None => Panic IndexOutOfRange
    end.

(** [atomic.AddUint64(&grid[perfMap][cpu][eventType].f, delta)] *)
Definition addCell (sel : GridSel) (f : Field) (eventType : EventType)
  (perfMap : string) (cpu : Z) (delta : Z) : Go PerfBufferMonitor unit :=
  fun pbm =>
    match cellAt (gridOf sel pbm) perfMap cpu eventType with
    | Some c =>
        Done (tt,
              setGrid sel (setCell (gridOf sel pbm) perfMap cpu eventType
                             (setField f (add64 (getField f c) delta) c)) pbm)
    | None => Panic IndexOutOfRange
    end.

(** [atomic.SwapUint64(&pbm.shouldBumpGeneration, v)] *)
Definition swapShouldBumpGeneration (v : Z) : Go PerfBufferMonitor Z :=
  fun pbm => Done (shouldBumpGeneration pbm, set_shouldBumpGeneration v pbm).

Definition isNil {A : Type} (l : list A) : bool :=
  match l with [] => true | _ => false end.

Section Monitor.
Context {model : Model} {rt : GoRuntime}.

(** *** Lost events read from the perf buffers *)

(** [getLostCount] *)
Definition getLostCount (perfMap : string) (cpu : Z) : Go PerfBufferMonitor Z :=
  fun pbm =>
    match goIndex (mapSlice (readLostEvents pbm) perfMap) cpu with
    | Some v => Done (v, pbm)
    | None => Panic IndexOutOfRange
    end.

(** [GetLostCount] *)
Definition GetLostCount (perfMap : string) (cpu : Z) : Go PerfBufferMonitor Z :=
  pbm ← getState;
  if cpu =? -1 then
    foldGo (fun i total => v ← getLostCount perfMap i; mret (add64 total v))
      (rangeIdx (mapSlice (readLostEvents pbm) perfMap)) 0
  else if (0 <=? cpu) && (cpu <? numCPU pbm) then
    v ← getLostCount perfMap cpu; mret (add64 0 v)
  else mret 0.

(** [getAndResetReadLostCount] *)
Definition getAndResetReadLostCount (perfMap : string) (cpu : Z)
  : Go PerfBufferMonitor Z :=
  fun pbm =>
    let l := mapSlice (readLostEvents pbm) perfMap in
    match goIndex l cpu with
    | Some v =>
        Done (v, set_readLostEvents
                   (<[perfMap := <[Z.to_nat cpu := 0]> l]> (readLostEvents pbm)) pbm)
    | None => Panic IndexOutOfRange
    end.

(** [GetAndResetLostCount] *)
Definition GetAndResetLostCount (perfMap : string) (cpu : Z)
  : Go PerfBufferMonitor Z :=
  pbm ← getState;
  if cpu =? -1 then
    foldGo (fun i total => v ← getAndResetReadLostCount perfMap i; mret (add64 total v))
      (rangeIdx (mapSlice (readLostEvents pbm) perfMap)) 0
  else if (0 <=? cpu) && (cpu <? numCPU pbm) then
    v ← getAndResetReadLostCount perfMap cpu; mret (add64 0 v)
  else mret 0.

(** [CountLostEvent]; [mName] is [m.Name]. *)
Definition CountLostEvent (count : Z) (mName : string) (cpu : Z)
  : Go PerfBufferMonitor unit :=
  fun pbm =>
    let l := mapSlice (readLostEvents pbm) mName in
    (* sanity check *)
    if isNil l || (len l <=? cpu) then Done (tt, pbm)
    else
      match goIndex l cpu with
      | Some v =>
          Done (tt, set_readLostEvents
                      (<[mName := <[Z.to_nat cpu := add64 v count]> l]>
                         (readLostEvents pbm)) pbm)
      | None => Panic IndexOutOfRange
      end.

(** [GetAndResetLostCount(perfMap, cpu)] for every cpu of the host in turn;
    the values obtained, in cpu order. *)
Definition drainEachCPU (perfMap : string) : Go PerfBufferMonitor (list Z) :=
  pbm ← getState;
  foldGo (fun cpu vs => v ← GetAndResetLostCount perfMap cpu; mret (vs ++ [v]))
    (seqZ 0 (numCPU pbm)) [].

(** *** The user grid *)

Definition getEventCount := loadCell UserGrid FCount.
Definition getEventBytes := loadCell UserGrid FBytes.
Definition getAndResetEventCount (eventType : EventType) (perfMap : string)
  (cpu : Z) : Go PerfBufferMonitor Z :=
  swapCell UserGrid FCount eventType perfMap cpu 0.
Definition getAndResetEventBytes (eventType : EventType) (perfMap : string)
  (cpu : Z) : Go PerfBufferMonitor Z :=
  swapCell UserGrid FBytes eventType perfMap cpu 0.

(** [*pbm.sortingErrorStats[perfMap][eventType]]: the counter behind the
    pointer.  The array is indexed first (it has [MaxEventType] elements);
    for a missing buffer the map yields an array of nil pointers. *)
Definition sortingErrorCell (pbm : PerfBufferMonitor) (perfMap : string)
  (eventType : EventType) : Outcome Z :=
  if (MaxEventType <=? eventType)%N then Panic IndexOutOfRange
  else
    match sortingErrorStats pbm !! perfMap with
    | None => Panic NilDereference
    | Some arr =>
        match arr !! N.to_nat eventType with
        | Some c => Done c
        | None => Panic IndexOutOfRange
        end
    end.

Definition setSortingErrorCell (perfMap : string) (eventType : EventType) (v : Z)
  (pbm : PerfBufferMonitor) : PerfBufferMonitor :=
  set_sortingErrorStats
    (<[perfMap := <[N.to_nat eventType := v]>
                    (default [] (sortingErrorStats pbm !! perfMap))]>
       (sortingErrorStats pbm)) pbm.

(** [getAndResetSortingErrorCount] *)
Definition getAndResetSortingErrorCount (eventType : EventType) (perfMap : string)
  : Go PerfBufferMonitor Z :=
  fun pbm =>
    match sortingErrorCell pbm perfMap eventType with
    | Done c => Done (c, setSortingErrorCell perfMap eventType 0 pbm)
    | Panic p => Panic p
    end.

(** [GetEventStats] *)
Definition GetEventStats (eventType : EventType) (perfMap : string) (cpu : Z)
  : Go PerfBufferMonitor PerfMapStats :=
  pbm ← getState;
  if (MaxEventType <=? eventType)%N then mret zeroStats
  else
    let maps : list string :=
      if (String.length perfMap =? 0)%nat then (rangeMap (stats pbm)).*1
      else if negb (isNil (mapSlice (stats pbm) perfMap)) then [perfMap]
      else [] in
    foldGo (fun m (st : PerfMapStats) =>
      if cpu =? -1 then
        foldGo (fun i (st : PerfMapStats) =>
          c ← getEventCount eventType perfMap i;
          let st := mkStats (Bytes st) (add64 (Count st) c) (Lost st) in
          b ← getEventBytes eventType perfMap i;
          mret (mkStats (add64 (Bytes st) b) (Count st) (Lost st)))
          (rangeIdx (mapSlice (stats pbm) m)) st
      else if (0 <=? cpu) && (cpu <? numCPU pbm) then
        c ← getEventCount eventType perfMap cpu;
        let st := mkStats (Bytes st) (add64 (Count st) c) (Lost st) in
        b ← getEventBytes eventType perfMap cpu;
        mret (mkStats (add64 (Bytes st) b) (Count st) (Lost st))
      else mret st) maps zeroStats.

(** The sum on [uint64] of the field [f] of the cells of event type [evt]
    over the rows of [g]. *)
Definition sumField (f : Field) (evt : EventType) (g : list (list PerfMapStats)) : Z :=
  sumZ ((fun row => getField f (default zeroStats (row !! N.to_nat evt))) <$> g)
  mod two64.

(** [CountEvent]; [mName] is [m.Name]. *)
Definition CountEvent (eventType : EventType) (timestamp count size : Z)
  (mName : string) (cpu : Z) : Go PerfBufferMonitor unit :=
  (* check event order *)
  _ ← (fun pbm =>
         if (timestamp <? lastTimestamp pbm) && negb (lastTimestamp pbm =? 0) then
           match sortingErrorCell pbm mName eventType with
           | Done c =>
               Done (tt, set_shouldBumpGeneration 1
                           (setSortingErrorCell mName eventType (addInt64 c 1) pbm))
           | Panic p => Panic p
           end
         else Done (tt, set_lastTimestamp timestamp pbm));
  pbm ← getState;
  (* sanity check; the length of the array [pbm.stats[m.Name][cpu]] is the
     constant [MaxEventType], and Go does not evaluate the operand *)
  let grid := mapSlice (stats pbm) mName in
  if isNil grid || (len grid <=? cpu) || (MaxEventType <=? eventType)%N then mret tt
  else
    _ ← addCell UserGrid FCount eventType mName cpu count;
    addCell UserGrid FBytes eventType mName cpu size.

(** The two additions of [CountEvent] on an existing cell. *)
Definition recordCell (evt : EventType) (name : string) (cpu count size : Z)
  (c : PerfMapStats) (pbm : PerfBufferMonitor) : PerfBufferMonitor :=
  let c1 := setField FCount (add64 (Count c) count) c in
  let g1 := setCell (stats pbm) name cpu evt c1 in
  set_stats (setCell g1 name cpu evt (setField FBytes (add64 (Bytes c1) size) c1)) pbm.

(** The target of a [CountEvent] call that is not a cell of the user grid:
    the buffer has no rows (it is not registered), the cpu index is beyond
    the rows, or the event type is beyond [MaxEventType]. *)
Definition invalidTarget (pbm : PerfBufferMonitor) (name : string) (cpu : Z)
  (evt : EventType) : Prop :=
  mapSlice (stats pbm) name = [] \/ len (mapSlice (stats pbm) name) <= cpu
  \/ (MaxEventType <= evt)%N.

(** *** The kernel grid *)

Definition getKernelLostCount := loadCell KernelGrid FLost.
Definition swapKernelEventCount := swapCell KernelGrid FCount.
Definition swapKernelEventBytes := swapCell KernelGrid FBytes.
Definition swapKernelLostCount := swapCell KernelGrid FLost.

End Monitor.

(** ** Effects

    The statsd client, the probe's event dispatcher and the dentry
    resolver are outside the monitor; calls to them are recorded in
    order.  [transport] holds the results of the coming [client.Count]
    calls (none left: the call succeeds).  The client the monitor was
    built with is not nil. *)

Inductive MetricName : Type :=
  | MetricPerfBufferEventsRead
  | MetricPerfBufferBytesRead
  | MetricPerfBufferSortingError
  | MetricPerfBufferLostRead
  | MetricPerfBufferEventsWrite
  | MetricPerfBufferBytesWrite
  | MetricPerfBufferLostWrite.

Inductive Effect : Type :=
  (** [client.Count(name, value, tags, 1.0)] *)
  | StatsdCount (name : MetricName) (value : Z) (tags : list string)
  (** [DispatchCustomEvent(NewEventLostWriteEvent(perfMap, perEvent))] *)
  | DispatchLostWrite (perfMap : string) (perEvent : gmap string Z)
  (** [DispatchCustomEvent(NewEventLostReadEvent(perfMap, total))] *)
  | DispatchLostRead (perfMap : string) (total : Z)
  (** [DentryResolver.BumpCacheGenerations()] *)
  | BumpCacheGenerations.

Record World : Type := mkWorld {
  monitor : PerfBufferMonitor;
  transport : list (option error);
  effects : list Effect
}.

(** The [client] argument of [collectAndSendKernelStats]. *)
Inductive ClientRef : Type := NilClient | StatsdClient.

Definition liftMonitor {A : Type} (m : Go PerfBufferMonitor A) : Go World A :=
  fun w =>
    match m (monitor w) with
    | Done (a, pbm) => Done (a, mkWorld pbm (transport w) (effects w))
    | Panic p => Panic p
    end.

Definition emit (e : Effect) : Go World unit :=
  fun w => Done (tt, mkWorld (monitor w) (transport w) (effects w ++ [e])).

Definition clientCount (name : MetricName) (value : Z) (tags : list string)
  : Go World (option error) :=
  fun w =>
    Done (default None (head (transport w)),
          mkWorld (monitor w) (tail (transport w))
            (effects w ++ [StatsdCount name value tags])).

(** The number of [BumpCacheGenerations] calls among the effects. *)
Fixpoint bumps (es : list Effect) : nat :=
  match es with
  | [] => 0
  | BumpCacheGenerations :: es' => S (bumps es')
  | _ :: es' => bumps es'
  end.

(** The rows of the user grid and of the lost-event counters are as many
    in [pbm] as in [pbm0]. *)
Definition sameShape (pbm0 pbm : PerfBufferMonitor) : Prop :=
  (forall m, len (mapSlice (stats pbm) m) = len (mapSlice (stats pbm0) m)) /\
  (forall m, len (mapSlice (readLostEvents pbm) m)
             = len (mapSlice (readLostEvents pbm0) m)).

(** The kernel grid of the buffer [q] is the same in both worlds. *)
Definition sameKernelRows (q : string) (w w' : World) : Prop :=
  kernelStats (monitor w') !! q = kernelStats (monitor w) !! q.

(** The generation flag and the number of [BumpCacheGenerations] calls are
    the same in both worlds. *)
Definition sameGeneration (w w' : World) : Prop :=
  shouldBumpGeneration (monitor w') = shouldBumpGeneration (monitor w) /\
  bumps (effects w') = bumps (effects w).

(** No [BumpCacheGenerations] call was added, and the generation flag
    either kept its value or was raised to 1. *)
Definition raisesGeneration (w w' : World) : Prop :=
  bumps (effects w') = bumps (effects w) /\
  (shouldBumpGeneration (monitor w') = shouldBumpGeneration (monitor w)
   \/ shouldBumpGeneration (monitor w') = 1).

Section Reporting.
Context {model : Model} {rt : GoRuntime}.

(** The event types [0 .. MaxEventType-1] that [range] over an array of
    cells visits, as Go [int]s. *)
Definition rangeEventTypes : list Z := seqZ 0 (Z.of_N MaxEventType).

(** [if tmpCount = swap(new); tmpCount <= new { new -= tmpCount }]: the
    value left in the field of [stats] once the previous snapshot
    [tmpCount] is known. *)
Definition subtractSnapshot (tmpCount new : Z) : Z :=
  if tmpCount <=? new then new - tmpCount else new.

Definition isMutationEvent (evtType : EventType) : bool :=
  (evtType =? FileRenameEventType)%N || (evtType =? FileUnlinkEventType)%N
  || (evtType =? FileRmdirEventType)%N.

(** [sendKernelStats] *)
Definition sendKernelStats (st : PerfMapStats) (tags : list string)
  : Go World (option error) :=
  err ← (if 0 <? Count st
         then clientCount MetricPerfBufferEventsWrite (int64 (Count st)) tags
         else mret None);
  match err with
  | Some e => mret (Some e)
  | None =>
      err ← (if 0 <? Bytes st
             then clientCount MetricPerfBufferBytesWrite (int64 (Bytes st)) tags
             else mret None);
      match err with
      | Some e => mret (Some e)
      | None =>
          if 0 <? Lost st
          then clientCount MetricPerfBufferLostWrite (int64 (Lost st)) tags
          else mret None
      end
  end.

(** [if _, ok := perEvent[key]; !ok { perEvent[key] = 0 }] *)
Definition initPerEvent (key : string) (perEvent : gmap string Z) : gmap string Z :=
  match perEvent !! key with
  | None => <[key := 0]> perEvent
  | Some _ => perEvent
  end.

(** The end of the body of the loop over the cpu entries: the deltas [st]
    are sent when there is a client and added to [total] and [perEvent]. *)
Definition accountDelta (client : ClientRef) (tags : list string) (key : string)
  (st : PerfMapStats) (locals : Z * gmap string Z)
  : Go World (option error + Z * gmap string Z) :=
  let '(total, perEvent) := locals in
  err ← match client with
        | StatsdClient => sendKernelStats st tags
        | NilClient => mret None
        end;
  match err with
  | Some e => mret (inl (Some e))
  | None =>
      mret (inr (add64 total (Lost st),
                 <[key := add64 (default 0 (perEvent !! key)) (Lost st)]> perEvent))
  end.

(** The body of the loop over the cpu entries of one table entry in
    [collectAndSendKernelStats]; the local variables are [total] and
    [perEvent].  [inl r] is [return r]. *)
Definition reconcileCPU (client : ClientRef) (perfMapName : string)
  (evtType : EventType) (tags : list string) (cpuEntry : Z * PerfMapStats)
  (locals : Z * gmap string Z) : Go World (option error + Z * gmap string Z) :=
  let '(cpu, st) := cpuEntry in
  let '(total, perEvent) := locals in
  w ← getState;
  let grid := mapSlice (stats (monitor w)) perfMapName in
  (* sanity checks *)
  if isNil grid || (len grid <=? cpu) || (MaxEventType <=? evtType)%N
  then mret (inl None)
  else
    (* make sure perEvent is properly initialized *)
    let key := EventType_String evtType in
    let perEvent := initPerEvent key perEvent in
    (* Update stats to avoid sending twice the same data points *)
    tmpCount ← liftMonitor (swapKernelEventBytes evtType perfMapName cpu (Bytes st));
    let st := mkStats (subtractSnapshot tmpCount (Bytes st)) (Count st) (Lost st) in
    tmpCount ← liftMonitor (swapKernelEventCount evtType perfMapName cpu (Count st));
    let st := mkStats (Bytes st) (subtractSnapshot tmpCount (Count st)) (Lost st) in
    tmpCount ← liftMonitor (swapKernelLostCount evtType perfMapName cpu (Lost st));
    let st := mkStats (Bytes st) (Count st) (subtractSnapshot tmpCount (Lost st)) in
    (* purge dentry resolver generation if needed *)
    _ ← (if isMutationEvent evtType
         then liftMonitor (swapShouldBumpGeneration 1)
         else mret 0);
    accountDelta client tags key st (total, perEvent).

(** The monitor after the three swaps of one cell of the kernel grid and
    the purge of the generation flag. *)
Definition afterSwaps (name : string) (cpu : Z) (evt : EventType)
  (prev new : PerfMapStats) (pbm : PerfBufferMonitor) : PerfBufferMonitor :=
  let c1 := setField FBytes (Bytes new) prev in
  let c2 := setField FCount (Count new) c1 in
  let c3 := setField FLost (Lost new) c2 in
  let g1 := setCell (kernelStats pbm) name cpu evt c1 in
  let g2 := setCell g1 name cpu evt c2 in
  let g3 := setCell g2 name cpu evt c3 in
  let pbm3 := set_kernelStats g3 pbm in
  if isMutationEvent evt then set_shouldBumpGeneration 1 pbm3 else pbm3.

(** The deltas that [reconcileCPU] computes from the previous snapshot. *)
Definition kernelDelta (prev new : PerfMapStats) : PerfMapStats :=
  mkStats (subtractSnapshot (Bytes prev) (Bytes new))
          (subtractSnapshot (Count prev) (Count new))
          (subtractSnapshot (Lost prev) (Lost new)).

(** The body of the loop [for iterator.Next(&id, &cpuStats)]. *)
Definition reconcileEntry (client : ClientRef) (perfMapName : string)
  (entry : N * list PerfMapStats) (locals : Z * gmap string Z)
  : Go World (option error + Z * gmap string Z) :=
  let '(id, cpuStats) := entry in
  if (id =? 0)%N then
    (* first event type is 1 *)
    mret (inr locals)
  else
    w ← getState;
    (* retrieve event type from key *)
    let evtType := (id mod MaxEventType)%N in
    let tags := [StatsTagsCardinality (monitor w);
                 "map:" +:+ perfMapName;
                 "event_type:" +:+ EventType_String evtType] in
    forEach (reconcileCPU client perfMapName evtType tags)
      (zip (rangeIdx cpuStats) cpuStats) locals.

(** The body of the loop over the statistics buffers of each perf map. *)
Definition reconcileMap (client : ClientRef) (m : string * StatsMap) (_ : unit)
  : Go World (option error + unit) :=
  let '(perfMapName, statsMap) := m in
  r ← forEach (reconcileEntry client perfMapName) (entries statsMap) (0, ∅);
  match r with
  | inl res => mret (inl res)
  | inr (total, perEvent) =>
      match iterErr statsMap with
      | Some e =>
          mret (inl (Some (Wrapf e ("failed to dump the statistics buffer of map "
                                      +:+ perfMapName))))
      | None =>
          (* send an alert if events were lost *)
          _ ← (if 0 <? total then emit (DispatchLostWrite perfMapName perEvent)
               else mret tt);
          mret (inr tt)
      end
  end.

(** [collectAndSendKernelStats] *)
Definition collectAndSendKernelStats (client : ClientRef) : Go World (option error) :=
  w ← getState;
  r ← forEach (reconcileMap client) (rangeMap (perfBufferStatsMaps (monitor w))) tt;
  match r with
  | inl res => mret res
  | inr _ => mret None
  end.

(** The value of [shouldCount] in [GetAndResetKernelLostCount] for the
    index [kernelEvtType]; [for evtType := range evtTypes] binds
    [evtType] to the indices of [evtTypes]. *)
Definition shouldCount (evtTypes : list EventType) (kernelEvtType : Z) : bool :=
  let shouldCount := len evtTypes =? 0 in
  if negb shouldCount then
    foldl (fun sc evtType => if evtType =? kernelEvtType then true else sc)
      shouldCount (rangeIdx evtTypes)
  else shouldCount.

(** [GetAndResetKernelLostCount] *)
Definition GetAndResetKernelLostCount (perfMap : string) (cpu : Z)
  (evtTypes : list EventType) : Go World Z :=
  (* query the kernel maps *)
  _ ← collectAndSendKernelStats NilClient;
  w ← getState;
  foldGo (fun cpuID total =>
    if (cpu =? -1) || (cpu =? cpuID) then
      foldGo (fun kernelEvtType total =>
        if shouldCount evtTypes kernelEvtType then
          v ← liftMonitor (getKernelLostCount (Z.to_N kernelEvtType) perfMap cpuID);
          mret (add64 total v)
        else mret total)
        rangeEventTypes total
    else mret total)
    (rangeIdx (mapSlice (kernelStats (monitor w)) perfMap)) 0.

(** [sendEventsAndBytesReadStats], called with [pbm.statsdClient]. *)
Definition sendEventsAndBytesReadStats : Go World (option error) :=
  w ← getState;
  let pbm := monitor w in
  r ← forEach (fun m (_ : unit) =>
    forEach (fun cpu (_ : unit) =>
      forEach (fun eventType (_ : unit) =>
        let evtType := Z.to_N eventType in
        let tags := [StatsTagsCardinality pbm; "map:" +:+ m;
                     "event_type:" +:+ EventType_String evtType] in
        count ← liftMonitor (getAndResetEventCount evtType m cpu);
        err ← (if 0 <? int64 count
               then clientCount MetricPerfBufferEventsRead (int64 count) tags
               else mret None);
        match err with
        | Some e => mret (inl e)
        | None =>
            count ← liftMonitor (getAndResetEventBytes evtType m cpu);
            err ← (if 0 <? int64 count
                   then clientCount MetricPerfBufferBytesRead (int64 count) tags
                   else mret None);
            match err with
            | Some e => mret (inl e)
            | None =>
                count ← liftMonitor (getAndResetSortingErrorCount evtType m);
                err ← (if 0 <? count
                       then clientCount MetricPerfBufferSortingError count tags
                       else mret None);
                match err with
                | Some e => mret (inl e)
                | None => mret (inr tt)
                end
            end
        end)
        rangeEventTypes tt)
      (rangeIdx (mapSlice (stats pbm) m)) tt)
    (rangeMap (stats pbm)).*1 tt;
  match r with
  | inl e => mret (Some e)
  | inr _ => mret None
  end.

(** [sendLostEventsReadStats], called with [pbm.statsdClient]. *)
Definition sendLostEventsReadStats : Go World (option error) :=
  w ← getState;
  let pbm := monitor w in
  r ← forEach (fun m (_ : unit) =>
    let tags := [StatsTagsCardinality pbm; "map:" +:+ m] in
    r ← forEach (fun cpu (total : Z) =>
      c ← liftMonitor (getAndResetReadLostCount m cpu);
      let count := float64_of_uint64 c in
      if 0 <? count then
        err ← clientCount MetricPerfBufferLostRead (int64_of_float64 count) tags;
        match err with
        | Some e => mret (inl e)
        | None => mret (inr (float64_add total count))
        end
      else mret (inr total))
      (rangeIdx (mapSlice (readLostEvents pbm) m)) 0;
    match r with
    | inl e => mret (inl e)
    | inr total =>
        _ ← (if 0 <? total then emit (DispatchLostRead m total) else mret tt);
        mret (inr tt)
    end)
    (rangeMap (readLostEvents pbm)).*1 tt;
  match r with
  | inl e => mret (Some e)
  | inr _ => mret None
  end.

(** [SendStats] *)
Definition SendStats : Go World (option error) :=
  err ← collectAndSendKernelStats StatsdClient;
  match err with
  | Some e => mret (Some e)
  | None =>
      old ← liftMonitor (swapShouldBumpGeneration 0);
      _ ← (if old =? 1 then emit BumpCacheGenerations else mret tt);
      err ← sendEventsAndBytesReadStats;
      match err with
      | Some e => mret (Some e)
      | None => sendLostEventsReadStats
      end
  end.

End Reporting.

(** ** Construction *)

(** What [NewPerfBufferMonitor] reads from the probe: the tag cardinality
    of its configuration, the names of the manager's perf maps, and the
    answer [(stats, ok, err)] of [p.manager.GetMap]. *)
Record Probe : Type := mkProbe {
  config_StatsTagsCardinality : string;
  manager_PerfMaps : list string;
  manager_GetMap : string -> StatsMap * bool * option error
}.

Section Construction.
Context {model : Model} {rt : GoRuntime}.

(** The loop that selects the perf buffer statistics maps. *)
Fixpoint selectStatsMaps (p : Probe) (names : list (string * string))
  (acc : gmap string StatsMap) : gmap string StatsMap + error :=
  match names with
  | [] => inl acc
  | (perfMapName, statsMapName) :: rest =>
      let '(statsMap, ok, err) := manager_GetMap p statsMapName in
      if negb ok then inr (ErrOther ("map " +:+ statsMapName +:+ " not found"))
      else
        match err with
        | Some e => inr e
        | None => selectStatsMaps p rest (<[perfMapName := statsMap]> acc)
        end
  end.

(** [NewPerfBufferMonitor]; [statisticsMaps] is the result of
    [probes.GetPerfBufferStatisticsMaps()] and [hostCPU] the result of
    [utils.NumCPU()].  The buffer sizes and the two name tables, which no
    other function of the file reads, are left out. *)
Definition NewPerfBufferMonitor (p : Probe) (statisticsMaps : gmap string string)
  (hostCPU : Z + error) : PerfBufferMonitor + error :=
  match hostCPU with
  | inr err => inr (Wrapf err "couldn't fetch the host CPU count")
  | inl n =>
      match selectStatsMaps p (rangeMap statisticsMaps) ∅ with
      | inr err => inr err
      | inl tables =>
          (* Prepare user space counters *)
          let row := replicate (N.to_nat MaxEventType) zeroStats in
          let grid := replicate (Z.to_nat n) row in
          let pbm0 := mkMonitor (config_StatsTagsCardinality p) n tables ∅ ∅ ∅ ∅ 0 0 in
          inl (foldl (fun pbm mName =>
                 mkMonitor (StatsTagsCardinality pbm) (numCPU pbm)
                   (perfBufferStatsMaps pbm)
                   (<[mName := grid]> (stats pbm))
                   (<[mName := grid]> (kernelStats pbm))
                   (<[mName := replicate (Z.to_nat n) 0]> (readLostEvents pbm))
                   (<[mName := replicate (N.to_nat MaxEventType) 0]>
                      (sortingErrorStats pbm))
                   (lastTimestamp pbm) (shouldBumpGeneration pbm))
                 pbm0 (manager_PerfMaps p))
      end
  end.

(** *** States of the program

    The shape every monitor built by [NewPerfBufferMonitor] has and every
    operation keeps: the four tables have the same buffers, one row per
    cpu, one cell per event type. *)
Definition wfGrid (n : Z) (g : list (list PerfMapStats)) : Prop :=
  len g = n /\ Forall (fun row => length row = N.to_nat MaxEventType) g.

Record wfMonitor (pbm : PerfBufferMonitor) : Prop := mkWf {
  wf_numCPU : 0 <= numCPU pbm;
  wf_stats : forall name g, stats pbm !! name = Some g -> wfGrid (numCPU pbm) g;
  wf_kernelStats :
    forall name g, kernelStats pbm !! name = Some g -> wfGrid (numCPU pbm) g;
  wf_readLostEvents :
    forall name l, readLostEvents pbm !! name = Some l -> len l = numCPU pbm;
  wf_sortingErrorStats :
    forall name a, sortingErrorStats pbm !! name = Some a ->
                   length a = N.to_nat MaxEventType;
  wf_dom_kernelStats : dom (kernelStats pbm) = dom (stats pbm);
  wf_dom_readLostEvents : dom (readLostEvents pbm) = dom (stats pbm);
  wf_dom_sortingErrorStats : dom (sortingErrorStats pbm) = dom (stats pbm)
}.

(** The invariant of the emitter's loops, which range over the rows of
    the monitor [pbm0] they started with. *)
Definition emitting (pbm0 : PerfBufferMonitor) (w : World) : Prop :=
  wfMonitor (monitor w) /\ sameShape pbm0 (monitor w).

End Construction.

(** ** A test configuration

    The first members of the event-type enumeration, a little-endian
    probe, [range] in the order of [map_to_list], and conversions that are
    exact (as they are below 2^53). *)

Definition testModel : Model := {|
  MaxEventType := 8;
  FileRenameEventType := 4;
  FileUnlinkEventType := 5;
  FileRmdirEventType := 6;
  EventType_String := fun e =>
    match e with
    | 1 => "open" | 2 => "mkdir" | 3 => "link" | 4 => "rename"
    | 5 => "unlink" | 6 => "rmdir" | 7 => "chmod" | _ => "unknown"
    end%N;
  ByteOrder := LittleEndian
|}.

Definition testRuntime : GoRuntime := {|
  rangeMap := fun A m => map_to_list m;
  float64_of_uint64 := fun u => u;
  float64_add := Z.add;
  int64_of_float64 := fun f => f
|}.

Definition okTable (es : list (N * list PerfMapStats)) : StatsMap :=
  mkStatsMap es None.

(** A probe with the perf map ["dns"] and its statistics table. *)
Definition dnsProbe (table : StatsMap) : Probe :=
  mkProbe "cardinality:low" ["dns"]
    (fun name => if String.eqb name "dns_stats" then (table, true, None)
                 else (okTable [], false, None)).

(** The monitor for ["dns"] on a host with two cpus. *)
Definition dnsMonitor (table : StatsMap) : PerfBufferMonitor :=
  match NewPerfBufferMonitor (model := testModel) (rt := testRuntime)
          (dnsProbe table) {["dns" := "dns_stats"]} (inl 2) with
  | inl pbm => pbm
  | inr _ => mkMonitor "" 0 ∅ ∅ ∅ ∅ ∅ 0 0
  end.

(** A statistics entry [{Bytes: 500, Count: 5, Lost: 1}] as the kernel
    writes it on a little-endian host, followed by one stray byte. *)
Definition sampleEntry : list byte :=
  [xf4; x01; x00; x00; x00; x00; x00; x00;
   x05; x00; x00; x00; x00; x00; x00; x00;
   x01; x00; x00; x00; x00; x00; x00; x00; xff]%byte.

Definition run {S A : Type} (m : Go S A) (s : S) : option S :=
  match m s with Done (_, s') => Some s' | Panic _ => None end.

Definition result {S A : Type} (m : Go S A) (s : S) : option A :=
  match m s with Done (a, _) => Some a | Panic _ => None end.

(** The kernel has written to its statistics tables: the next iteration
    over the table of [perfMap] delivers [table]. *)
Definition kernelWrites (perfMap : string) (table : StatsMap)
  (pbm : PerfBufferMonitor) : PerfBufferMonitor :=
  mkMonitor (StatsTagsCardinality pbm) (numCPU pbm)
    (<[perfMap := table]> (perfBufferStatsMaps pbm))
    (stats pbm) (kernelStats pbm) (readLostEvents pbm) (sortingErrorStats pbm)
    (lastTimestamp pbm) (shouldBumpGeneration pbm).

(** The ["dns"] monitor after cpu 0 reported five events of type 3 in 500
    bytes and cpu 1 three events of type 3 in 300 bytes. *)
Definition dnsScenario : PerfBufferMonitor :=
  default (dnsMonitor (okTable []))
    (run (_ ← CountEvent (model := testModel) 3 10 5 500 "dns" 0;
          CountEvent (model := testModel) 3 11 3 300 "dns" 1)
       (dnsMonitor (okTable []))).

(** A kernel table with lost events: five [open] events lost on cpu 0,
    seven [rename] events lost on cpu 0 and two on cpu 1. *)
Definition lostTable : StatsMap :=
  okTable [(1%N, [mkStats 50 6 5; mkStats 0 0 0]);
           (4%N, [mkStats 100 10 7; mkStats 50 5 2])].

(** A kernel table whose iteration fails before it delivers an entry. *)
Definition failingTable : StatsMap :=
  mkStatsMap [] (Some (ErrIterator "bad file descriptor")).

(** A probe with the perf maps ["dns"] and ["net"]. *)
Definition twoProbe (dnsTable netTable : StatsMap) : Probe :=
  mkProbe "cardinality:low" ["dns"; "net"]
    (fun name => if String.eqb name "dns_stats" then (dnsTable, true, None)
                 else if String.eqb name "net_stats" then (netTable, true, None)
                 else (okTable [], false, None)).

(** The monitor for ["dns"] and ["net"] on a host with two cpus. *)
Definition twoMonitor (dnsTable netTable : StatsMap) : PerfBufferMonitor :=
  match NewPerfBufferMonitor (model := testModel) (rt := testRuntime)
          (twoProbe dnsTable netTable)
          (<["dns" := "dns_stats"]> (<["net" := "net_stats"]> ∅)) (inl 2) with
  | inl pbm => pbm
  | inr _ => mkMonitor "" 0 ∅ ∅ ∅ ∅ ∅ 0 0
  end.

(** A cycle in which the table of ["net"] cannot be iterated while the
    table of ["dns"] holds lost events. *)
Definition netFailsWorld : World :=
  mkWorld (twoMonitor lostTable failingTable) [] [].

(** The same cycle with the generation flag raised beforehand. *)
Definition netFailsFlaggedWorld : World :=
  mkWorld (set_shouldBumpGeneration 1 (twoMonitor lostTable failingTable)) [] [].

(** A cycle that starts with the generation flag raised and tables that
    can be read, and the world its reconciliation leaves. *)
Definition flaggedWorld : World :=
  mkWorld (set_shouldBumpGeneration 1 (dnsMonitor lostTable)) [] [].

Definition reconciledFlaggedWorld : World :=
  default flaggedWorld
    (run (collectAndSendKernelStats (model := testModel) (rt := testRuntime)
            StatsdClient) flaggedWorld).

(** A cycle in which the first [client.Count] call fails. *)
Definition transportFailsWorld : World :=
  mkWorld (set_shouldBumpGeneration 1 (dnsMonitor lostTable))
    [Some (ErrTransport "connection refused")] [].

(** The kernel grid of ["dns"] holds the snapshot 10/10/10 for [rename] on
    cpu 0, and the table now reads 3/3/3 (the kernel counters were reset). *)
Definition snapshotWorld : World :=
  default (mkWorld (dnsMonitor (okTable [])) [] [])
    (run (collectAndSendKernelStats (model := testModel) (rt := testRuntime)
            StatsdClient)
       (mkWorld (dnsMonitor (okTable [(4%N, [mkStats 10 10 10; zeroStats])])) [] [])).

Definition resetWorld : World :=
  mkWorld (kernelWrites "dns" (okTable [(4%N, [mkStats 3 3 3; zeroStats])])
             (monitor snapshotWorld)) [] [].

(** The delta as the specification words it: zero when the counter
    decreased. *)
Definition claimedDelta (previousSnapshot newValue : Z) : Z :=
  if previousSnapshot <=? newValue then newValue - previousSnapshot else 0.

(** The kernel grid of [name] holds what the cycle read from [table]: the
    buffer was reconciled. *)
Definition mirrored {model : Model} (pbm : PerfBufferMonitor) (name : string)
  (table : StatsMap) : Prop :=
  forall (id : N) (cpuStats : list PerfMapStats) (cpu : nat) (st : PerfMapStats),
    (id, cpuStats) ∈ entries table -> id <> 0%N -> cpuStats !! cpu = Some st ->
    cellAt (kernelStats pbm) name (Z.of_nat cpu) (id mod MaxEventType) = Some st.

(** The ["dns"] monitor after four events were lost on cpu 0 and three on
    cpu 1. *)
Definition lossyMonitor : PerfBufferMonitor :=
  default (dnsMonitor (okTable []))
    (run (_ ← CountLostEvent 4 "dns" 0; CountLostEvent 3 "dns" 1)
       (dnsMonitor (okTable []))).

(** The ["dns"] monitor after an event with timestamp 10 was seen. *)
Definition lateMonitor : PerfBufferMonitor :=
  set_lastTimestamp 10 (dnsMonitor (okTable [])).

(** A call that returns without a panic and leaves the monitor as it was. *)
Definition silentNoOp (call : Go PerfBufferMonitor unit) (pbm : PerfBufferMonitor)
  : Prop :=
  call pbm = Done (tt, pbm).

(** The statistics table [statsMapName] resolves: [p.manager.GetMap]
    finds it and reports no error. *)
Definition resolves (p : Probe) (entry : string * string) : Prop :=
  exists table, manager_GetMap p entry.2 = (table, true, None).

(** The [client.Count] calls among the effects, in order. *)
Fixpoint metricsSent (es : list Effect) : list (MetricName * Z * list string) :=
  match es with
  | [] => []
  | StatsdCount name value tags :: es' => (name, value, tags) :: metricsSent es'
  | _ :: es' => metricsSent es'
  end.

(** No [client.Count] call was made between the two worlds. *)
Definition silent (w w' : World) : Prop :=
  transport w' = transport w /\ metricsSent (effects w') = metricsSent (effects w).

(** Everything of the monitor but the kernel grid and the generation flag
    is the same in both worlds. *)
Definition userSideKept (w w' : World) : Prop :=
  stats (monitor w') = stats (monitor w) /\
  readLostEvents (monitor w') = readLostEvents (monitor w) /\
  sortingErrorStats (monitor w') = sortingErrorStats (monitor w) /\
  lastTimestamp (monitor w') = lastTimestamp (monitor w) /\
  numCPU (monitor w') = numCPU (monitor w) /\
  perfBufferStatsMaps (monitor w') = perfBufferStatsMaps (monitor w) /\
  StatsTagsCardinality (monitor w') = StatsTagsCardinality (monitor w).

(** ** The loops of the emitters

    The bodies of the innermost loops of [sendEventsAndBytesReadStats] and
    of [sendLostEventsReadStats], under a name; [pbm] is the monitor the
    function was called on. *)

Section EmitterBodies.
Context {model : Model} {rt : GoRuntime}.

Definition drainCell (pbm : PerfBufferMonitor) (m : string) (cpu eventType : Z)
  (_ : unit) : Go World (error + unit) :=
  let evtType := Z.to_N eventType in
  let tags := [StatsTagsCardinality pbm; "map:" +:+ m;
               "event_type:" +:+ EventType_String evtType] in
  count ← liftMonitor (getAndResetEventCount evtType m cpu);
  err ← (if 0 <? int64 count
         then clientCount MetricPerfBufferEventsRead (int64 count) tags
         else mret None);
  match err with
  | Some e => mret (inl e)
  | None =>
      count ← liftMonitor (getAndResetEventBytes evtType m cpu);
      err ← (if 0 <? int64 count
             then clientCount MetricPerfBufferBytesRead (int64 count) tags
             else mret None);
      match err with
      | Some e => mret (inl e)
      | None =>
          count ← liftMonitor (getAndResetSortingErrorCount evtType m);
          err ← (if 0 <? count
                 then clientCount MetricPerfBufferSortingError count tags
                 else mret None);
          match err with
          | Some e => mret (inl e)
          | None => mret (inr tt)
          end
      end
  end.

Definition drainLost (pbm : PerfBufferMonitor) (m : string) (cpu total : Z)
  : Go World (error + Z) :=
  let tags := [StatsTagsCardinality pbm; "map:" +:+ m] in
  c ← liftMonitor (getAndResetReadLostCount m cpu);
  let count := float64_of_uint64 c in
  if 0 <? count then
    err ← clientCount MetricPerfBufferLostRead (int64_of_float64 count) tags;
    match err with
    | Some e => mret (inl e)
    | None => mret (inr (float64_add total count))
    end
  else mret (inr total).

(** The field [f] of a cell of the user grid is zero, if the cell exists. *)
Definition drained (f : Field) (m : string) (cpu : Z) (evt : EventType) (w : World)
  : Prop :=
  forall c, cellAt (stats (monitor w)) m cpu evt = Some c -> getField f c = 0.

(** A sorting-error counter is zero, if it exists. *)
Definition sortingErrorsDrained (m : string) (evt : EventType) (w : World) : Prop :=
  forall c, sortingErrorCell (monitor w) m evt = Done c -> c = 0.

(** A lost-event counter is zero, if it exists. *)
Definition lostDrained (m : string) (cpu : Z) (w : World) : Prop :=
  forall v, goIndex (mapSlice (readLostEvents (monitor w)) m) cpu = Some v -> v = 0.

End EmitterBodies.

(** * Properties *)

(** ** The decoder *)

Lemma byteZ_range (b : byte) : 0 <= byteZ b < 256.
Proof.
  unfold byteZ. pose proof (Byte.to_N_bounded b). lia.
Qed.

Lemma lor_shift_range (x acc k : Z) :
  0 <= k -> 0 <= x < 256 -> 0 <= acc < 2 ^ (8 * k) ->
  0 <= Z.lor x (Z.shiftl acc 8) < 2 ^ (8 * (k + 1)).
Proof.
  intros Hk Hx Hacc. rewrite Z.shiftl_mul_pow2 by lia.
  assert (Hnn : 0 <= Z.lor x (acc * 2 ^ 8)) by (apply Z.lor_nonneg; lia).
  assert (Hland : 0 <= Z.land x (acc * 2 ^ 8)) by (apply Z.land_nonneg; lia).
  pose proof (Z.add_lor_land x (acc * 2 ^ 8)) as Hsum.
  replace (8 * (k + 1)) with (8 * k + 8) by lia.
  rewrite Z.pow_add_r by lia.
  change (2 ^ 8) with 256 in *. lia.
Qed.

Lemma leUint64_range (b : list byte) : is_uint64 (leUint64 b).
Proof.
  unfold leUint64, is_uint64, two64.
  assert (Hlen : (length (take 8 b) <= 8)%nat) by (rewrite length_take; lia).
  assert (H : 0 <= foldr (fun x acc => Z.lor (byteZ x) (Z.shiftl acc 8)) 0 (take 8 b)
              < 2 ^ (8 * Z.of_nat (length (take 8 b)))).
  { clear Hlen. induction (take 8 b) as [| x l IH]; simpl foldr.
    - simpl. lia.
    - replace (Z.of_nat (length (x :: l))) with (Z.of_nat (length l) + 1)
        by (simpl; lia).
      apply lor_shift_range; [lia | apply byteZ_range | exact IH]. }
  split; [lia |]. eapply Z.lt_le_trans; [apply H |].
  apply Z.pow_le_mono_r; lia.
Qed.

Lemma beUint64_range (b : list byte) : is_uint64 (beUint64 b).
Proof.
  unfold beUint64, is_uint64, two64.
  assert (Hlen : (length (take 8 b) <= 8)%nat) by (rewrite length_take; lia).
  assert (H : forall l acc k,
            0 <= k -> 0 <= acc < 2 ^ (8 * k) ->
            0 <= foldl (fun acc x => Z.lor (Z.shiftl acc 8) (byteZ x)) acc l
            < 2 ^ (8 * (k + Z.of_nat (length l)))).
  { induction l as [| x l IH]; intros acc k Hk Hacc; simpl foldl.
    - simpl. rewrite Z.add_0_r. exact Hacc.
    - replace (k + Z.of_nat (length (x :: l))) with ((k + 1) + Z.of_nat (length l))
        by (simpl; lia).
      apply IH; [lia |]. rewrite Z.lor_comm.
      apply lor_shift_range; [lia | apply byteZ_range | exact Hacc]. }
  specialize (H (take 8 b) 0 0 ltac:(lia) ltac:(simpl; lia)).
  split; [lia |]. eapply Z.lt_le_trans; [apply H |].
  apply Z.pow_le_mono_r; lia.
Qed.

Section DecoderFacts.
Context {model : Model}.

Lemma UnmarshalBinary_short (s : PerfMapStats) (data : list byte) :
  len data < 24 -> UnmarshalBinary s data = (s, Some ErrNotEnoughData).
Proof.
  intros Hlen. unfold UnmarshalBinary.
  destruct (len data <? 24) eqn:E; [reflexivity | apply Z.ltb_ge in E; lia].
Qed.

Lemma UnmarshalBinary_long (s : PerfMapStats) (data : list byte) :
  24 <= len data ->
  UnmarshalBinary s data =
    (mkStats (Uint64 ByteOrder (slice 0 8 data))
             (Uint64 ByteOrder (slice 8 16 data))
             (Uint64 ByteOrder (slice 16 24 data)), None).
Proof.
  intros Hlen. unfold UnmarshalBinary.
  destruct (len data <? 24) eqn:E; [apply Z.ltb_lt in E; lia | reflexivity].
Qed.

Lemma slice_take_app {A : Type} (lo hi n : nat) (l trailing : list A) :
  (hi <= n)%nat -> (n <= length l)%nat ->
  slice lo hi (take n l ++ trailing) = slice lo hi l.
Proof.
  intros Hhi Hn. unfold slice.
  destruct (decide (lo <= hi)%nat) as [Hlo | Hlo];
    [| replace (hi - lo)%nat with 0%nat by lia; reflexivity].
  rewrite drop_app_le by (rewrite length_take; lia).
  rewrite take_app_le by (rewrite length_drop, length_take; lia).
  apply list_eq. intros i.
  destruct (decide (i < hi - lo)%nat) as [Hi | Hi].
  - rewrite !lookup_take_lt by lia. rewrite !lookup_drop.
    rewrite lookup_take_lt by lia. reflexivity.
  - rewrite !lookup_take_ge by lia. reflexivity.
Qed.

(** C7: a buffer shorter than 24 bytes is refused with [ErrNotEnoughData];
    a buffer of 24 bytes or more is always decoded, [Bytes] from
    [data[0:8]], [Count] from [data[8:16]] and [Lost] from [data[16:24]]
    in the byte order of the probe, whatever the receiver held and
    whatever follows the first 24 bytes. *)
Theorem UnmarshalBinary_decodes (s : PerfMapStats) (data : list byte) :
  (len data < 24 -> (UnmarshalBinary s data).2 = Some ErrNotEnoughData) /\
  (24 <= len data ->
   UnmarshalBinary s data =
     (mkStats (Uint64 ByteOrder (slice 0 8 data))
              (Uint64 ByteOrder (slice 8 16 data))
              (Uint64 ByteOrder (slice 16 24 data)), None) /\
   forall trailing : list byte,
     UnmarshalBinary s (take 24 data ++ trailing) = UnmarshalBinary s data).
Proof.
  split.
  - intros Hlen. rewrite UnmarshalBinary_short by assumption. reflexivity.
  - intros Hlen. split; [apply UnmarshalBinary_long; assumption |].
    intros trailing.
    assert (Hn : (24 <= length data)%nat) by (unfold len in Hlen; lia).
    rewrite !UnmarshalBinary_long.
    + rewrite !slice_take_app by lia. reflexivity.
    + assumption.
    + unfold len. rewrite length_app, length_take. lia.
Qed.

(** C10: when the buffer is shorter than 24 bytes the receiver is returned
    as it was: [Bytes], [Count] and [Lost] keep their values, and the
    error is [ErrNotEnoughData]. *)
Theorem UnmarshalBinary_error_keeps_receiver (s : PerfMapStats) (data : list byte) :
  len data < 24 ->
  UnmarshalBinary s data = (s, Some ErrNotEnoughData) /\
  Bytes (UnmarshalBinary s data).1 = Bytes s /\
  Count (UnmarshalBinary s data).1 = Count s /\
  Lost (UnmarshalBinary s data).1 = Lost s.
Proof.
  intros Hlen. rewrite UnmarshalBinary_short by assumption. auto.
Qed.

(** On a little-endian or a big-endian probe every decoded field is a
    [uint64]. *)
Lemma UnmarshalBinary_uint64 (s : PerfMapStats) (data : list byte) (s' : PerfMapStats) :
  ByteOrder = LittleEndian \/ ByteOrder = BigEndian ->
  UnmarshalBinary s data = (s', None) ->
  is_uint64 (Bytes s') /\ is_uint64 (Count s') /\ is_uint64 (Lost s').
Proof.
  intros Horder. unfold UnmarshalBinary.
  destruct (len data <? 24); [discriminate |]. intros [= <-]. simpl.
  destruct Horder as [-> | ->]; simpl;
    auto using leUint64_range, beUint64_range.
Qed.

End DecoderFacts.

Lemma UnmarshalBinary_decodes_witness :
  (UnmarshalBinary (model := testModel) (mkStats 9 9 9) (take 5 sampleEntry)).2
    = Some ErrNotEnoughData /\
  UnmarshalBinary (model := testModel) (mkStats 9 9 9) sampleEntry
    = (mkStats 500 5 1, None).
Proof.
  split.
  - apply (proj1 (UnmarshalBinary_decodes (model := testModel) (mkStats 9 9 9)
                    (take 5 sampleEntry))).
    vm_compute. reflexivity.
  - rewrite (proj1 (proj2 (UnmarshalBinary_decodes (model := testModel)
                             (mkStats 9 9 9) sampleEntry) ltac:(vm_compute; discriminate))).
    vm_compute. reflexivity.
Defined.

Lemma UnmarshalBinary_error_keeps_receiver_witness :
  UnmarshalBinary (model := testModel) (mkStats 7 8 9) (take 23 sampleEntry)
    = (mkStats 7 8 9, Some ErrNotEnoughData).
Proof.
  apply (UnmarshalBinary_error_keeps_receiver (model := testModel)).
  vm_compute. reflexivity.
Defined.

(** ** Computations and cells *)

Lemma bind_Done {S A B : Type} (m : Go S A) (k : A -> Go S B) (s s' : S) (a : A) :
  m s = Done (a, s') -> (m ≫= k) s = k a s'.
Proof. intros H. unfold mbind, Go_bind. rewrite H. reflexivity. Qed.

Lemma bind_Panic {S A B : Type} (m : Go S A) (k : A -> Go S B) (s : S) (p : panic) :
  m s = Panic p -> (m ≫= k) s = Panic p.
Proof. intros H. unfold mbind, Go_bind. rewrite H. reflexivity. Qed.

Lemma bind_getState {S B : Type} (k : S -> Go S B) (s : S) :
  (getState ≫= k) s = k s s.
Proof. reflexivity. Qed.

Lemma bind_inv {S A B : Type} (m : Go S A) (k : A -> Go S B) (s s2 : S) (b : B) :
  (m ≫= k) s = Done (b, s2) ->
  exists a s1, m s = Done (a, s1) /\ k a s1 = Done (b, s2).
Proof.
  unfold mbind, Go_bind. destruct (m s) as [[a s1] | p]; [eauto | discriminate].
Qed.

Lemma mapSlice_insert {A : Type} (m : gmap string (list A)) (k : string) (v : list A) :
  mapSlice (<[k := v]> m) k = v.
Proof. unfold mapSlice. rewrite lookup_insert_eq. reflexivity. Qed.

Lemma mapSlice_insert_ne {A : Type} (m : gmap string (list A)) (k k' : string)
  (v : list A) :
  k <> k' -> mapSlice (<[k := v]> m) k' = mapSlice m k'.
Proof. intros H. unfold mapSlice. rewrite lookup_insert_ne by assumption. reflexivity. Qed.

Lemma mapSlice_Some {A : Type} (m : gmap string (list A)) (k : string) (v : list A) :
  m !! k = Some v -> mapSlice m k = v.
Proof. intros H. unfold mapSlice. rewrite H. reflexivity. Qed.

Lemma goIndex_Some {A : Type} (l : list A) (i : Z) (x : A) :
  goIndex l i = Some x <-> 0 <= i /\ l !! Z.to_nat i = Some x.
Proof.
  unfold goIndex. destruct (i <? 0) eqn:E.
  - apply Z.ltb_lt in E. split; [discriminate | lia].
  - apply Z.ltb_ge in E. tauto.
Qed.

Lemma goIndex_in_range {A : Type} (l : list A) (i : Z) :
  0 <= i < len l -> exists x, goIndex l i = Some x.
Proof.
  intros Hi. unfold len in Hi.
  destruct (lookup_lt_is_Some_2 l (Z.to_nat i)) as [x Hx]; [lia |].
  exists x. apply goIndex_Some. split; [lia | assumption].
Qed.

Lemma goIndex_out_of_range {A : Type} (l : list A) (i : Z) :
  i < 0 \/ len l <= i -> goIndex l i = None.
Proof.
  intros Hi. unfold goIndex, len in *. destruct (i <? 0) eqn:E; [reflexivity |].
  apply Z.ltb_ge in E. apply lookup_ge_None. lia.
Qed.

Lemma isNil_false {A : Type} (l : list A) : 0 < len l -> isNil l = false.
Proof. destruct l; [unfold len; simpl; lia | reflexivity]. Qed.

Lemma cellAt_Some (g : gmap string (list (list PerfMapStats))) (name : string)
  (cpu : Z) (evt : EventType) (c : PerfMapStats) :
  cellAt g name cpu evt = Some c <->
  exists row, goIndex (mapSlice g name) cpu = Some row /\ row !! N.to_nat evt = Some c.
Proof.
  unfold cellAt. destruct (goIndex (mapSlice g name) cpu) as [row |]; simpl.
  - split; [eauto | intros (row' & [= <-] & H); exact H].
  - split; [discriminate | intros (row' & [=] & _)].
Qed.

Lemma cellAt_setCell (g : gmap string (list (list PerfMapStats))) (name : string)
  (cpu : Z) (evt : EventType) (c c' : PerfMapStats) :
  cellAt g name cpu evt = Some c ->
  cellAt (setCell g name cpu evt c') name cpu evt = Some c'.
Proof.
  intros (row & Hrow & Hc)%cellAt_Some. apply goIndex_Some in Hrow as [Hcpu Hrow].
  apply cellAt_Some. exists (<[N.to_nat evt := c']> row). split.
  - apply goIndex_Some. split; [assumption |].
    unfold setCell. rewrite mapSlice_insert, list_lookup_alter_eq, Hrow. reflexivity.
  - apply list_lookup_insert_eq. eapply lookup_lt_Some; eassumption.
Qed.

Lemma mapSlice_setCell (g : gmap string (list (list PerfMapStats))) (name : string)
  (cpu : Z) (evt : EventType) (c : PerfMapStats) (name' : string) :
  len (mapSlice (setCell g name cpu evt c) name') = len (mapSlice g name').
Proof.
  unfold setCell. destruct (decide (name = name')) as [<- | Hne].
  - rewrite mapSlice_insert. unfold len. rewrite length_alter. reflexivity.
  - rewrite mapSlice_insert_ne by assumption. reflexivity.
Qed.

(** ** The hot-path recorder *)

Section RecorderFacts.
Context {model : Model} {rt : GoRuntime}.

Lemma wfGrid_cell (n : Z) (g : list (list PerfMapStats)) (cpu : Z) (evt : EventType) :
  wfGrid n g -> 0 <= cpu < n -> (evt < MaxEventType)%N ->
  exists row c, goIndex g cpu = Some row /\ row !! N.to_nat evt = Some c.
Proof.
  intros [Hlen Hrows] Hcpu Hevt.
  destruct (goIndex_in_range g cpu) as [row Hrow]; [lia |].
  assert (Hr : length row = N.to_nat MaxEventType).
  { apply goIndex_Some in Hrow as [_ Hrow].
    eapply Forall_lookup_1 in Hrows; [exact Hrows | exact Hrow]. }
  destruct (lookup_lt_is_Some_2 row (N.to_nat evt)) as [c Hc]; [lia |].
  eauto.
Qed.

Lemma wf_user_cell (pbm : PerfBufferMonitor) (name : string)
  (g : list (list PerfMapStats)) (cpu : Z) (evt : EventType) :
  wfMonitor pbm -> stats pbm !! name = Some g ->
  0 <= cpu < numCPU pbm -> (evt < MaxEventType)%N ->
  exists c, cellAt (stats pbm) name cpu evt = Some c.
Proof.
  intros Hwf Hg Hcpu Hevt.
  destruct (wfGrid_cell (numCPU pbm) g cpu evt) as (row & c & Hrow & Hc);
    [eapply wf_stats; eassumption | assumption | assumption |].
  exists c. apply cellAt_Some. exists row.
  rewrite (mapSlice_Some _ _ _ Hg). auto.
Qed.

Lemma wf_sortingError_cell (pbm : PerfBufferMonitor) (name : string)
  (g : list (list PerfMapStats)) (evt : EventType) :
  wfMonitor pbm -> stats pbm !! name = Some g -> (evt < MaxEventType)%N ->
  exists arr c, sortingErrorStats pbm !! name = Some arr /\
                arr !! N.to_nat evt = Some c /\
                sortingErrorCell pbm name evt = Done c.
Proof.
  intros Hwf Hg Hevt.
  assert (Hin : name ∈ dom (sortingErrorStats pbm)).
  { rewrite (wf_dom_sortingErrorStats pbm Hwf). apply elem_of_dom. eauto. }
  apply elem_of_dom in Hin as [arr Harr].
  pose proof (wf_sortingErrorStats pbm Hwf name arr Harr) as Hl.
  destruct (lookup_lt_is_Some_2 arr (N.to_nat evt)) as [c Hc]; [lia |].
  exists arr, c. repeat split; try assumption.
  unfold sortingErrorCell.
  destruct (MaxEventType <=? evt)%N eqn:E; [apply N.leb_le in E; lia |].
  rewrite Harr, Hc. reflexivity.
Qed.

Lemma sortingErrorCell_set_eq (pbm : PerfBufferMonitor) (name : string)
  (evt : EventType) (c v : Z) :
  sortingErrorCell pbm name evt = Done c ->
  sortingErrorCell (setSortingErrorCell name evt v pbm) name evt = Done v.
Proof.
  unfold sortingErrorCell, setSortingErrorCell. simpl.
  destruct (MaxEventType <=? evt)%N; [discriminate |].
  destruct (sortingErrorStats pbm !! name) as [arr |] eqn:Harr; [| discriminate].
  destruct (arr !! N.to_nat evt) as [c' |] eqn:Hc; [| discriminate].
  intros _. rewrite lookup_insert_eq. simpl.
  rewrite list_lookup_insert_eq by (eapply lookup_lt_Some; eassumption).
  reflexivity.
Qed.

Lemma sortingErrorCell_set_ne (pbm : PerfBufferMonitor) (name name' : string)
  (evt evt' : EventType) (c v : Z) :
  sortingErrorCell pbm name evt = Done c ->
  (name', evt') <> (name, evt) ->
  sortingErrorCell (setSortingErrorCell name evt v pbm) name' evt'
  = sortingErrorCell pbm name' evt'.
Proof.
  intros Hc Hne. unfold sortingErrorCell, setSortingErrorCell in *. simpl.
  destruct (MaxEventType <=? evt)%N; [discriminate |].
  destruct (sortingErrorStats pbm !! name) as [arr |] eqn:Harr; [| discriminate].
  destruct (MaxEventType <=? evt')%N; [reflexivity |].
  destruct (decide (name = name')) as [<- | Hn].
  - rewrite lookup_insert_eq, Harr. simpl.
    rewrite list_lookup_insert_ne; [reflexivity |].
    intros Heq. apply Hne. f_equal. lia.
  - rewrite lookup_insert_ne by assumption. reflexivity.
Qed.

Lemma addInt64_succ (c : Z) : - two63 <= c < two63 - 1 -> addInt64 c 1 = c + 1.
Proof.
  intros Hc. unfold addInt64, two63, two64 in *.
  rewrite Z.mod_small by lia. lia.
Qed.

Lemma addCell_Done (sel : GridSel) (f : Field) (evt : EventType) (name : string)
  (cpu delta : Z) (pbm : PerfBufferMonitor) (c : PerfMapStats) :
  cellAt (gridOf sel pbm) name cpu evt = Some c ->
  addCell sel f evt name cpu delta pbm =
    Done (tt, setGrid sel (setCell (gridOf sel pbm) name cpu evt
                             (setField f (add64 (getField f c) delta) c)) pbm).
Proof. intros H. unfold addCell. rewrite H. reflexivity. Qed.

Lemma CountEvent_sanity_passed (evt : EventType) (count size : Z) (name : string)
  (cpu : Z) (pbm pbm1 : PerfBufferMonitor) (c : PerfMapStats)
  (check : Go PerfBufferMonitor unit) :
  check pbm = Done (tt, pbm1) ->
  0 <= cpu < len (mapSlice (stats pbm1) name) -> (evt < MaxEventType)%N ->
  cellAt (stats pbm1) name cpu evt = Some c ->
  (_ ← check;
   pbm ← getState;
   let grid := mapSlice (stats pbm) name in
   if isNil grid || (len grid <=? cpu) || (MaxEventType <=? evt)%N then mret tt
   else
     _ ← addCell UserGrid FCount evt name cpu count;
     addCell UserGrid FBytes evt name cpu size) pbm
  = Done (tt, recordCell evt name cpu count size c pbm1).
Proof.
  intros Hcheck Hcpu Hevt Hc.
  rewrite (bind_Done _ _ _ _ _ Hcheck).
  rewrite bind_getState. cbv zeta.
  rewrite isNil_false by lia.
  destruct (len (mapSlice (stats pbm1) name) <=? cpu) eqn:E1;
    [apply Z.leb_le in E1; lia |].
  destruct (MaxEventType <=? evt)%N eqn:E2; [apply N.leb_le in E2; lia |].
  change (false || false || false) with false. cbv iota.
  erewrite bind_Done; [| apply (addCell_Done UserGrid FCount); exact Hc].
  erewrite (addCell_Done UserGrid FBytes);
    [| simpl; eapply cellAt_setCell; exact Hc].
  reflexivity.
Qed.

End RecorderFacts.

(** ** Construction establishes the shape *)

Section ConstructionFacts.
Context {model : Model} {rt : GoRuntime}.

Lemma wfGrid_replicate (n : Z) :
  0 <= n ->
  wfGrid n (replicate (Z.to_nat n) (replicate (N.to_nat MaxEventType) zeroStats)).
Proof.
  intros Hn. split.
  - unfold len. rewrite length_replicate. lia.
  - apply Forall_replicate. apply length_replicate.
Qed.

Lemma wfMonitor_register (n : Z) (pbm : PerfBufferMonitor) (mName : string) :
  0 <= n -> numCPU pbm = n -> wfMonitor pbm ->
  wfMonitor
    (mkMonitor (StatsTagsCardinality pbm) (numCPU pbm) (perfBufferStatsMaps pbm)
       (<[mName := replicate (Z.to_nat n)
                     (replicate (N.to_nat MaxEventType) zeroStats)]> (stats pbm))
       (<[mName := replicate (Z.to_nat n)
                     (replicate (N.to_nat MaxEventType) zeroStats)]> (kernelStats pbm))
       (<[mName := replicate (Z.to_nat n) 0]> (readLostEvents pbm))
       (<[mName := replicate (N.to_nat MaxEventType) 0]> (sortingErrorStats pbm))
       (lastTimestamp pbm) (shouldBumpGeneration pbm)).
Proof.
  intros Hn Hcpu Hwf. destruct Hwf as [H0 Hs Hk Hr He Dk Dr De].
  split; simpl.
  - assumption.
  - intros name g [[_ <-] | [_ Hg]]%lookup_insert_Some;
      [rewrite Hcpu; apply wfGrid_replicate; assumption | eauto].
  - intros name g [[_ <-] | [_ Hg]]%lookup_insert_Some;
      [rewrite Hcpu; apply wfGrid_replicate; assumption | eauto].
  - intros name l [[_ <-] | [_ Hl]]%lookup_insert_Some;
      [unfold len; rewrite length_replicate; lia | eauto].
  - intros name a [[_ <-] | [_ Ha]]%lookup_insert_Some;
      [apply length_replicate | eauto].
  - rewrite !dom_insert_L, Dk. reflexivity.
  - rewrite !dom_insert_L, Dr. reflexivity.
  - rewrite !dom_insert_L, De. reflexivity.
Qed.

Lemma wfMonitor_empty (card : string) (n : Z) (tables : gmap string StatsMap) :
  0 <= n -> wfMonitor (mkMonitor card n tables ∅ ∅ ∅ ∅ 0 0).
Proof.
  intros Hn. split; simpl; try assumption; try reflexivity;
    intros name x Hx; rewrite lookup_empty in Hx; discriminate.
Qed.

(** Every monitor that [NewPerfBufferMonitor] returns is well formed. *)
Lemma NewPerfBufferMonitor_wf (p : Probe) (statisticsMaps : gmap string string)
  (n : Z) (pbm : PerfBufferMonitor) :
  0 <= n ->
  NewPerfBufferMonitor p statisticsMaps (inl n) = inl pbm ->
  wfMonitor pbm /\ numCPU pbm = n.
Proof.
  intros Hn. unfold NewPerfBufferMonitor.
  destruct (selectStatsMaps p (rangeMap statisticsMaps) ∅) as [tables | e];
    [| discriminate].
  intros [= <-].
  generalize (wfMonitor_empty (config_StatsTagsCardinality p) n tables Hn).
  assert (Hc : numCPU (mkMonitor (config_StatsTagsCardinality p) n tables
                         ∅ ∅ ∅ ∅ 0 0) = n) by reflexivity.
  revert Hc.
  generalize (mkMonitor (config_StatsTagsCardinality p) n tables ∅ ∅ ∅ ∅ 0 0).
  induction (manager_PerfMaps p) as [| mName names IH]; intros pbm0 Hc Hwf.
  - simpl. auto.
  - simpl. apply IH.
    + simpl. exact Hc.
    + apply wfMonitor_register; [exact Hn | exact Hc | exact Hwf].
Qed.

End ConstructionFacts.

Lemma dnsMonitor_built (table : StatsMap) :
  NewPerfBufferMonitor (model := testModel) (rt := testRuntime)
    (dnsProbe table) {["dns" := "dns_stats"]} (inl 2) = inl (dnsMonitor table).
Proof.
  unfold dnsMonitor.
  destruct (NewPerfBufferMonitor (dnsProbe table) {["dns" := "dns_stats"]} (inl 2))
    as [pbm | e] eqn:E; [reflexivity | vm_compute in E; discriminate].
Qed.

Lemma dnsMonitor_wf (table : StatsMap) :
  wfMonitor (model := testModel) (dnsMonitor table).
Proof.
  apply (NewPerfBufferMonitor_wf (model := testModel) (rt := testRuntime)
           (dnsProbe table) {["dns" := "dns_stats"]} 2); [lia |].
  apply dnsMonitor_built.
Qed.

Lemma wfMonitor_set_lastTimestamp {model : Model} (t : Z) (pbm : PerfBufferMonitor) :
  wfMonitor pbm -> wfMonitor (set_lastTimestamp t pbm).
Proof. intros [H0 Hs Hk Hr He Dk Dr De]. split; assumption. Qed.

Lemma lateMonitor_wf : wfMonitor (model := testModel) lateMonitor.
Proof. apply wfMonitor_set_lastTimestamp, dnsMonitor_wf. Qed.

Section RecorderTheorems.
Context {model : Model} {rt : GoRuntime}.

(** C5: for a registered buffer and indices in range [CountEvent] returns,
    and: when the timestamp is below a non-zero watermark, the
    sorting-error counter of (buffer, event type) grows by exactly one (in
    [int64] arithmetic), no other sorting-error counter changes, the
    generation flag is 1 and the watermark keeps its value; otherwise the
    sorting-error counters and the flag are unchanged and the watermark
    becomes the timestamp. *)
Theorem CountEvent_ordering_check (pbm : PerfBufferMonitor) (evt : EventType)
  (ts count size : Z) (name : string) (cpu : Z) (g : list (list PerfMapStats)) :
  wfMonitor pbm -> stats pbm !! name = Some g ->
  0 <= cpu < numCPU pbm -> (evt < MaxEventType)%N ->
  exists pbm' c,
    CountEvent evt ts count size name cpu pbm = Done (tt, pbm') /\
    sortingErrorCell pbm name evt = Done c /\
    (ts < lastTimestamp pbm /\ lastTimestamp pbm <> 0 ->
     sortingErrorCell pbm' name evt = Done (addInt64 c 1) /\
     (- two63 <= c < two63 - 1 -> addInt64 c 1 = c + 1) /\
     (forall name' evt', (name', evt') <> (name, evt) ->
        sortingErrorCell pbm' name' evt' = sortingErrorCell pbm name' evt') /\
     shouldBumpGeneration pbm' = 1 /\
     lastTimestamp pbm' = lastTimestamp pbm) /\
    (~ (ts < lastTimestamp pbm /\ lastTimestamp pbm <> 0) ->
     sortingErrorStats pbm' = sortingErrorStats pbm /\
     shouldBumpGeneration pbm' = shouldBumpGeneration pbm /\
     lastTimestamp pbm' = ts).
Proof.
  intros Hwf Hg Hcpu Hevt.
  destruct (wf_sortingError_cell pbm name g evt Hwf Hg Hevt)
    as (arr & c & Harr & Hc & Hcell).
  destruct (wf_user_cell pbm name g cpu evt Hwf Hg Hcpu Hevt) as [c0 Hc0].
  assert (Hlen : len (mapSlice (stats pbm) name) = numCPU pbm).
  { rewrite (mapSlice_Some _ _ _ Hg). apply (wf_stats pbm Hwf name g Hg). }
  destruct ((ts <? lastTimestamp pbm) && negb (lastTimestamp pbm =? 0)) eqn:Hord.
  - apply andb_true_iff in Hord as [Hlt Hnz].
    apply Z.ltb_lt in Hlt. apply negb_true_iff, Z.eqb_neq in Hnz.
    set (pbm1 := set_shouldBumpGeneration 1
                   (setSortingErrorCell name evt (addInt64 c 1) pbm)).
    exists (recordCell evt name cpu count size c0 pbm1), c.
    split; [| split; [exact Hcell | split]].
    + unfold CountEvent. apply CountEvent_sanity_passed.
      * cbv beta. rewrite Hcell.
        destruct (ts <? lastTimestamp pbm) eqn:E; [| apply Z.ltb_ge in E; lia].
        destruct (lastTimestamp pbm =? 0) eqn:E'; [apply Z.eqb_eq in E'; lia |].
        reflexivity.
      * simpl. lia.
      * exact Hevt.
      * exact Hc0.
    + intros _. repeat split.
      * apply (sortingErrorCell_set_eq pbm name evt c). exact Hcell.
      * apply addInt64_succ.
      * intros name' evt' Hne.
        apply (sortingErrorCell_set_ne pbm name name' evt evt' c); assumption.
    + intros Hno. exfalso. apply Hno. split; assumption.
  - exists (recordCell evt name cpu count size c0 (set_lastTimestamp ts pbm)), c.
    split; [| split; [exact Hcell | split]].
    + unfold CountEvent. apply CountEvent_sanity_passed.
      * cbv beta. rewrite Hord. reflexivity.
      * simpl. lia.
      * exact Hevt.
      * exact Hc0.
    + intros [Hlt Hnz]. exfalso.
      apply andb_false_iff in Hord as [E | E].
      * apply Z.ltb_ge in E. lia.
      * apply negb_false_iff, Z.eqb_eq in E. lia.
    + intros _. repeat split.
Qed.

Lemma CountEvent_sanity_failed (evt : EventType) (count size : Z) (name : string)
  (cpu : Z) (pbm pbm1 : PerfBufferMonitor) (check : Go PerfBufferMonitor unit) :
  check pbm = Done (tt, pbm1) ->
  invalidTarget pbm1 name cpu evt ->
  (_ ← check;
   pbm ← getState;
   let grid := mapSlice (stats pbm) name in
   if isNil grid || (len grid <=? cpu) || (MaxEventType <=? evt)%N then mret tt
   else
     _ ← addCell UserGrid FCount evt name cpu count;
     addCell UserGrid FBytes evt name cpu size) pbm
  = Done (tt, pbm1).
Proof.
  intros Hcheck Hinv.
  rewrite (bind_Done _ _ _ _ _ Hcheck), bind_getState. cbv zeta.
  replace (isNil (mapSlice (stats pbm1) name)
           || (len (mapSlice (stats pbm1) name) <=? cpu)
           || (MaxEventType <=? evt)%N) with true; [reflexivity |].
  symmetry. destruct Hinv as [H | [H | H]].
  - rewrite H. reflexivity.
  - apply Z.leb_le in H. rewrite H. apply orb_true_iff. left. apply orb_true_r.
  - apply N.leb_le in H. rewrite H. apply orb_true_r.
Qed.

(** C2 (amended): a [CountEvent] call whose target is not a cell of the
    user grid never changes the user grid, the kernel grid or the
    lost-event counters.  The ordering check still runs first: when the
    timestamp is not below a non-zero watermark the call returns and only
    moves the watermark to the timestamp; when it is below and the
    sorting-error counter of (buffer, event type) exists, the call returns
    with that counter incremented and the generation flag set. *)
Theorem CountEvent_invalid_target (pbm : PerfBufferMonitor) (evt : EventType)
  (ts count size : Z) (name : string) (cpu : Z) :
  invalidTarget pbm name cpu evt ->
  (~ (ts < lastTimestamp pbm /\ lastTimestamp pbm <> 0) ->
   CountEvent evt ts count size name cpu pbm = Done (tt, set_lastTimestamp ts pbm)) /\
  (ts < lastTimestamp pbm /\ lastTimestamp pbm <> 0 ->
   forall c, sortingErrorCell pbm name evt = Done c ->
     CountEvent evt ts count size name cpu pbm =
       Done (tt, set_shouldBumpGeneration 1
                   (setSortingErrorCell name evt (addInt64 c 1) pbm))) /\
  (forall pbm', CountEvent evt ts count size name cpu pbm = Done (tt, pbm') ->
     stats pbm' = stats pbm /\ kernelStats pbm' = kernelStats pbm /\
     readLostEvents pbm' = readLostEvents pbm).
Proof.
  intros Hinv.
  assert (Hno : ~ (ts < lastTimestamp pbm /\ lastTimestamp pbm <> 0) ->
                CountEvent evt ts count size name cpu pbm
                = Done (tt, set_lastTimestamp ts pbm)).
  { intros Hord. unfold CountEvent. apply CountEvent_sanity_failed; [| exact Hinv].
    cbv beta. destruct (ts <? lastTimestamp pbm) eqn:E; [| reflexivity].
    destruct (lastTimestamp pbm =? 0) eqn:E'; [reflexivity |].
    apply Z.ltb_lt in E. apply Z.eqb_neq in E'. tauto. }
  assert (Hyes : ts < lastTimestamp pbm /\ lastTimestamp pbm <> 0 ->
                 forall c, sortingErrorCell pbm name evt = Done c ->
                   CountEvent evt ts count size name cpu pbm =
                     Done (tt, set_shouldBumpGeneration 1
                                 (setSortingErrorCell name evt (addInt64 c 1) pbm))).
  { intros [Hlt Hnz] c Hc. unfold CountEvent.
    apply CountEvent_sanity_failed; [| exact Hinv].
    cbv beta. rewrite Hc.
    destruct (ts <? lastTimestamp pbm) eqn:E; [| apply Z.ltb_ge in E; lia].
    destruct (lastTimestamp pbm =? 0) eqn:E'; [apply Z.eqb_eq in E'; lia |].
    reflexivity. }
  split; [exact Hno | split; [exact Hyes |]].
  intros pbm' Hrun.
  destruct (decide (ts < lastTimestamp pbm /\ lastTimestamp pbm <> 0)) as [Hord | Hord].
  - destruct (sortingErrorCell pbm name evt) as [c | p] eqn:Hc.
    + rewrite (Hyes Hord c eq_refl) in Hrun. injection Hrun as <-. auto.
    + exfalso. revert Hrun. unfold CountEvent.
      erewrite bind_Panic; [discriminate |].
      cbv beta. rewrite Hc. destruct Hord as [Hlt Hnz].
      destruct (ts <? lastTimestamp pbm) eqn:E; [| apply Z.ltb_ge in E; lia].
      destruct (lastTimestamp pbm =? 0) eqn:E'; [apply Z.eqb_eq in E'; lia |].
      reflexivity.
  - rewrite (Hno Hord) in Hrun. injection Hrun as <-. auto.
Qed.

End RecorderTheorems.

Lemma CountEvent_ordering_check_witness :
  exists pbm',
    CountEvent (model := testModel) 3 5 1 100 "dns" 0 lateMonitor = Done (tt, pbm') /\
    shouldBumpGeneration pbm' = 1 /\ lastTimestamp pbm' = 10 /\
    sortingErrorCell (model := testModel) pbm' "dns" 3 = Done 1.
Proof.
  destruct (CountEvent_ordering_check (model := testModel) lateMonitor 3 5 1 100
              "dns" 0 (replicate 2 (replicate 8 zeroStats)) lateMonitor_wf)
    as (pbm' & c & Hrun & Hc & Hlate & _).
  - vm_compute. reflexivity.
  - vm_compute. split; [discriminate | reflexivity].
  - reflexivity.
  - exists pbm'. split; [exact Hrun |].
    destruct Hlate as (Hcell & _ & _ & Hflag & Hts).
    + vm_compute. split; [reflexivity | discriminate].
    + split; [exact Hflag | split; [exact Hts |]].
      rewrite Hcell. vm_compute in Hc. injection Hc as <-. reflexivity.
Defined.

Lemma CountEvent_invalid_target_witness :
  CountEvent (model := testModel) 3 20 1 100 "dns" 99 lateMonitor
    = Done (tt, set_lastTimestamp 20 lateMonitor) /\
  CountEvent (model := testModel) 3 5 1 100 "dns" 99 lateMonitor
    = Done (tt, set_shouldBumpGeneration 1
                  (setSortingErrorCell "dns" 3 (addInt64 0 1) lateMonitor)).
Proof.
  assert (Hinv : invalidTarget (model := testModel) lateMonitor "dns" 99 3).
  { right. left. vm_compute. discriminate. }
  split.
  - apply (proj1 (CountEvent_invalid_target (model := testModel) lateMonitor 3 20
                    1 100 "dns" 99 Hinv)).
    vm_compute. intros [H _]. discriminate H.
  - apply (proj1 (proj2 (CountEvent_invalid_target (model := testModel) lateMonitor
                           3 5 1 100 "dns" 99 Hinv))).
    + vm_compute. split; [reflexivity | discriminate].
    + vm_compute. reflexivity.
Defined.

(** C2 as stated fails.  With the watermark at 10 and cpu 99 on a host with
    two cpus: a timestamp of 20 moves the watermark, a timestamp of 5 counts
    a sorting error and raises the generation flag; for a buffer that was
    never registered a timestamp of 5 ends in a nil dereference. *)
Lemma CountEvent_invalid_target_not_silent :
  ~ silentNoOp (CountEvent (model := testModel) 3 20 1 100 "dns" 99) lateMonitor /\
  ~ silentNoOp (CountEvent (model := testModel) 3 5 1 100 "dns" 99) lateMonitor /\
  CountEvent (model := testModel) 3 5 1 100 "unknown" 0 lateMonitor
    = Panic NilDereference.
Proof.
  unfold silentNoOp. repeat split.
  - intros H. vm_compute in H. discriminate H.
  - intros H. vm_compute in H. discriminate H.
Qed.

(** ** Lost events read from the perf buffers *)

Section LostCountFacts.
Context {model : Model} {rt : GoRuntime}.

Lemma CountLostEvent_Done (count : Z) (name : string) (cpu : Z)
  (pbm : PerfBufferMonitor) (l : list Z) (v : Z) :
  readLostEvents pbm !! name = Some l -> goIndex l cpu = Some v ->
  CountLostEvent count name cpu pbm =
    Done (tt, set_readLostEvents
                (<[name := <[Z.to_nat cpu := add64 v count]> l]> (readLostEvents pbm))
                pbm).
Proof.
  intros Hl Hv. unfold CountLostEvent.
  rewrite (mapSlice_Some _ _ _ Hl), Hv.
  apply goIndex_Some in Hv as [Hcpu Hv]. apply lookup_lt_Some in Hv.
  rewrite isNil_false by (unfold len; lia).
  destruct (len l <=? cpu) eqn:E; [apply Z.leb_le in E; unfold len in E; lia |].
  reflexivity.
Qed.

Lemma getAndResetReadLostCount_Done (name : string) (cpu : Z)
  (pbm : PerfBufferMonitor) (l : list Z) (v : Z) :
  readLostEvents pbm !! name = Some l -> goIndex l cpu = Some v ->
  getAndResetReadLostCount name cpu pbm =
    Done (v, set_readLostEvents
               (<[name := <[Z.to_nat cpu := 0]> l]> (readLostEvents pbm)) pbm).
Proof.
  intros Hl Hv. unfold getAndResetReadLostCount.
  rewrite (mapSlice_Some _ _ _ Hl), Hv. reflexivity.
Qed.

Lemma GetAndResetLostCount_cpu (name : string) (cpu : Z) (pbm : PerfBufferMonitor)
  (l : list Z) (v : Z) :
  readLostEvents pbm !! name = Some l -> goIndex l cpu = Some v ->
  cpu < numCPU pbm ->
  GetAndResetLostCount name cpu pbm =
    Done (add64 0 v,
          set_readLostEvents
            (<[name := <[Z.to_nat cpu := 0]> l]> (readLostEvents pbm)) pbm).
Proof.
  intros Hl Hv Hn. pose proof (proj1 (goIndex_Some _ _ _) Hv) as [Hcpu _].
  unfold GetAndResetLostCount. rewrite bind_getState.
  destruct (cpu =? -1) eqn:E; [apply Z.eqb_eq in E; lia |].
  destruct (0 <=? cpu) eqn:E1; [| apply Z.leb_gt in E1; lia].
  destruct (cpu <? numCPU pbm) eqn:E2; [| apply Z.ltb_ge in E2; lia].
  cbn [andb].
  erewrite bind_Done; [| eapply getAndResetReadLostCount_Done; eassumption].
  reflexivity.
Qed.

Lemma is_uint64_add64 (a b : Z) : is_uint64 (add64 a b).
Proof. unfold is_uint64, add64, two64. apply Z.mod_pos_bound. lia. Qed.

Lemma sumZ_uint64_nonneg (l : list Z) : Forall is_uint64 l -> 0 <= sumZ l.
Proof.
  induction 1 as [| x l Hx _ IH]; simpl; [lia |]. unfold is_uint64 in Hx. lia.
Qed.

(** Draining the cpus [k .. n-1] one call at a time and in one aggregate
    loop goes through the same states; each single value is the counter of
    its cpu, and the aggregate total is their sum on [uint64]. *)
Lemma drain_loops_agree (name : string) (n : Z) (j : nat) :
  forall (k : Z) (pbm : PerfBufferMonitor) (cur : list Z) (acc : Z) (vs : list Z),
    readLostEvents pbm !! name = Some cur -> len cur = n -> numCPU pbm = n ->
    0 <= k -> k + Z.of_nat j = n -> is_uint64 acc ->
    exists pbm',
      foldGo (fun cpu vs => v ← GetAndResetLostCount name cpu; mret (vs ++ [v]))
        (seqZ k (Z.of_nat j)) vs pbm
      = Done (vs ++ (add64 0 <$> drop (Z.to_nat k) cur), pbm') /\
      foldGo (fun i total => v ← getAndResetReadLostCount name i; mret (add64 total v))
        (seqZ k (Z.of_nat j)) acc pbm
      = Done ((acc + sumZ (add64 0 <$> drop (Z.to_nat k) cur)) mod two64, pbm').
Proof.
  induction j as [| j IH]; intros k pbm cur acc vs Hcur Hlen Hn Hk Hkj Hacc.
  - exists pbm. unfold len in Hlen.
    rewrite drop_ge by lia. simpl. rewrite app_nil_r, Z.add_0_r.
    unfold is_uint64 in Hacc. rewrite Z.mod_small by exact Hacc. auto.
  - rewrite seqZ_cons by lia.
    replace (Z.pred (Z.of_nat (S j))) with (Z.of_nat j) by lia.
    destruct (goIndex_in_range cur k) as [v Hv]; [lia |].
    pose proof (proj1 (goIndex_Some _ _ _) Hv) as [_ Hv'].
    set (pbm1 := set_readLostEvents
                   (<[name := <[Z.to_nat k := 0]> cur]> (readLostEvents pbm)) pbm).
    destruct (IH (Z.succ k) pbm1 (<[Z.to_nat k := 0]> cur) (add64 acc v)
                (vs ++ [add64 0 v])) as (pbm' & Heach & Hagg).
    + simpl. apply lookup_insert_eq.
    + unfold len in *. rewrite length_insert. exact Hlen.
    + exact Hn.
    + lia.
    + lia.
    + apply is_uint64_add64.
    + exists pbm'.
      replace (Z.to_nat (Z.succ k)) with (S (Z.to_nat k)) in Heach, Hagg by lia.
      rewrite drop_insert_lt in Heach, Hagg by lia.
      rewrite (drop_S cur v (Z.to_nat k) Hv').
      split.
      * simpl foldGo.
        erewrite bind_Done;
          [| erewrite bind_Done;
             [reflexivity | eapply GetAndResetLostCount_cpu; [eassumption .. | lia]]].
        fold pbm1. rewrite Heach. rewrite <- app_assoc. reflexivity.
      * simpl foldGo.
        erewrite bind_Done;
          [| erewrite bind_Done;
             [reflexivity | eapply getAndResetReadLostCount_Done; eassumption]].
        fold pbm1. rewrite Hagg. do 2 f_equal.
        rewrite fmap_cons. simpl sumZ. unfold add64.
        rewrite Z.add_0_l.
        set (rest := sumZ _).
        rewrite Zplus_mod_idemp_l.
        replace (acc + (v mod two64 + rest)) with (v mod two64 + (acc + rest)) by lia.
        rewrite Zplus_mod_idemp_l. f_equal. lia.
Qed.

(** C8: [GetAndResetLostCount] drains.  After [CountLostEvent(4, b, 0)] and
    [CountLostEvent(2, b, 0)] on a registered buffer whose counter for cpu 0
    was at zero, [GetAndResetLostCount(b, 0)] returns 6 and the next call
    returns 0.  And for a registered buffer [GetAndResetLostCount(b, -1)]
    returns the sum (on [uint64]; the exact sum when it fits) of the values
    that [GetAndResetLostCount(b, cpu)] yields for the cpus in turn, which
    are the counters of the cpus, and both leave the same monitor. *)
Theorem GetAndResetLostCount_drains (pbm : PerfBufferMonitor) (name : string)
  (l : list Z) :
  wfMonitor pbm -> readLostEvents pbm !! name = Some l ->
  (l !! 0%nat = Some 0 ->
   exists pbm1 pbm2,
     (_ ← CountLostEvent 4 name 0; _ ← CountLostEvent 2 name 0;
      GetAndResetLostCount name 0) pbm = Done (6, pbm1) /\
     GetAndResetLostCount name 0 pbm1 = Done (0, pbm2)) /\
  (exists pbm',
     drainEachCPU name pbm = Done (add64 0 <$> l, pbm') /\
     GetAndResetLostCount name (-1) pbm
       = Done (sumZ (add64 0 <$> l) mod two64, pbm') /\
     (sumZ (add64 0 <$> l) < two64 ->
      GetAndResetLostCount name (-1) pbm = Done (sumZ (add64 0 <$> l), pbm'))).
Proof.
  intros Hwf Hl. pose proof (wf_readLostEvents pbm Hwf name l Hl) as Hlen.
  split.
  - intros H0.
    assert (Hn : 0 < numCPU pbm).
    { apply lookup_lt_Some in H0. unfold len in Hlen. lia. }
    assert (Hi : forall (l' : list Z) v, l' !! 0%nat = Some v -> goIndex l' 0 = Some v).
    { intros l' v H. apply goIndex_Some. split; [lia | exact H]. }
    assert (Hins : forall (l' : list Z) v, (0 < length l')%nat ->
                     <[0%nat := v]> l' !! 0%nat = Some v).
    { intros l' v H. apply list_lookup_insert_eq. exact H. }
    pose proof (lookup_lt_Some _ _ _ H0) as Hpos.
    eexists _, _. split.
    + erewrite bind_Done; [| eapply CountLostEvent_Done; [exact Hl | apply Hi, H0]].
      erewrite bind_Done;
        [| eapply CountLostEvent_Done;
           [apply lookup_insert_eq | apply Hi, Hins, Hpos]].
      erewrite (GetAndResetLostCount_cpu name 0 _ _ (add64 (add64 0 4) 2));
        [reflexivity | simpl; apply lookup_insert_eq | | simpl; exact Hn].
      apply Hi, Hins. rewrite length_insert. exact Hpos.
    + erewrite (GetAndResetLostCount_cpu name 0 _ _ 0);
        [reflexivity | simpl; apply lookup_insert_eq | | simpl; exact Hn].
      apply Hi, Hins. rewrite !length_insert. exact Hpos.
  - pose proof (wf_numCPU pbm Hwf) as Hn0.
    destruct (drain_loops_agree name (numCPU pbm) (Z.to_nat (numCPU pbm)) 0 pbm l 0 []
                Hl Hlen eq_refl) as (pbm' & Heach & Hagg);
      [lia | lia | unfold is_uint64, two64; lia |].
    rewrite Z2Nat.id in Heach, Hagg by exact Hn0.
    change (Z.to_nat 0) with 0%nat in Heach, Hagg. rewrite drop_0 in Heach, Hagg.
    simpl in Heach. rewrite Z.add_0_l in Hagg.
    assert (Hall : GetAndResetLostCount name (-1) pbm
                   = Done (sumZ (add64 0 <$> l) mod two64, pbm')).
    { unfold GetAndResetLostCount. rewrite bind_getState.
      change (-1 =? -1) with true. cbv iota.
      rewrite (mapSlice_Some _ _ _ Hl). unfold rangeIdx. rewrite Hlen. exact Hagg. }
    exists pbm'. split; [| split].
    + unfold drainEachCPU. rewrite bind_getState. exact Heach.
    + exact Hall.
    + intros Hfit. rewrite Hall. rewrite Z.mod_small; [reflexivity |].
      split; [| exact Hfit]. apply sumZ_uint64_nonneg.
      apply Forall_fmap, Forall_forall. intros x _. apply is_uint64_add64.
Qed.

End LostCountFacts.

Lemma wfMonitor_update_readLostEvents {model : Model} (pbm : PerfBufferMonitor)
  (name : string) (l l' : list Z) :
  wfMonitor pbm -> readLostEvents pbm !! name = Some l -> length l' = length l ->
  wfMonitor (set_readLostEvents (<[name := l']> (readLostEvents pbm)) pbm).
Proof.
  intros [H0 Hs Hk Hr He Dk Dr De] Hl Hlen. split; simpl; try assumption.
  - intros name' x [[_ <-] | [_ Hx]]%lookup_insert_Some; [| eauto].
    unfold len. rewrite Hlen. apply (Hr name l Hl).
  - rewrite dom_insert_lookup_L by eauto. exact Dr.
Qed.

Lemma lossyMonitor_wf : wfMonitor (model := testModel) lossyMonitor.
Proof.
  replace lossyMonitor with
    (set_readLostEvents (<["dns" := [4; 3]]> (readLostEvents (dnsMonitor (okTable []))))
       (dnsMonitor (okTable [])))
    by (vm_compute; reflexivity).
  apply (wfMonitor_update_readLostEvents _ "dns" [0; 0]);
    [apply dnsMonitor_wf | vm_compute; reflexivity | reflexivity].
Qed.

Lemma GetAndResetLostCount_drains_witness :
  (exists pbm1 pbm2,
     (_ ← CountLostEvent 4 "dns" 0; _ ← CountLostEvent 2 "dns" 0;
      GetAndResetLostCount "dns" 0) (dnsMonitor (okTable [])) = Done (6, pbm1) /\
     GetAndResetLostCount "dns" 0 pbm1 = Done (0, pbm2)) /\
  (exists pbm',
     drainEachCPU "dns" lossyMonitor = Done ([4; 3], pbm') /\
     GetAndResetLostCount "dns" (-1) lossyMonitor = Done (7, pbm')).
Proof.
  split.
  - apply (proj1 (GetAndResetLostCount_drains (model := testModel)
                    (dnsMonitor (okTable [])) "dns" [0; 0] (dnsMonitor_wf _)
                    ltac:(vm_compute; reflexivity))).
    reflexivity.
  - destruct (proj2 (GetAndResetLostCount_drains (model := testModel)
                       lossyMonitor "dns" [4; 3] lossyMonitor_wf
                       ltac:(vm_compute; reflexivity)))
      as (pbm' & Heach & _ & Hall).
    exists pbm'. split; [exact Heach |]. apply Hall. vm_compute. reflexivity.
Defined.

(** ** The query accessors *)

Section AccessorFacts.
Context {model : Model} {rt : GoRuntime}.

(** With an empty buffer name the cells are read from the buffer named by
    the empty string, not from the buffers in [maps]: as soon as a
    registered buffer has a row, the first read is out of range. *)
Lemma GetEventStats_all_buffers_panics (pbm : PerfBufferMonitor) (evt : EventType)
  (cpu : Z) (m : string) (g : list (list PerfMapStats))
  (rest : list (string * list (list PerfMapStats))) :
  (evt < MaxEventType)%N ->
  rangeMap (stats pbm) = (m, g) :: rest -> stats pbm !! m = Some g -> g <> [] ->
  stats pbm !! "" = None ->
  cpu = -1 \/ 0 <= cpu < numCPU pbm ->
  GetEventStats evt "" cpu pbm = Panic IndexOutOfRange.
Proof.
  intros Hevt Hrange Hm Hg Hnone Hcpu.
  assert (Hread : forall i, getEventCount evt "" i pbm = Panic IndexOutOfRange).
  { intros i. unfold getEventCount, loadCell, cellAt, mapSlice. simpl.
    rewrite Hnone. simpl. unfold goIndex. destruct (i <? 0); reflexivity. }
  unfold GetEventStats. rewrite bind_getState.
  destruct (MaxEventType <=? evt)%N eqn:E; [apply N.leb_le in E; lia |].
  change (String.length "" =? 0)%nat with true. cbv iota zeta.
  rewrite Hrange. simpl fmap. simpl foldGo.
  apply bind_Panic.
  destruct Hcpu as [-> | Hcpu].
  - change (-1 =? -1) with true. cbv iota.
    rewrite (mapSlice_Some _ _ _ Hm).
    destruct g as [| row g']; [congruence |].
    unfold rangeIdx, len. rewrite seqZ_cons by (simpl; lia). simpl foldGo.
    apply bind_Panic, bind_Panic, Hread.
  - destruct (cpu =? -1) eqn:E1; [apply Z.eqb_eq in E1; lia |].
    destruct (0 <=? cpu) eqn:E2; [| apply Z.leb_gt in E2; lia].
    destruct (cpu <? numCPU pbm) eqn:E3; [| apply Z.ltb_ge in E3; lia].
    cbn [andb]. apply bind_Panic, Hread.
Qed.

Lemma GetEventStats_rows (pbm : PerfBufferMonitor) (name : string)
  (g : list (list PerfMapStats)) (evt : EventType) (j : nat) :
  wfMonitor pbm -> stats pbm !! name = Some g -> (evt < MaxEventType)%N ->
  forall (k : Z) (acc : PerfMapStats),
    0 <= k -> k + Z.of_nat j = len g ->
    is_uint64 (Bytes acc) -> is_uint64 (Count acc) ->
    foldGo (fun i (st : PerfMapStats) =>
              c ← getEventCount evt name i;
              let st := mkStats (Bytes st) (add64 (Count st) c) (Lost st) in
              b ← getEventBytes evt name i;
              mret (mkStats (add64 (Bytes st) b) (Count st) (Lost st)))
      (seqZ k (Z.of_nat j)) acc pbm
    = Done (mkStats
              ((Bytes acc
                + sumZ ((fun row => Bytes (default zeroStats (row !! N.to_nat evt)))
                          <$> drop (Z.to_nat k) g)) mod two64)
              ((Count acc
                + sumZ ((fun row => Count (default zeroStats (row !! N.to_nat evt)))
                          <$> drop (Z.to_nat k) g)) mod two64)
              (Lost acc), pbm).
Proof.
  intros Hwf Hg Hevt. pose proof (wf_stats pbm Hwf name g Hg) as Hgrid.
  induction j as [| j IH]; intros k acc Hk Hkj Hb Hc.
  - unfold len in Hkj. rewrite drop_ge by lia. simpl. rewrite !Z.add_0_r.
    unfold is_uint64 in Hb, Hc. rewrite !Z.mod_small by assumption.
    destruct acc; reflexivity.
  - rewrite seqZ_cons by lia.
    replace (Z.pred (Z.of_nat (S j))) with (Z.of_nat j) by lia.
    destruct (wfGrid_cell (numCPU pbm) g k evt Hgrid) as (row & c & Hrow & Hcell);
      [destruct Hgrid as [Hl _]; lia | exact Hevt |].
    pose proof (proj1 (goIndex_Some _ _ _) Hrow) as [_ Hrow'].
    assert (Hread : cellAt (stats pbm) name k evt = Some c).
    { apply cellAt_Some. exists row. rewrite (mapSlice_Some _ _ _ Hg). auto. }
    cbn [foldGo].
    erewrite bind_Done;
      [| erewrite bind_Done;
         [| unfold getEventCount, loadCell; simpl; rewrite Hread; reflexivity];
         cbv zeta;
         erewrite bind_Done;
         [reflexivity
         | unfold getEventBytes, loadCell; simpl; rewrite Hread; reflexivity]].
    rewrite IH; [| lia | lia | apply is_uint64_add64 | apply is_uint64_add64].
    cbn [Bytes Count Lost getField].
    replace (Z.to_nat (Z.succ k)) with (S (Z.to_nat k)) by lia.
    rewrite (drop_S g row (Z.to_nat k) Hrow'). rewrite !fmap_cons. cbn [sumZ foldr].
    rewrite Hcell. cbn [default]. unfold add64.
    unfold id, sumZ. rewrite !Zplus_mod_idemp_l, !Z.add_assoc. reflexivity.
Qed.

(** For a registered buffer and cpu -1 [GetEventStats] returns the sums of
    the count and of the bytes cells of the event type over the cpus, and
    leaves the monitor as it is. *)
Lemma GetEventStats_named_all_cpus (pbm : PerfBufferMonitor) (name : string)
  (g : list (list PerfMapStats)) (evt : EventType) :
  wfMonitor pbm -> stats pbm !! name = Some g -> name <> "" ->
  (evt < MaxEventType)%N ->
  GetEventStats evt name (-1) pbm
  = Done (mkStats (sumField FBytes evt g) (sumField FCount evt g) 0, pbm).
Proof.
  intros Hwf Hg Hname Hevt. unfold GetEventStats. rewrite bind_getState.
  destruct (MaxEventType <=? evt)%N eqn:E; [apply N.leb_le in E; lia |].
  assert (Hlen : (String.length name =? 0)%nat = false).
  { destruct name; [congruence | reflexivity]. }
  rewrite Hlen. cbv zeta. rewrite (mapSlice_Some _ _ _ Hg).
  destruct (isNil g) eqn:Hnil.
  - destruct g; [reflexivity | discriminate].
  - cbn [negb foldGo]. change (-1 =? -1) with true. cbv iota.
    rewrite (mapSlice_Some _ _ _ Hg).
    unfold rangeIdx. rewrite <- (Z2Nat.id (len g)) by (unfold len; lia).
    erewrite bind_Done;
      [| apply (GetEventStats_rows pbm name g evt (Z.to_nat (len g)) Hwf Hg Hevt 0
                  zeroStats); [lia | unfold len; lia | | ];
         unfold is_uint64, two64; simpl; lia].
    simpl drop. simpl Bytes. simpl Count. rewrite !Z.add_0_l. reflexivity.
Qed.

Lemma foldl_position (k : Z) (j : nat) :
  foldl (fun sc evtType => if evtType =? k then true else sc) false
    (seqZ 0 (Z.of_nat j))
  = (0 <=? k) && (k <? Z.of_nat j).
Proof.
  induction j as [| j IH].
  - simpl. destruct (0 <=? k) eqn:E; [| reflexivity].
    apply Z.leb_le in E. simpl. symmetry. apply Z.ltb_ge. lia.
  - rewrite seqZ_S, foldl_app, IH. simpl foldl. rewrite Z.add_0_l.
    destruct (Z.of_nat j =? k) eqn:E.
    + apply Z.eqb_eq in E. symmetry. apply andb_true_iff. split.
      * apply Z.leb_le. lia.
      * apply Z.ltb_lt. lia.
    + apply Z.eqb_neq in E. f_equal.
      destruct (k <? Z.of_nat j) eqn:E1.
      * apply Z.ltb_lt in E1. symmetry. apply Z.ltb_lt. lia.
      * apply Z.ltb_ge in E1. symmetry. apply Z.ltb_ge. lia.
Qed.

(** The filter of [GetAndResetKernelLostCount] selects an event type by
    its position: it is counted when it is smaller than the number of
    filter entries, whatever the entries are. *)
Lemma shouldCount_by_position (evtTypes : list EventType) (k : Z) :
  shouldCount evtTypes k
  = (len evtTypes =? 0) || ((0 <=? k) && (k <? len evtTypes)).
Proof.
  unfold shouldCount, rangeIdx.
  destruct (len evtTypes =? 0) eqn:E; [reflexivity |].
  simpl negb. cbv iota. unfold len. apply foldl_position.
Qed.

End AccessorFacts.

(** C4, on the scenario of the specification: for the registered buffer
    ["dns"] and cpu -1 [GetEventStats] adds up the cells of the two cpus
    and returns count 8 and 800 bytes; with the empty buffer name it reads
    through the empty name and stops with an index out of range instead of
    returning the aggregate over the registered buffers. *)
Lemma GetEventStats_dns_scenario :
  GetEventStats (model := testModel) (rt := testRuntime) 3 "dns" (-1) dnsScenario
    = Done (mkStats 800 8 0, dnsScenario) /\
  GetEventStats (model := testModel) (rt := testRuntime) 3 "" (-1) dnsScenario
    = Panic IndexOutOfRange.
Proof. split; vm_compute; reflexivity. Qed.

(** C9, on a kernel table that lost five [open] events (type 1) and nine
    [rename] events (type 4): without a filter all fourteen are returned;
    with the filter [rename] the result is the lost count of event type 0,
    with the filter [rename, unlink] that of the event types 0 and 1. *)
Lemma GetAndResetKernelLostCount_filter_by_position :
  result (GetAndResetKernelLostCount (model := testModel) (rt := testRuntime)
            "dns" (-1) []) (mkWorld (dnsMonitor lostTable) [] []) = Some 14 /\
  result (GetAndResetKernelLostCount (model := testModel) (rt := testRuntime)
            "dns" (-1) [4%N]) (mkWorld (dnsMonitor lostTable) [] []) = Some 0 /\
  result (GetAndResetKernelLostCount (model := testModel) (rt := testRuntime)
            "dns" (-1) [4%N; 5%N]) (mkWorld (dnsMonitor lostTable) [] []) = Some 5 /\
  result (GetAndResetKernelLostCount (model := testModel) (rt := testRuntime)
            "dns" 1 [4%N]) (mkWorld (dnsMonitor lostTable) [] []) = Some 0.
Proof. repeat split; vm_compute; reflexivity. Qed.

(** ** The kernel reconciler *)

Section ReconcilerFacts.
Context {model : Model} {rt : GoRuntime}.

Lemma liftMonitor_Done {A : Type} (m : Go PerfBufferMonitor A) (w : World) (a : A)
  (pbm : PerfBufferMonitor) :
  m (monitor w) = Done (a, pbm) ->
  liftMonitor m w = Done (a, mkWorld pbm (transport w) (effects w)).
Proof. intros H. unfold liftMonitor. rewrite H. reflexivity. Qed.

Lemma swapCell_Done (sel : GridSel) (f : Field) (evt : EventType) (name : string)
  (cpu v : Z) (pbm : PerfBufferMonitor) (c : PerfMapStats) :
  cellAt (gridOf sel pbm) name cpu evt = Some c ->
  swapCell sel f evt name cpu v pbm =
    Done (getField f c,
          setGrid sel (setCell (gridOf sel pbm) name cpu evt (setField f v c)) pbm).
Proof. intros H. unfold swapCell. rewrite H. reflexivity. Qed.

Lemma cellAt_setCell_ne (g : gmap string (list (list PerfMapStats)))
  (name name' : string) (cpu cpu' : Z) (evt evt' : EventType) (c c' : PerfMapStats) :
  cellAt g name cpu evt = Some c ->
  (name', cpu', evt') <> (name, cpu, evt) ->
  cellAt (setCell g name cpu evt c') name' cpu' evt' = cellAt g name' cpu' evt'.
Proof.
  intros (row & Hrow & Hc)%cellAt_Some Hne.
  apply goIndex_Some in Hrow as [Hcpu Hrow].
  unfold cellAt, setCell.
  destruct (decide (name = name')) as [<- | Hn];
    [| rewrite mapSlice_insert_ne by assumption; reflexivity].
  rewrite mapSlice_insert. unfold goIndex.
  destruct (cpu' <? 0) eqn:E; [reflexivity |]. apply Z.ltb_ge in E.
  destruct (decide (Z.to_nat cpu = Z.to_nat cpu')) as [Heq | Hd].
  - assert (cpu' = cpu) as -> by lia.
    rewrite list_lookup_alter_eq, Hrow. simpl.
    rewrite list_lookup_insert_ne; [reflexivity |].
    intros He. apply Hne. f_equal. lia.
  - rewrite list_lookup_alter_ne by assumption. reflexivity.
Qed.

Lemma reconcileCPU_sanity_passed (client : ClientRef) (name : string)
  (evt : EventType) (tags : list string) (cpu : Z) (new prev : PerfMapStats)
  (total : Z) (perEvent : gmap string Z) (w : World) :
  mapSlice (stats (monitor w)) name <> [] ->
  cpu < len (mapSlice (stats (monitor w)) name) ->
  (evt < MaxEventType)%N ->
  cellAt (kernelStats (monitor w)) name cpu evt = Some prev ->
  reconcileCPU client name evt tags (cpu, new) (total, perEvent) w =
    accountDelta client tags (EventType_String evt) (kernelDelta prev new)
      (total, initPerEvent (EventType_String evt) perEvent)
      (mkWorld (afterSwaps name cpu evt prev new (monitor w))
         (transport w) (effects w)).
Proof.
  intros Hnil Hcpu Hevt Hprev.
  unfold reconcileCPU. rewrite bind_getState. cbv zeta.
  replace (isNil (mapSlice (stats (monitor w)) name)) with false
    by (destruct (mapSlice (stats (monitor w)) name); [congruence | reflexivity]).
  destruct (len (mapSlice (stats (monitor w)) name) <=? cpu) eqn:E1;
    [apply Z.leb_le in E1; lia |].
  destruct (MaxEventType <=? evt)%N eqn:E2; [apply N.leb_le in E2; lia |].
  change (false || false || false) with false. cbv iota.
  unfold swapKernelEventBytes, swapKernelEventCount, swapKernelLostCount.
  erewrite bind_Done;
    [| apply liftMonitor_Done, (swapCell_Done KernelGrid FBytes); exact Hprev].
  erewrite bind_Done;
    [| apply liftMonitor_Done, (swapCell_Done KernelGrid FCount); simpl;
       eapply cellAt_setCell; exact Hprev].
  erewrite bind_Done;
    [| apply liftMonitor_Done, (swapCell_Done KernelGrid FLost); simpl;
       eapply cellAt_setCell, cellAt_setCell; exact Hprev].
  unfold afterSwaps, kernelDelta. simpl.
  destruct (isMutationEvent evt).
  - erewrite bind_Done; [| apply liftMonitor_Done; reflexivity]. reflexivity.
  - erewrite bind_Done; [| reflexivity]. destruct w. reflexivity.
Qed.

Lemma afterSwaps_cell (name : string) (cpu : Z) (evt : EventType)
  (prev new : PerfMapStats) (pbm : PerfBufferMonitor) :
  cellAt (kernelStats pbm) name cpu evt = Some prev ->
  cellAt (kernelStats (afterSwaps name cpu evt prev new pbm)) name cpu evt = Some new.
Proof.
  intros Hprev. unfold afterSwaps.
  assert (H : forall p, kernelStats (if isMutationEvent evt
                                     then set_shouldBumpGeneration 1 p else p)
                        = kernelStats p)
    by (intros p; destruct (isMutationEvent evt); reflexivity).
  rewrite H. simpl. destruct new as [b c l]. simpl.
  eapply cellAt_setCell, cellAt_setCell, cellAt_setCell. exact Hprev.
Qed.

Lemma afterSwaps_frame (name : string) (cpu : Z) (evt : EventType)
  (prev new : PerfMapStats) (pbm : PerfBufferMonitor)
  (name' : string) (cpu' : Z) (evt' : EventType) :
  cellAt (kernelStats pbm) name cpu evt = Some prev ->
  (name', cpu', evt') <> (name, cpu, evt) ->
  cellAt (kernelStats (afterSwaps name cpu evt prev new pbm)) name' cpu' evt'
  = cellAt (kernelStats pbm) name' cpu' evt'.
Proof.
  intros Hprev Hne. unfold afterSwaps.
  assert (H : forall p, kernelStats (if isMutationEvent evt
                                     then set_shouldBumpGeneration 1 p else p)
                        = kernelStats p)
    by (intros p; destruct (isMutationEvent evt); reflexivity).
  rewrite H. simpl.
  erewrite cellAt_setCell_ne;
    [| eapply cellAt_setCell, cellAt_setCell; exact Hprev | exact Hne].
  erewrite cellAt_setCell_ne; [| eapply cellAt_setCell; exact Hprev | exact Hne].
  erewrite cellAt_setCell_ne; [reflexivity | exact Hprev | exact Hne].
Qed.

Lemma subtractSnapshot_cases (prev new : Z) :
  (prev <= new -> subtractSnapshot prev new = new - prev) /\
  (prev > new -> subtractSnapshot prev new = new) /\
  (0 <= prev -> 0 <= new -> 0 <= subtractSnapshot prev new <= new).
Proof.
  unfold subtractSnapshot. destruct (prev <=? new) eqn:E.
  - apply Z.leb_le in E. lia.
  - apply Z.leb_gt in E. lia.
Qed.

End ReconcilerFacts.

Section ReconcilerTheorems.
Context {model : Model} {rt : GoRuntime}.

(** C1 (amended): for a cell that passes the sanity checks, the reconciler
    stores the newly read values in the kernel grid and hands on, field by
    field (bytes, count, lost), the delta [new - previous] when
    [previous <= new] and the newly read value itself when the kernel
    counter decreased; the delta is never negative and never exceeds the
    newly read value. *)
Theorem reconcileCPU_delta (client : ClientRef) (name : string) (evt : EventType)
  (tags : list string) (cpu : Z) (new prev : PerfMapStats) (total : Z)
  (perEvent : gmap string Z) (w : World) :
  mapSlice (stats (monitor w)) name <> [] ->
  cpu < len (mapSlice (stats (monitor w)) name) ->
  (evt < MaxEventType)%N ->
  cellAt (kernelStats (monitor w)) name cpu evt = Some prev ->
  reconcileCPU client name evt tags (cpu, new) (total, perEvent) w =
    accountDelta client tags (EventType_String evt) (kernelDelta prev new)
      (total, initPerEvent (EventType_String evt) perEvent)
      (mkWorld (afterSwaps name cpu evt prev new (monitor w))
         (transport w) (effects w)) /\
  cellAt (kernelStats (afterSwaps name cpu evt prev new (monitor w))) name cpu evt
    = Some new /\
  forall f : Field,
    (getField f prev <= getField f new ->
     getField f (kernelDelta prev new) = getField f new - getField f prev) /\
    (getField f prev > getField f new ->
     getField f (kernelDelta prev new) = getField f new) /\
    (0 <= getField f prev -> 0 <= getField f new ->
     0 <= getField f (kernelDelta prev new) <= getField f new).
Proof.
  intros Hnil Hcpu Hevt Hprev. split; [| split].
  - apply reconcileCPU_sanity_passed; assumption.
  - apply afterSwaps_cell. exact Hprev.
  - intros f. destruct f; simpl; apply subtractSnapshot_cases.
Qed.

End ReconcilerTheorems.

Lemma reconcileCPU_delta_witness :
  getField FBytes (kernelDelta (mkStats 10 10 10) (mkStats 3 3 3)) = 3 /\
  getField FCount (kernelDelta (mkStats 10 10 10) (mkStats 13 13 13)) = 3.
Proof.
  pose proof (reconcileCPU_delta (model := testModel)
                StatsdClient "dns" 4 ["cardinality:low"; "map:dns"; "event_type:rename"]
                0 (mkStats 3 3 3) (mkStats 10 10 10) 0 ∅ resetWorld
                ltac:(vm_compute; discriminate) ltac:(vm_compute; reflexivity)
                ltac:(reflexivity) ltac:(vm_compute; reflexivity))
    as (_ & _ & Hdown).
  pose proof (reconcileCPU_delta (model := testModel)
                StatsdClient "dns" 4 ["cardinality:low"; "map:dns"; "event_type:rename"]
                0 (mkStats 13 13 13) (mkStats 10 10 10) 0 ∅ resetWorld
                ltac:(vm_compute; discriminate) ltac:(vm_compute; reflexivity)
                ltac:(reflexivity) ltac:(vm_compute; reflexivity))
    as (_ & _ & Hup).
  split.
  - apply (proj1 (proj2 (Hdown FBytes))). simpl. lia.
  - rewrite (proj1 (Hup FCount)); simpl; lia.
Defined.

(** C1 as stated fails.  The kernel grid holds the snapshot 10/10/10 and
    the table reads 3/3/3: the reconciler sends 3 for each field, where
    the claimed delta is zero and nothing would be sent. *)
Lemma kernel_reset_emits_new_value :
  cellAt (kernelStats (monitor resetWorld)) "dns" 0 4 = Some (mkStats 10 10 10) /\
  effects <$> run (collectAndSendKernelStats (model := testModel)
                     (rt := testRuntime) StatsdClient) resetWorld
  = Some [StatsdCount MetricPerfBufferEventsWrite 3
            ["cardinality:low"; "map:dns"; "event_type:rename"];
          StatsdCount MetricPerfBufferBytesWrite 3
            ["cardinality:low"; "map:dns"; "event_type:rename"];
          StatsdCount MetricPerfBufferLostWrite 3
            ["cardinality:low"; "map:dns"; "event_type:rename"];
          DispatchLostWrite "dns" (<["rename" := 3]> ∅)] /\
  subtractSnapshot 10 3 = 3 /\ claimedDelta 10 3 = 0.
Proof. repeat split; vm_compute; reflexivity. Qed.

(** ** Relations that a computation keeps *)

Section Keeps.
Context {S : Type} (R : S -> S -> Prop).
Hypothesis R_refl : forall s, R s s.
Hypothesis R_trans : forall s1 s2 s3, R s1 s2 -> R s2 s3 -> R s1 s3.

Lemma keeps_ret {A : Type} (a : A) : keeps R (mret a : Go S A).
Proof using R_refl. intros s a' s' [= _ <-]. apply R_refl. Qed.

Lemma keeps_getState : keeps R (getState : Go S S).
Proof using R_refl. intros s a' s' [= _ <-]. apply R_refl. Qed.

Lemma keeps_bind {A B : Type} (m : Go S A) (k : A -> Go S B) :
  keeps R m -> (forall a, keeps R (k a)) -> keeps R (m ≫= k).
Proof using R_trans.
  intros Hm Hk s b s' (a & s1 & H1 & H2)%bind_inv.
  eapply R_trans; [eapply Hm | eapply Hk]; eassumption.
Qed.

Lemma keeps_forEach {A B Ret : Type} (body : A -> B -> Go S (Ret + B)) (l : list A) :
  (forall x acc, x ∈ l -> keeps R (body x acc)) ->
  forall acc, keeps R (forEach body l acc).
Proof using R_refl R_trans.
  induction l as [| x l IH]; intros Hbody acc; simpl.
  - apply keeps_ret.
  - apply keeps_bind; [apply Hbody; left |].
    intros [v | acc']; [apply keeps_ret |].
    apply IH. intros y acc0 Hy. apply Hbody. right. exact Hy.
Qed.

Lemma keeps_foldGo {A B : Type} (body : A -> B -> Go S B) (l : list A) :
  (forall x acc, x ∈ l -> keeps R (body x acc)) ->
  forall acc, keeps R (foldGo body l acc).
Proof using R_refl R_trans.
  induction l as [| x l IH]; intros Hbody acc; simpl.
  - apply keeps_ret.
  - apply keeps_bind; [apply Hbody; left |].
    intros acc'. apply IH. intros y acc0 Hy. apply Hbody. right. exact Hy.
Qed.

Lemma keeps_if {A : Type} (b : bool) (m1 m2 : Go S A) :
  keeps R m1 -> keeps R m2 -> keeps R (if b then m1 else m2).
Proof. destruct b; auto. Qed.

End Keeps.

Lemma forEach_app {S A B Ret : Type} (body : A -> B -> Go S (Ret + B))
  (l1 l2 : list A) (acc : B) (s : S) :
  forEach body (l1 ++ l2) acc s =
    (r ← forEach body l1 acc;
     match r with
     | inl v => mret (inl v)
     | inr acc' => forEach body l2 acc'
     end) s.
Proof.
  revert acc s. induction l1 as [| x l1 IH]; intros acc s; simpl.
  - reflexivity.
  - unfold mbind, Go_bind in *.
    destruct (body x acc s) as [[[v | acc'] s1] | p]; simpl.
    + reflexivity.
    + apply IH.
    + reflexivity.
Qed.

Section ReconcilerKeeps.
Context {model : Model} {rt : GoRuntime}.
Context (R : World -> World -> Prop).
Hypothesis R_refl : forall w, R w w.
Hypothesis R_trans : forall w1 w2 w3, R w1 w2 -> R w2 w3 -> R w1 w3.
Hypothesis R_count : forall n v t, keeps R (clientCount n v t).

Lemma sendKernelStats_keeps (st : PerfMapStats) (tags : list string) :
  keeps R (sendKernelStats st tags).
Proof using R_refl R_trans R_count.
  unfold sendKernelStats.
  apply keeps_bind; [assumption | apply keeps_if; [apply R_count | apply keeps_ret; assumption] |].
  intros [e |]; [apply keeps_ret; assumption |].
  apply keeps_bind; [assumption | apply keeps_if; [apply R_count | apply keeps_ret; assumption] |].
  intros [e |]; [apply keeps_ret; assumption |].
  apply keeps_if; [apply R_count | apply keeps_ret; assumption].
Qed.

Lemma accountDelta_keeps (client : ClientRef) (tags : list string) (key : string)
  (st : PerfMapStats) (locals : Z * gmap string Z) :
  keeps R (accountDelta client tags key st locals).
Proof using R_refl R_trans R_count.
  unfold accountDelta. destruct locals as [total perEvent].
  apply keeps_bind; [assumption | |].
  - destruct client; [apply keeps_ret; assumption | apply sendKernelStats_keeps].
  - intros [e |]; apply keeps_ret; assumption.
Qed.

Section OneBuffer.
Variable name : string.
Hypothesis R_swap :
  forall f evt cpu v, keeps R (liftMonitor (swapCell KernelGrid f evt name cpu v)).
Hypothesis R_raise : keeps R (liftMonitor (swapShouldBumpGeneration 1)).
Hypothesis R_dispatch : forall perEvent, keeps R (emit (DispatchLostWrite name perEvent)).

Lemma reconcileCPU_keeps (client : ClientRef) (evt : EventType) (tags : list string)
  (cpuEntry : Z * PerfMapStats) (locals : Z * gmap string Z) :
  keeps R (reconcileCPU client name evt tags cpuEntry locals).
Proof using R_refl R_trans R_count R_swap R_raise.
  unfold reconcileCPU. destruct cpuEntry as [cpu st], locals as [total perEvent].
  apply keeps_bind; [assumption | apply keeps_getState; assumption |].
  intros w. cbv zeta. apply keeps_if; [apply keeps_ret; assumption |].
  apply keeps_bind; [assumption | apply R_swap |]. intros t1.
  apply keeps_bind; [assumption | apply R_swap |]. intros t2.
  apply keeps_bind; [assumption | apply R_swap |]. intros t3.
  apply keeps_bind; [assumption | |].
  - apply keeps_if; [apply R_raise | apply keeps_ret; assumption].
  - intros _. apply accountDelta_keeps.
Qed.

Lemma reconcileEntry_keeps (client : ClientRef) (entry : N * list PerfMapStats)
  (locals : Z * gmap string Z) :
  keeps R (reconcileEntry client name entry locals).
Proof using R_refl R_trans R_count R_swap R_raise.
  unfold reconcileEntry. destruct entry as [id cpuStats].
  apply keeps_if; [apply keeps_ret; assumption |].
  apply keeps_bind; [assumption | apply keeps_getState; assumption |].
  intros w. cbv zeta. apply keeps_forEach; [assumption | assumption |].
  intros x acc _. apply reconcileCPU_keeps.
Qed.

Lemma reconcileMap_keeps (client : ClientRef) (table : StatsMap) :
  keeps R (reconcileMap client (name, table) tt).
Proof using R_refl R_trans R_count R_swap R_raise R_dispatch.
  unfold reconcileMap.
  apply keeps_bind; [assumption | |].
  - apply keeps_forEach; [assumption | assumption |].
    intros x acc _. apply reconcileEntry_keeps.
  - intros [res | [total perEvent]]; [apply keeps_ret; assumption |].
    destruct (iterErr table); [apply keeps_ret; assumption |].
    apply keeps_bind; [assumption | | intros _; apply keeps_ret; assumption].
    apply keeps_if; [apply R_dispatch | apply keeps_ret; assumption].
Qed.

End OneBuffer.
End ReconcilerKeeps.

Lemma bumps_app (es1 es2 : list Effect) : bumps (es1 ++ es2) = (bumps es1 + bumps es2)%nat.
Proof.
  induction es1 as [| e es1 IH]; simpl; [reflexivity |].
  destruct e; simpl; rewrite IH; reflexivity.
Qed.

Lemma sameKernelRows_refl (q : string) (w : World) : sameKernelRows q w w.
Proof. reflexivity. Qed.

Lemma sameKernelRows_trans (q : string) (w1 w2 w3 : World) :
  sameKernelRows q w1 w2 -> sameKernelRows q w2 w3 -> sameKernelRows q w1 w3.
Proof. unfold sameKernelRows. congruence. Qed.

Lemma raisesGeneration_refl (w : World) : raisesGeneration w w.
Proof. split; [reflexivity | left; reflexivity]. Qed.

Lemma raisesGeneration_trans (w1 w2 w3 : World) :
  raisesGeneration w1 w2 -> raisesGeneration w2 w3 -> raisesGeneration w1 w3.
Proof.
  unfold raisesGeneration. intros [Hb1 Hf1] [Hb2 Hf2]. split; [congruence |].
  destruct Hf2 as [Hf2 | Hf2]; [| right; exact Hf2].
  destruct Hf1 as [Hf1 | Hf1]; [left | right]; congruence.
Qed.

Lemma sameGeneration_refl (w : World) : sameGeneration w w.
Proof. split; reflexivity. Qed.

Lemma sameGeneration_trans (w1 w2 w3 : World) :
  sameGeneration w1 w2 -> sameGeneration w2 w3 -> sameGeneration w1 w3.
Proof. unfold sameGeneration. intros [? ?] [? ?]. split; congruence. Qed.

Section ReconcilerFrame.
Context {model : Model} {rt : GoRuntime}.

Lemma reconcileMap_other_rows (client : ClientRef) (name q : string)
  (table : StatsMap) :
  q <> name -> keeps (sameKernelRows q) (reconcileMap client (name, table) tt).
Proof.
  intros Hq.
  apply reconcileMap_keeps;
    [apply sameKernelRows_refl | apply sameKernelRows_trans | | | |].
  - intros n v t w a w' [= _ <-]. reflexivity.
  - intros f evt cpu v w a w'. unfold liftMonitor, swapCell. simpl.
    destruct (cellAt (kernelStats (monitor w)) name cpu evt); [| discriminate].
    intros [= _ <-]. unfold sameKernelRows, setCell. simpl.
    apply lookup_insert_ne. congruence.
  - intros w a w' [= _ <-]. reflexivity.
  - intros perEvent w a w' [= _ <-]. reflexivity.
Qed.

Lemma reconcileMap_raisesGeneration (client : ClientRef) (name : string)
  (table : StatsMap) :
  keeps raisesGeneration (reconcileMap client (name, table) tt).
Proof.
  apply reconcileMap_keeps;
    [apply raisesGeneration_refl | apply raisesGeneration_trans | | | |].
  - intros n v t w a w' [= _ <-]. split; simpl; [| left; reflexivity].
    rewrite bumps_app. simpl. lia.
  - intros f evt cpu v w a w'. unfold liftMonitor, swapCell. simpl.
    destruct (cellAt (kernelStats (monitor w)) name cpu evt); [| discriminate].
    intros [= _ <-]. split; simpl; [reflexivity | left; reflexivity].
  - intros w a w' [= _ <-]. split; simpl; [reflexivity | right; reflexivity].
  - intros perEvent w a w' [= _ <-]. split; simpl; [| left; reflexivity].
    rewrite bumps_app. simpl. lia.
Qed.

Lemma collectAndSendKernelStats_raisesGeneration (client : ClientRef) :
  keeps raisesGeneration (collectAndSendKernelStats client).
Proof.
  unfold collectAndSendKernelStats.
  apply keeps_bind;
    [apply raisesGeneration_trans | apply keeps_getState, raisesGeneration_refl |].
  intros w.
  apply keeps_bind; [apply raisesGeneration_trans | |].
  - apply keeps_forEach; [apply raisesGeneration_refl | apply raisesGeneration_trans |].
    intros [name table] [] _. apply reconcileMap_raisesGeneration.
  - intros [res | u]; apply keeps_ret, raisesGeneration_refl.
Qed.

(** A table whose iteration fails ends the whole function: the loop over
    the perf maps never goes on to the next one. *)
Lemma reconcileMap_failing (client : ClientRef) (name : string) (bad : StatsMap)
  (e : error) (w : World) :
  iterErr bad = Some e ->
  reconcileMap client (name, bad) tt w =
    (r ← forEach (reconcileEntry client name) (entries bad) (0, ∅);
     mret (inl match r with
               | inl res => res
               | inr _ => Some (Wrapf e ("failed to dump the statistics buffer of map "
                                           +:+ name))
               end)) w.
Proof.
  intros He. unfold reconcileMap. rewrite He. unfold mbind, Go_bind.
  destruct (forEach (reconcileEntry client name) (entries bad) (0, ∅) w)
    as [[[res | [total perEvent]] w1] | p]; reflexivity.
Qed.

Lemma forEach_stops_at_failing (client : ClientRef) (name : string) (bad : StatsMap)
  (e : error) (pre post : list (string * StatsMap)) (w : World) :
  iterErr bad = Some e ->
  forEach (reconcileMap client) (pre ++ (name, bad) :: post) tt w
  = forEach (reconcileMap client) (pre ++ [(name, bad)]) tt w.
Proof.
  intros He. rewrite !forEach_app. unfold mbind, Go_bind.
  destruct (forEach (reconcileMap client) pre tt w) as [[[res | []] w1] | p];
    [reflexivity | | reflexivity].
  cbn [forEach]. unfold mbind, Go_bind.
  rewrite (reconcileMap_failing client name bad e w1 He).
  unfold mbind, Go_bind.
  destruct (forEach (reconcileEntry client name) (entries bad) (0, ∅) w1)
    as [[r w2] | p]; reflexivity.
Qed.

End ReconcilerFrame.

Section FailingTable.
Context {model : Model} {rt : GoRuntime}.

(** C3 (amended): when the iteration of the table of one buffer fails, the
    reconciler returns at once.  The cycle is the cycle over the buffers
    up to and including the failing one: the buffers that [range] would
    have visited later are not reconciled, and their kernel grid is left
    as it was.  When nothing ended the cycle before, the result is the
    wrapped iteration error, an ordinary error value, and the state is the
    one reached after the entries the failing table delivered. *)
Theorem collectAndSendKernelStats_stops_at_failing_table (client : ClientRef)
  (w : World) (pre post : list (string * StatsMap)) (name : string)
  (bad : StatsMap) (e : error) :
  rangeMap (perfBufferStatsMaps (monitor w)) = pre ++ (name, bad) :: post ->
  iterErr bad = Some e ->
  collectAndSendKernelStats client w =
    (r ← forEach (reconcileMap client) (pre ++ [(name, bad)]) tt;
     match r with
     | inl res => mret res
     | inr _ => mret None
     end) w /\
  (forall w1 locals w2,
     forEach (reconcileMap client) pre tt w = Done (inr tt, w1) ->
     forEach (reconcileEntry client name) (entries bad) (0, ∅) w1
       = Done (inr locals, w2) ->
     collectAndSendKernelStats client w =
       Done (Some (Wrapf e ("failed to dump the statistics buffer of map " +:+ name)),
             w2)) /\
  (forall q r w',
     collectAndSendKernelStats client w = Done (r, w') ->
     q ∉ (pre ++ [(name, bad)]).*1 ->
     kernelStats (monitor w') !! q = kernelStats (monitor w) !! q).
Proof.
  intros Hrange He.
  assert (Hcut : collectAndSendKernelStats client w =
                 (r ← forEach (reconcileMap client) (pre ++ [(name, bad)]) tt;
                  match r with
                  | inl res => mret res
                  | inr _ => mret None
                  end) w).
  { unfold collectAndSendKernelStats. rewrite bind_getState, Hrange.
    unfold mbind, Go_bind.
    rewrite (forEach_stops_at_failing client name bad e pre post w He).
    reflexivity. }
  split; [exact Hcut | split].
  - intros w1 locals w2 Hpre Hbad. rewrite Hcut.
    unfold mbind, Go_bind. rewrite forEach_app. unfold mbind, Go_bind.
    rewrite Hpre. cbn [forEach]. unfold mbind, Go_bind.
    rewrite (reconcileMap_failing client name bad e w1 He).
    unfold mbind, Go_bind. rewrite Hbad. reflexivity.
  - intros q r w' Hrun Hq. rewrite Hcut in Hrun.
    apply bind_inv in Hrun as (r0 & w0 & Hloop & Hret).
    assert (w' = w0) as -> by (destruct r0; injection Hret; auto).
    revert Hloop.
    apply (keeps_forEach (sameKernelRows q) (sameKernelRows_refl q)
             (sameKernelRows_trans q)).
    intros [n t] [] Hin. apply reconcileMap_other_rows.
    intros ->. apply Hq. apply list_elem_of_fmap. exists (n, t). auto.
Qed.

End FailingTable.

Lemma netFailsWorld_range :
  rangeMap (GoRuntime := testRuntime)
    (perfBufferStatsMaps (monitor netFailsWorld))
  = [] ++ ("net", failingTable) :: [("dns", lostTable)].
Proof. vm_compute. reflexivity. Qed.

Lemma collectAndSendKernelStats_stops_at_failing_table_witness :
  collectAndSendKernelStats (model := testModel) (rt := testRuntime)
    StatsdClient netFailsWorld
  = Done (Some (Wrapf (ErrIterator "bad file descriptor")
                  "failed to dump the statistics buffer of map net"),
          netFailsWorld).
Proof.
  apply (proj1 (proj2 (collectAndSendKernelStats_stops_at_failing_table
                         (model := testModel) (rt := testRuntime) StatsdClient
                         netFailsWorld [] [("dns", lostTable)] "net" failingTable
                         (ErrIterator "bad file descriptor")
                         netFailsWorld_range eq_refl))
           netFailsWorld (0, ∅) netFailsWorld); reflexivity.
Defined.

(** Without a failure the cycle reconciles ["dns"]: the kernel grid holds
    what the table delivered. *)
Lemma healthy_cycle_mirrors :
  exists w',
    run (collectAndSendKernelStats (model := testModel) (rt := testRuntime)
           StatsdClient) (mkWorld (twoMonitor lostTable (okTable [])) [] [])
      = Some w' /\
    mirrored (model := testModel) (monitor w') "dns" lostTable.
Proof.
  eexists. split; [vm_compute; reflexivity |].
  intros id cpuStats cpu st Hin Hid Hst.
  apply elem_of_cons in Hin as [[= -> ->] | Hin];
    [| apply elem_of_cons in Hin as [[= -> ->] | Hin];
       [| apply elem_of_nil in Hin; contradiction]].
  - destruct cpu as [| [| cpu]]; simpl in Hst; try discriminate;
      injection Hst as <-; vm_compute; reflexivity.
  - destruct cpu as [| [| cpu]]; simpl in Hst; try discriminate;
      injection Hst as <-; vm_compute; reflexivity.
Qed.

(** C3 as stated fails.  [range] visits ["net"], whose table cannot be
    iterated, before ["dns"]: the cycle ends with the error, nothing is
    sent, and ["dns"], whose table holds lost events, is not reconciled. *)
Lemma failing_table_ends_the_cycle :
  collectAndSendKernelStats (model := testModel) (rt := testRuntime)
    StatsdClient netFailsWorld
  = Done (Some (Wrapf (ErrIterator "bad file descriptor")
                  "failed to dump the statistics buffer of map net"),
          netFailsWorld) /\
  effects netFailsWorld = [] /\
  ~ mirrored (model := testModel) (monitor netFailsWorld) "dns" lostTable.
Proof.
  split; [vm_compute; reflexivity | split; [reflexivity |]].
  intros H.
  specialize (H 4%N [mkStats 100 10 7; mkStats 50 5 2] 0%nat (mkStats 100 10 7)).
  assert (Hcell : cellAt (kernelStats (monitor netFailsWorld)) "dns" 0 4
                  = Some (mkStats 100 10 7)).
  { apply H; [right; left | discriminate | reflexivity]. }
  vm_compute in Hcell. discriminate Hcell.
Qed.

(** ** The reporting cycle *)

Section EmissionKeeps.
Context {model : Model} {rt : GoRuntime}.

Lemma liftMonitor_sameGeneration {A : Type} (m : Go PerfBufferMonitor A) :
  (forall pbm a pbm', m pbm = Done (a, pbm') ->
     shouldBumpGeneration pbm' = shouldBumpGeneration pbm) ->
  keeps sameGeneration (liftMonitor m).
Proof.
  intros Hm w a w'. unfold liftMonitor.
  destruct (m (monitor w)) as [[a0 pbm'] | p] eqn:E; [| discriminate].
  intros [= _ <-]. split; simpl; [eapply Hm; exact E | reflexivity].
Qed.

Lemma clientCount_sameGeneration (n : MetricName) (v : Z) (t : list string) :
  keeps sameGeneration (clientCount n v t).
Proof.
  intros w a w' [= _ <-]. split; simpl; [reflexivity |].
  rewrite bumps_app. simpl. lia.
Qed.

Lemma swapCell_user_flag (f : Field) (evt : EventType) (name : string) (cpu v : Z)
  (pbm : PerfBufferMonitor) (a : Z) (pbm' : PerfBufferMonitor) :
  swapCell UserGrid f evt name cpu v pbm = Done (a, pbm') ->
  shouldBumpGeneration pbm' = shouldBumpGeneration pbm.
Proof.
  unfold swapCell. destruct (cellAt (gridOf UserGrid pbm) name cpu evt); [| discriminate].
  intros [= _ <-]. reflexivity.
Qed.

Lemma getAndResetSortingErrorCount_flag (evt : EventType) (name : string)
  (pbm : PerfBufferMonitor) (a : Z) (pbm' : PerfBufferMonitor) :
  getAndResetSortingErrorCount evt name pbm = Done (a, pbm') ->
  shouldBumpGeneration pbm' = shouldBumpGeneration pbm.
Proof.
  unfold getAndResetSortingErrorCount.
  destruct (sortingErrorCell pbm name evt); [| discriminate].
  intros [= _ <-]. reflexivity.
Qed.

Lemma getAndResetReadLostCount_flag (name : string) (cpu : Z)
  (pbm : PerfBufferMonitor) (a : Z) (pbm' : PerfBufferMonitor) :
  getAndResetReadLostCount name cpu pbm = Done (a, pbm') ->
  shouldBumpGeneration pbm' = shouldBumpGeneration pbm.
Proof.
  unfold getAndResetReadLostCount.
  destruct (goIndex (mapSlice (readLostEvents pbm) name) cpu); [| discriminate].
  intros [= _ <-]. reflexivity.
Qed.

Ltac keeps_step :=
  first
    [ apply keeps_ret; apply sameGeneration_refl
    | apply keeps_getState; apply sameGeneration_refl
    | apply clientCount_sameGeneration
    | apply keeps_if
    | apply keeps_bind; [apply sameGeneration_trans | | intros ?]
    | apply keeps_forEach;
      [apply sameGeneration_refl | apply sameGeneration_trans | intros ? ? _] ].

Lemma sendEventsAndBytesReadStats_sameGeneration :
  keeps sameGeneration sendEventsAndBytesReadStats.
Proof.
  unfold sendEventsAndBytesReadStats.
  keeps_step; [keeps_step |]. cbv zeta.
  keeps_step.
  - do 3 keeps_step. cbv zeta.
    keeps_step.
    { apply liftMonitor_sameGeneration. intros pbm v pbm'.
      apply swapCell_user_flag. }
    keeps_step; [repeat keeps_step |].
    match goal with err : option error |- _ => destruct err end; [keeps_step |].
    keeps_step.
    { apply liftMonitor_sameGeneration. intros pbm v pbm'.
      apply swapCell_user_flag. }
    keeps_step; [repeat keeps_step |].
    match goal with err : option error |- _ => destruct err end; [keeps_step |].
    keeps_step.
    { apply liftMonitor_sameGeneration. intros pbm v pbm'.
      apply getAndResetSortingErrorCount_flag. }
    keeps_step; [repeat keeps_step |].
    match goal with err : option error |- _ => destruct err end; keeps_step.
  - match goal with res : (_ + _)%type |- _ => destruct res end; keeps_step.
Qed.

Lemma sendLostEventsReadStats_sameGeneration :
  keeps sameGeneration sendLostEventsReadStats.
Proof.
  unfold sendLostEventsReadStats.
  keeps_step; [keeps_step |]. cbv zeta.
  keeps_step.
  - keeps_step. cbv zeta. keeps_step.
    + keeps_step. keeps_step.
      { apply liftMonitor_sameGeneration. intros pbm v pbm'.
        apply getAndResetReadLostCount_flag. }
      cbv zeta. keeps_step; [| keeps_step].
      keeps_step; [keeps_step |].
      match goal with err : option error |- _ => destruct err end; keeps_step.
    + match goal with res : (_ + _)%type |- _ => destruct res end; [keeps_step |].
      keeps_step; [| keeps_step].
      keeps_step; [| keeps_step].
      intros w1 u w2 [= _ <-]. split; simpl; [reflexivity |].
      rewrite bumps_app. simpl. lia.
  - match goal with res : (_ + _)%type |- _ => destruct res end; keeps_step.
Qed.

End EmissionKeeps.

(** ** The reporting cycle never panics on a well-formed monitor *)

Lemma forEach_total {S A B Ret : Type} (I : S -> Prop)
  (body : A -> B -> Go S (Ret + B)) (l : list A) :
  (forall x acc s, x ∈ l -> I s -> exists r s', body x acc s = Done (r, s') /\ I s') ->
  forall acc s, I s -> exists r s', forEach body l acc s = Done (r, s') /\ I s'.
Proof.
  induction l as [| x l IH]; intros Hbody acc s Hs; simpl.
  - eauto.
  - destruct (Hbody x acc s) as (r & s1 & Hx & Hs1); [left | exact Hs |].
    rewrite (bind_Done _ _ _ _ _ Hx). destruct r as [v | acc'].
    + eauto.
    + apply IH; [| exact Hs1]. intros y acc0 s0 Hy. apply Hbody. right. exact Hy.
Qed.

Section Totality.
Context {model : Model} {rt : GoRuntime}.

Lemma wfGrid_alter_row (n : Z) (g : list (list PerfMapStats)) (i j : nat)
  (c : PerfMapStats) :
  wfGrid n g -> wfGrid n (alter (fun row => <[j := c]> row) i g).
Proof.
  intros [Hlen Hrows]. split.
  - unfold len in *. rewrite length_alter. exact Hlen.
  - apply Forall_alter; [exact Hrows |].
    intros row _ Hrow. rewrite length_insert. exact Hrow.
Qed.

Lemma cellAt_registered (g : gmap string (list (list PerfMapStats))) (name : string)
  (cpu : Z) (evt : EventType) (c : PerfMapStats) :
  cellAt g name cpu evt = Some c -> exists grid, g !! name = Some grid.
Proof.
  intros (row & Hrow & _)%cellAt_Some. unfold mapSlice in Hrow.
  destruct (g !! name) as [grid |]; [eauto |].
  simpl in Hrow. unfold goIndex in Hrow. destruct (cpu <? 0); discriminate.
Qed.

Lemma wfMonitor_setCell (sel : GridSel) (pbm : PerfBufferMonitor) (name : string)
  (cpu : Z) (evt : EventType) (c c' : PerfMapStats) :
  wfMonitor pbm -> cellAt (gridOf sel pbm) name cpu evt = Some c ->
  wfMonitor (setGrid sel (setCell (gridOf sel pbm) name cpu evt c') pbm).
Proof.
  intros Hwf Hc. destruct (cellAt_registered _ _ _ _ _ Hc) as [grid Hgrid].
  destruct Hwf as [H0 Hs Hk Hr He Dk Dr De].
  unfold setCell. rewrite (mapSlice_Some _ _ _ Hgrid).
  destruct sel; simpl in *; split; simpl; try assumption.
  - intros name' g [[_ <-] | [_ Hg]]%lookup_insert_Some; [| eauto].
    apply wfGrid_alter_row. eauto.
  - rewrite Dk. symmetry. apply dom_insert_lookup_L. eauto.
  - rewrite Dr. symmetry. apply dom_insert_lookup_L. eauto.
  - rewrite De. symmetry. apply dom_insert_lookup_L. eauto.
  - intros name' g [[_ <-] | [_ Hg]]%lookup_insert_Some; [| eauto].
    apply wfGrid_alter_row. eauto.
  - rewrite <- Dk. apply dom_insert_lookup_L. eauto.
Qed.

Lemma wfMonitor_set_shouldBumpGeneration (v : Z) (pbm : PerfBufferMonitor) :
  wfMonitor pbm -> wfMonitor (set_shouldBumpGeneration v pbm).
Proof. intros [H0 Hs Hk Hr He Dk Dr De]. split; assumption. Qed.

Lemma wfMonitor_setSortingErrorCell (pbm : PerfBufferMonitor) (name : string)
  (evt : EventType) (c v : Z) :
  wfMonitor pbm -> sortingErrorCell pbm name evt = Done c ->
  wfMonitor (setSortingErrorCell name evt v pbm).
Proof.
  intros [H0 Hs Hk Hr He Dk Dr De] Hc. unfold sortingErrorCell in Hc.
  destruct (MaxEventType <=? evt)%N; [discriminate |].
  destruct (sortingErrorStats pbm !! name) as [arr |] eqn:Harr; [| discriminate].
  unfold setSortingErrorCell. rewrite Harr. split; simpl; try assumption.
  - intros name' a [[_ <-] | [_ Ha]]%lookup_insert_Some; [| eauto].
    rewrite length_insert. eauto.
  - rewrite dom_insert_lookup_L by eauto. exact De.
Qed.

Lemma wfMonitor_afterSwaps (name : string) (cpu : Z) (evt : EventType)
  (prev new : PerfMapStats) (pbm : PerfBufferMonitor) :
  wfMonitor pbm -> cellAt (kernelStats pbm) name cpu evt = Some prev ->
  wfMonitor (afterSwaps name cpu evt prev new pbm).
Proof.
  intros Hwf Hprev. unfold afterSwaps. cbv zeta.
  assert (Hwf3 : wfMonitor
            (set_kernelStats
               (setCell (setCell (setCell (kernelStats pbm) name cpu evt
                                    (setField FBytes (Bytes new) prev))
                           name cpu evt
                           (setField FCount (Count new)
                              (setField FBytes (Bytes new) prev)))
                  name cpu evt
                  (setField FLost (Lost new)
                     (setField FCount (Count new)
                        (setField FBytes (Bytes new) prev)))) pbm)).
  { pose proof (wfMonitor_setCell KernelGrid pbm name cpu evt prev
                  (setField FBytes (Bytes new) prev) Hwf Hprev) as H1.
    pose proof (wfMonitor_setCell KernelGrid _ name cpu evt _
                  (setField FCount (Count new) (setField FBytes (Bytes new) prev))
                  H1 (cellAt_setCell _ _ _ _ _ _ Hprev)) as H2.
    pose proof (wfMonitor_setCell KernelGrid _ name cpu evt _
                  (setField FLost (Lost new)
                     (setField FCount (Count new)
                        (setField FBytes (Bytes new) prev)))
                  H2 (cellAt_setCell _ _ _ _ _ _
                        (cellAt_setCell _ _ _ _ _ _ Hprev))) as H3.
    exact H3. }
  destruct (isMutationEvent evt);
    [apply wfMonitor_set_shouldBumpGeneration |]; exact Hwf3.
Qed.

Lemma wf_cell_in_rows (sel : GridSel) (pbm : PerfBufferMonitor) (name : string)
  (cpu : Z) (evt : EventType) :
  wfMonitor pbm -> 0 <= cpu < len (mapSlice (stats pbm) name) ->
  (evt < MaxEventType)%N ->
  exists c, cellAt (gridOf sel pbm) name cpu evt = Some c.
Proof.
  intros Hwf Hcpu Hevt.
  destruct (stats pbm !! name) as [g |] eqn:Hg;
    [| unfold mapSlice, len in Hcpu; rewrite Hg in Hcpu; simpl in Hcpu; lia].
  rewrite (mapSlice_Some _ _ _ Hg) in Hcpu.
  pose proof (wf_stats pbm Hwf name g Hg) as [Hlen _].
  destruct sel; simpl.
  - eapply wf_user_cell; [eassumption | eassumption | lia | assumption].
  - assert (Hin : name ∈ dom (kernelStats pbm)).
    { rewrite (wf_dom_kernelStats pbm Hwf). apply elem_of_dom. eauto. }
    apply elem_of_dom in Hin as [kg Hkg].
    destruct (wfGrid_cell (numCPU pbm) kg cpu evt) as (row & c & Hrow & Hc);
      [eapply wf_kernelStats; eassumption | lia | assumption |].
    exists c. apply cellAt_Some. exists row.
    rewrite (mapSlice_Some _ _ _ Hkg). auto.
Qed.

End Totality.

Section CycleTotality.
Context {model : Model} {rt : GoRuntime}.

Lemma clientCount_total (n : MetricName) (v : Z) (t : list string) (w : World) :
  exists r w', clientCount n v t w = Done (r, w') /\ monitor w' = monitor w.
Proof. eexists _, _. split; reflexivity. Qed.

Lemma sendKernelStats_total (st : PerfMapStats) (tags : list string) (w : World) :
  exists r w', sendKernelStats st tags w = Done (r, w') /\ monitor w' = monitor w.
Proof.
  unfold sendKernelStats, clientCount, mbind, Go_bind, mret, Go_ret.
  destruct (0 <? Count st); simpl;
    [destruct (default None (head (transport w))); simpl; [eauto |] |];
    (destruct (0 <? Bytes st); simpl;
     [match goal with
      | |- context [default None (head ?t)] =>
          destruct (default None (head t)); simpl; [eauto |]
      end |]);
    (destruct (0 <? Lost st); simpl; eauto).
Qed.

Lemma accountDelta_total (client : ClientRef) (tags : list string) (key : string)
  (st : PerfMapStats) (locals : Z * gmap string Z) (w : World) :
  exists r w', accountDelta client tags key st locals w = Done (r, w')
               /\ monitor w' = monitor w.
Proof.
  unfold accountDelta. destruct locals as [total perEvent].
  destruct client.
  - eexists _, _. split; reflexivity.
  - destruct (sendKernelStats_total st tags w) as (r & w' & Hs & Hm).
    rewrite (bind_Done _ _ _ _ _ Hs). destruct r; eexists _, _; split; eauto.
Qed.

Lemma reconcileCPU_total (client : ClientRef) (name : string) (evt : EventType)
  (tags : list string) (cpu : Z) (st : PerfMapStats) (locals : Z * gmap string Z)
  (w : World) :
  wfMonitor (monitor w) -> 0 <= cpu ->
  exists r w', reconcileCPU client name evt tags (cpu, st) locals w = Done (r, w')
               /\ wfMonitor (monitor w').
Proof.
  intros Hwf Hcpu. destruct locals as [total perEvent].
  destruct (isNil (mapSlice (stats (monitor w)) name)
            || (len (mapSlice (stats (monitor w)) name) <=? cpu)
            || (MaxEventType <=? evt)%N) eqn:Hcheck.
  - exists (inl None), w. split; [| exact Hwf].
    unfold reconcileCPU. rewrite bind_getState. cbv zeta. rewrite Hcheck. reflexivity.
  - apply orb_false_iff in Hcheck as [Hcheck Hevt].
    apply orb_false_iff in Hcheck as [Hnil Hlen].
    apply Z.leb_gt in Hlen. apply N.leb_gt in Hevt.
    destruct (wf_cell_in_rows KernelGrid (monitor w) name cpu evt Hwf)
      as [prev Hprev]; [lia | exact Hevt |].
    rewrite (reconcileCPU_sanity_passed client name evt tags cpu st prev total
               perEvent w); [| | exact Hlen | exact Hevt | exact Hprev].
    + destruct (accountDelta_total client tags (EventType_String evt)
                  (kernelDelta prev st)
                  (total, initPerEvent (EventType_String evt) perEvent)
                  (mkWorld (afterSwaps name cpu evt prev st (monitor w))
                     (transport w) (effects w))) as (r & w' & Hrun & Hm).
      exists r, w'. split; [exact Hrun |]. rewrite Hm. simpl.
      apply wfMonitor_afterSwaps; assumption.
    + intros Hempty. rewrite Hempty in Hnil. discriminate.
Qed.

Lemma rangeIdx_zip_nonneg {A : Type} (l : list A) (x : Z * A) :
  x ∈ zip (rangeIdx l) l -> 0 <= x.1.
Proof.
  intros Hin. destruct x as [i a]. apply elem_of_zip_l in Hin.
  unfold rangeIdx in Hin. apply elem_of_seqZ in Hin. simpl. lia.
Qed.

Lemma reconcileMap_total (client : ClientRef) (m : string * StatsMap) (w : World) :
  wfMonitor (monitor w) ->
  exists r w', reconcileMap client m tt w = Done (r, w') /\ wfMonitor (monitor w').
Proof.
  intros Hwf. destruct m as [name table]. unfold reconcileMap.
  destruct (forEach_total (fun w => wfMonitor (monitor w))
              (reconcileEntry client name) (entries table)) with (acc := (0, ∅ : gmap string Z)) (s := w)
    as (r & w1 & Hrun & Hwf1); [| exact Hwf |].
  - intros [id cpuStats] acc s _ Hs. unfold reconcileEntry.
    destruct (id =? 0)%N; [eexists _, _; split; [reflexivity | exact Hs] |].
    rewrite bind_getState. cbv zeta.
    apply forEach_total; [| exact Hs].
    intros [cpu st] acc0 s0 Hin Hs0.
    apply reconcileCPU_total; [exact Hs0 |].
    apply (rangeIdx_zip_nonneg cpuStats (cpu, st) Hin).
  - rewrite (bind_Done _ _ _ _ _ Hrun).
    destruct r as [res | [total perEvent]]; [eexists _, _; split; [reflexivity | exact Hwf1] |].
    destruct (iterErr table); [eexists _, _; split; [reflexivity | exact Hwf1] |].
    destruct (0 <? total); eexists _, _; (split; [reflexivity | exact Hwf1]).
Qed.

(** The reconciler returns on every well-formed monitor. *)
Lemma collectAndSendKernelStats_total (client : ClientRef) (w : World) :
  wfMonitor (monitor w) ->
  exists r w', collectAndSendKernelStats client w = Done (r, w')
               /\ wfMonitor (monitor w').
Proof.
  intros Hwf. unfold collectAndSendKernelStats. rewrite bind_getState.
  destruct (forEach_total (fun w => wfMonitor (monitor w)) (reconcileMap client)
              (rangeMap (perfBufferStatsMaps (monitor w)))) with (acc := tt) (s := w)
    as (r & w1 & Hrun & Hwf1); [| exact Hwf |].
  - intros m [] s _ Hs. apply reconcileMap_total. exact Hs.
  - rewrite (bind_Done _ _ _ _ _ Hrun).
    destruct r; eexists _, _; (split; [reflexivity | exact Hwf1]).
Qed.

End CycleTotality.

Section EmissionTotality.
Context {model : Model} {rt : GoRuntime}.

Lemma sameShape_refl (pbm : PerfBufferMonitor) : sameShape pbm pbm.
Proof. split; reflexivity. Qed.

Lemma maybeCount_total (b : bool) (n : MetricName) (v : Z) (t : list string)
  (w : World) :
  exists r w', (if b then clientCount n v t else mret None) w = Done (r, w')
               /\ monitor w' = monitor w.
Proof. destruct b; eexists _, _; split; reflexivity. Qed.

Lemma drainUserCell_total (pbm0 : PerfBufferMonitor) (f : Field) (evt : EventType)
  (m : string) (cpu : Z) (w : World) :
  emitting pbm0 w -> 0 <= cpu < len (mapSlice (stats pbm0) m) ->
  (evt < MaxEventType)%N ->
  exists v w', liftMonitor (swapCell UserGrid f evt m cpu 0) w = Done (v, w')
               /\ emitting pbm0 w'.
Proof.
  intros [Hwf [Hs Hl]] Hcpu Hevt.
  destruct (wf_cell_in_rows UserGrid (monitor w) m cpu evt Hwf) as [c Hc];
    [rewrite Hs; exact Hcpu | exact Hevt |].
  eexists _, _. split.
  - apply liftMonitor_Done, swapCell_Done. exact Hc.
  - split; simpl.
    + apply (wfMonitor_setCell UserGrid (monitor w) m cpu evt c); assumption.
    + split; simpl; [| exact Hl].
      intros m'. rewrite mapSlice_setCell. apply Hs.
Qed.

Lemma drainSortingError_total (pbm0 : PerfBufferMonitor) (evt : EventType)
  (m : string) (w : World) :
  emitting pbm0 w -> 0 < len (mapSlice (stats pbm0) m) -> (evt < MaxEventType)%N ->
  exists v w', liftMonitor (getAndResetSortingErrorCount evt m) w = Done (v, w')
               /\ emitting pbm0 w'.
Proof.
  intros [Hwf [Hs Hl]] Hrows Hevt.
  destruct (stats (monitor w) !! m) as [g |] eqn:Hg.
  - destruct (wf_sortingError_cell (monitor w) m g evt Hwf Hg Hevt)
      as (arr & c & Harr & Hc & Hcell).
    eexists _, _. split.
    + apply liftMonitor_Done. unfold getAndResetSortingErrorCount.
      rewrite Hcell. reflexivity.
    + split; simpl.
      * eapply wfMonitor_setSortingErrorCell; eassumption.
      * split; simpl; assumption.
  - exfalso. specialize (Hs m). unfold mapSlice at 1 in Hs. rewrite Hg in Hs.
    unfold len at 1 in Hs. simpl in Hs. lia.
Qed.

Lemma drainReadLost_total (pbm0 : PerfBufferMonitor) (m : string) (cpu : Z)
  (w : World) :
  emitting pbm0 w -> 0 <= cpu < len (mapSlice (readLostEvents pbm0) m) ->
  exists v w', liftMonitor (getAndResetReadLostCount m cpu) w = Done (v, w')
               /\ emitting pbm0 w'.
Proof.
  intros [Hwf [Hs Hl]] Hcpu.
  destruct (readLostEvents (monitor w) !! m) as [l |] eqn:Hm.
  - destruct (goIndex_in_range l cpu) as [v Hv].
    { rewrite <- (mapSlice_Some _ _ _ Hm), Hl. exact Hcpu. }
    eexists _, _. split.
    + apply liftMonitor_Done. eapply getAndResetReadLostCount_Done; eassumption.
    + split; simpl.
      * eapply wfMonitor_update_readLostEvents; [exact Hwf | exact Hm |].
        apply length_insert.
      * split; simpl; [exact Hs |]. intros m'.
        destruct (decide (m = m')) as [<- | Hne].
        -- rewrite mapSlice_insert, <- Hl, (mapSlice_Some _ _ _ Hm).
           unfold len. rewrite length_insert. reflexivity.
        -- rewrite mapSlice_insert_ne by assumption. apply Hl.
  - exfalso. specialize (Hl m). unfold mapSlice at 1 in Hl. rewrite Hm in Hl.
    unfold len at 1 in Hl. simpl in Hl. lia.
Qed.

Lemma emitting_same_monitor (pbm0 : PerfBufferMonitor) (w w' : World) :
  monitor w' = monitor w -> emitting pbm0 w -> emitting pbm0 w'.
Proof. unfold emitting. intros ->. auto. Qed.

Lemma sendEventsAndBytesReadStats_total (w : World) :
  wfMonitor (monitor w) ->
  exists r w', sendEventsAndBytesReadStats w = Done (r, w')
               /\ wfMonitor (monitor w').
Proof.
  intros Hwf. unfold sendEventsAndBytesReadStats. rewrite bind_getState. cbv zeta.
  set (pbm0 := monitor w).
  destruct (forEach_total (emitting pbm0)
    (fun m (_ : unit) =>
      forEach (fun cpu (_ : unit) =>
        forEach (fun eventType (_ : unit) =>
          let evtType := Z.to_N eventType in
          let tags := [StatsTagsCardinality pbm0; "map:" +:+ m;
                       "event_type:" +:+ EventType_String evtType] in
          count ← liftMonitor (getAndResetEventCount evtType m cpu);
          err ← (if 0 <? int64 count
                 then clientCount MetricPerfBufferEventsRead (int64 count) tags
                 else mret None);
          match err with
          | Some e => mret (inl e)
          | None =>
              count ← liftMonitor (getAndResetEventBytes evtType m cpu);
              err ← (if 0 <? int64 count
                     then clientCount MetricPerfBufferBytesRead (int64 count) tags
                     else mret None);
              match err with
              | Some e => mret (inl e)
              | None =>
                  count ← liftMonitor (getAndResetSortingErrorCount evtType m);
                  err ← (if 0 <? count
                         then clientCount MetricPerfBufferSortingError count tags
                         else mret None);
                  match err with
                  | Some e => mret (inl e)
                  | None => mret (inr tt)
                  end
              end
          end)
          rangeEventTypes tt)
        (rangeIdx (mapSlice (stats pbm0) m)) tt)
    (rangeMap (stats pbm0)).*1) with (acc := tt) (s := w)
    as (r & w1 & Hrun & [Hwf1 _]).
  - intros m [] s _ Hs. apply forEach_total; [| exact Hs].
    intros cpu [] s0 Hcpu Hs0. apply elem_of_seqZ in Hcpu.
    apply forEach_total; [| exact Hs0].
    intros eventType [] s1 Hevt Hs1. apply elem_of_seqZ in Hevt.
    cbv zeta. unfold getAndResetEventCount, getAndResetEventBytes.
    destruct (drainUserCell_total pbm0 FCount (Z.to_N eventType) m cpu s1 Hs1)
      as (c1 & s2 & H1 & Hs2); [lia | lia |].
    rewrite (bind_Done _ _ _ _ _ H1).
    match goal with
    | |- context [mbind _ (if ?b then clientCount ?n ?v ?t else mret None)] =>
        destruct (maybeCount_total b n v t s2) as (e1 & s3 & H2 & Hm3)
    end.
    rewrite (bind_Done _ _ _ _ _ H2).
    pose proof (emitting_same_monitor pbm0 s2 s3 Hm3 Hs2) as Hs3.
    destruct e1; [eexists _, _; split; [reflexivity | exact Hs3] |].
    destruct (drainUserCell_total pbm0 FBytes (Z.to_N eventType) m cpu s3 Hs3)
      as (c2 & s4 & H3 & Hs4); [lia | lia |].
    rewrite (bind_Done _ _ _ _ _ H3).
    match goal with
    | |- context [mbind _ (if ?b then clientCount ?n ?v ?t else mret None)] =>
        destruct (maybeCount_total b n v t s4) as (e2 & s5 & H4 & Hm5)
    end.
    rewrite (bind_Done _ _ _ _ _ H4).
    pose proof (emitting_same_monitor pbm0 s4 s5 Hm5 Hs4) as Hs5.
    destruct e2; [eexists _, _; split; [reflexivity | exact Hs5] |].
    destruct (drainSortingError_total pbm0 (Z.to_N eventType) m s5 Hs5)
      as (c3 & s6 & H5 & Hs6); [lia | lia |].
    rewrite (bind_Done _ _ _ _ _ H5).
    match goal with
    | |- context [mbind _ (if ?b then clientCount ?n ?v ?t else mret None)] =>
        destruct (maybeCount_total b n v t s6) as (e3 & s7 & H6 & Hm7)
    end.
    rewrite (bind_Done _ _ _ _ _ H6).
    pose proof (emitting_same_monitor pbm0 s6 s7 Hm7 Hs6) as Hs7.
    destruct e3; eexists _, _; (split; [reflexivity | exact Hs7]).
  - split; [exact Hwf | apply sameShape_refl].
  - rewrite (bind_Done _ _ _ _ _ Hrun).
    destruct r; eexists _, _; (split; [reflexivity | exact Hwf1]).
Qed.

End EmissionTotality.

Section CycleTheorems.
Context {model : Model} {rt : GoRuntime}.

Lemma sendLostEventsReadStats_total (w : World) :
  wfMonitor (monitor w) ->
  exists r w', sendLostEventsReadStats w = Done (r, w') /\ wfMonitor (monitor w').
Proof.
  intros Hwf. unfold sendLostEventsReadStats. rewrite bind_getState. cbv zeta.
  set (pbm0 := monitor w).
  destruct (forEach_total (emitting pbm0)
    (fun m (_ : unit) =>
      r ← forEach (fun cpu (total : Z) =>
        c ← liftMonitor (getAndResetReadLostCount m cpu);
        if 0 <? float64_of_uint64 c then
          err ← clientCount MetricPerfBufferLostRead
                  (int64_of_float64 (float64_of_uint64 c))
                  [StatsTagsCardinality pbm0; "map:" +:+ m];
          match err with
          | Some e => mret (inl e)
          | None => mret (inr (float64_add total (float64_of_uint64 c)))
          end
        else mret (inr total))
        (rangeIdx (mapSlice (readLostEvents pbm0) m)) 0;
      match r with
      | inl e => mret (inl e)
      | inr total =>
          _ ← (if 0 <? total then emit (DispatchLostRead m total) else mret tt);
          mret (inr tt)
      end)
    (rangeMap (readLostEvents pbm0)).*1) with (acc := tt) (s := w)
    as (r & w1 & Hrun & [Hwf1 _]).
  - intros m [] s _ Hs.
    destruct (forEach_total (emitting pbm0)
      (fun cpu (total : Z) =>
        c ← liftMonitor (getAndResetReadLostCount m cpu);
        if 0 <? float64_of_uint64 c then
          err ← clientCount MetricPerfBufferLostRead
                  (int64_of_float64 (float64_of_uint64 c))
                  [StatsTagsCardinality pbm0; "map:" +:+ m];
          match err with
          | Some e => mret (inl e)
          | None => mret (inr (float64_add total (float64_of_uint64 c)))
          end
        else mret (inr total))
      (rangeIdx (mapSlice (readLostEvents pbm0) m))) with (acc := 0) (s := s)
      as (r1 & s1 & Hloop & Hs1); [| exact Hs |].
    + intros cpu total s0 Hcpu Hs0. apply elem_of_seqZ in Hcpu.
      destruct (drainReadLost_total pbm0 m cpu s0 Hs0) as (c & s2 & H1 & Hs2); [lia |].
      rewrite (bind_Done _ _ _ _ _ H1).
      destruct (0 <? float64_of_uint64 c);
        [| eexists _, _; split; [reflexivity | exact Hs2]].
      destruct (clientCount_total MetricPerfBufferLostRead
                  (int64_of_float64 (float64_of_uint64 c))
                  [StatsTagsCardinality pbm0; "map:" +:+ m] s2)
        as (e & s3 & H2 & Hm3).
      rewrite (bind_Done _ _ _ _ _ H2).
      pose proof (emitting_same_monitor pbm0 s2 s3 Hm3 Hs2) as Hs3.
      destruct e; eexists _, _; (split; [reflexivity | exact Hs3]).
    + rewrite (bind_Done _ _ _ _ _ Hloop).
      destruct r1 as [e | total]; [eexists _, _; split; [reflexivity | exact Hs1] |].
      destruct (0 <? total); eexists _, _; (split; [reflexivity | exact Hs1]).
  - split; [exact Hwf | apply sameShape_refl].
  - rewrite (bind_Done _ _ _ _ _ Hrun).
    destruct r; eexists _, _; (split; [reflexivity | exact Hwf1]).
Qed.

(** What [SendStats] does once the reconciler has returned no error. *)
Lemma SendStats_after_reconciliation (w w1 : World) :
  collectAndSendKernelStats StatsdClient w = Done (None, w1) ->
  SendStats w =
    (err ← sendEventsAndBytesReadStats;
     match err with
     | Some e => mret (Some e)
     | None => sendLostEventsReadStats
     end)
      (mkWorld (set_shouldBumpGeneration 0 (monitor w1)) (transport w1)
         (effects w1 ++ (if shouldBumpGeneration (monitor w1) =? 1
                         then [BumpCacheGenerations] else []))).
Proof.
  intros Hrec. unfold SendStats. rewrite (bind_Done _ _ _ _ _ Hrec).
  erewrite bind_Done; [| apply liftMonitor_Done; reflexivity].
  destruct (shouldBumpGeneration (monitor w1) =? 1).
  - erewrite bind_Done; [reflexivity | reflexivity].
  - erewrite bind_Done; [| reflexivity]. rewrite app_nil_r. reflexivity.
Qed.

Lemma emission_sameGeneration :
  keeps sameGeneration
    (err ← sendEventsAndBytesReadStats;
     match err with
     | Some e => mret (Some e)
     | None => sendLostEventsReadStats
     end).
Proof.
  apply keeps_bind;
    [apply sameGeneration_trans | apply sendEventsAndBytesReadStats_sameGeneration |].
  intros [e |];
    [apply keeps_ret, sameGeneration_refl | apply sendLostEventsReadStats_sameGeneration].
Qed.

(** C6 (amended): a [SendStats] cycle whose reconciliation returns an
    error returns that error at once, without reading the generation flag
    and without a [BumpCacheGenerations] call.  A cycle whose
    reconciliation succeeds swaps the flag to 0 and calls
    [BumpCacheGenerations] if and only if the flag was 1, before the
    emission; the emission neither touches the flag nor calls the
    collaborator, so that the cycle ends with the flag at 0 and with one
    more call exactly when the flag was 1.  On a well-formed monitor the
    cycle returns.  The reconciler never calls the collaborator and never
    lowers the flag, and it raises the flag to 1 for every cell of a
    mutation-class event type that it processes, whatever the values
    read. *)
Theorem SendStats_generation_flag (w : World) :
  (forall e w1,
     collectAndSendKernelStats StatsdClient w = Done (Some e, w1) ->
     SendStats w = Done (Some e, w1) /\ bumps (effects w1) = bumps (effects w)) /\
  (forall w1,
     collectAndSendKernelStats StatsdClient w = Done (None, w1) ->
     SendStats w =
       (err ← sendEventsAndBytesReadStats;
        match err with
        | Some e => mret (Some e)
        | None => sendLostEventsReadStats
        end)
         (mkWorld (set_shouldBumpGeneration 0 (monitor w1)) (transport w1)
            (effects w1 ++ (if shouldBumpGeneration (monitor w1) =? 1
                            then [BumpCacheGenerations] else []))) /\
     forall r w',
       SendStats w = Done (r, w') ->
       shouldBumpGeneration (monitor w') = 0 /\
       bumps (effects w') =
         (bumps (effects w)
          + (if (shouldBumpGeneration (monitor w1) =? 1)%Z then 1 else 0))%nat) /\
  (wfMonitor (monitor w) -> exists r w', SendStats w = Done (r, w')) /\
  (forall client r w1,
     collectAndSendKernelStats client w = Done (r, w1) ->
     bumps (effects w1) = bumps (effects w) /\
     (shouldBumpGeneration (monitor w) = 1 ->
      shouldBumpGeneration (monitor w1) = 1)) /\
  (forall client name evt tags cpu new prev total perEvent,
     mapSlice (stats (monitor w)) name <> [] ->
     cpu < len (mapSlice (stats (monitor w)) name) ->
     (evt < MaxEventType)%N ->
     cellAt (kernelStats (monitor w)) name cpu evt = Some prev ->
     isMutationEvent evt = true ->
     exists r w',
       reconcileCPU client name evt tags (cpu, new) (total, perEvent) w
         = Done (r, w') /\
       shouldBumpGeneration (monitor w') = 1).
Proof.
  assert (Hcollect : forall client r w1,
            collectAndSendKernelStats client w = Done (r, w1) ->
            bumps (effects w1) = bumps (effects w) /\
            (shouldBumpGeneration (monitor w) = 1 ->
             shouldBumpGeneration (monitor w1) = 1)).
  { intros client r w1 Hrun.
    destruct (collectAndSendKernelStats_raisesGeneration client w r w1 Hrun)
      as [Hb Hf].
    split; [exact Hb |]. intros H1. destruct Hf as [Hf | Hf]; congruence. }
  split; [| split; [| split; [| split; [exact Hcollect |]]]].
  - intros e w1 Hrec. split.
    + unfold SendStats. rewrite (bind_Done _ _ _ _ _ Hrec). reflexivity.
    + apply (Hcollect StatsdClient (Some e) w1 Hrec).
  - intros w1 Hrec. split; [apply SendStats_after_reconciliation; exact Hrec |].
    intros r w' Hrun.
    rewrite (SendStats_after_reconciliation w w1 Hrec) in Hrun.
    destruct (emission_sameGeneration _ _ _ Hrun) as [Hflag Hbumps].
    simpl in Hflag, Hbumps. split; [exact Hflag |].
    rewrite Hbumps, bumps_app.
    rewrite (proj1 (Hcollect StatsdClient None w1 Hrec)).
    destruct (shouldBumpGeneration (monitor w1) =? 1); reflexivity.
  - intros Hwf.
    destruct (collectAndSendKernelStats_total StatsdClient w Hwf)
      as (err & w1 & Hrec & Hwf1).
    destruct err as [e |].
    + exists (Some e), w1. unfold SendStats.
      rewrite (bind_Done _ _ _ _ _ Hrec). reflexivity.
    + rewrite (SendStats_after_reconciliation w w1 Hrec).
      destruct (sendEventsAndBytesReadStats_total
                  (mkWorld (set_shouldBumpGeneration 0 (monitor w1)) (transport w1)
                     (effects w1 ++ (if shouldBumpGeneration (monitor w1) =? 1
                                     then [BumpCacheGenerations] else []))))
        as (err & w2 & Hev & Hwf2).
      { simpl. apply wfMonitor_set_shouldBumpGeneration. exact Hwf1. }
      rewrite (bind_Done _ _ _ _ _ Hev). destruct err as [e |].
      * eexists _, _. reflexivity.
      * destruct (sendLostEventsReadStats_total w2 Hwf2) as (r & w3 & Hl & _).
        eauto.
  - intros client name evt tags cpu new prev total perEvent Hnil Hcpu Hevt Hprev Hmut.
    rewrite (reconcileCPU_sanity_passed client name evt tags cpu new prev total
               perEvent w Hnil Hcpu Hevt Hprev).
    destruct (accountDelta_total client tags (EventType_String evt)
                (kernelDelta prev new)
                (total, initPerEvent (EventType_String evt) perEvent)
                (mkWorld (afterSwaps name cpu evt prev new (monitor w))
                   (transport w) (effects w))) as (r & w' & Hrun & Hm).
    exists r, w'. split; [exact Hrun |]. rewrite Hm. simpl.
    unfold afterSwaps. rewrite Hmut. reflexivity.
Qed.

End CycleTheorems.

Lemma flaggedWorld_reconciled :
  collectAndSendKernelStats (model := testModel) (rt := testRuntime)
    StatsdClient flaggedWorld = Done (None, reconciledFlaggedWorld).
Proof. vm_compute. reflexivity. Qed.

Lemma SendStats_generation_flag_witness :
  exists r w',
    SendStats (model := testModel) (rt := testRuntime) flaggedWorld = Done (r, w') /\
    shouldBumpGeneration (monitor w') = 0 /\ bumps (effects w') = 1%nat.
Proof.
  destruct (SendStats_generation_flag (model := testModel) (rt := testRuntime)
              flaggedWorld) as (_ & Hok & Htotal & _).
  destruct Htotal as (r & w' & Hrun).
  { simpl. apply wfMonitor_set_shouldBumpGeneration, dnsMonitor_wf. }
  exists r, w'. split; [exact Hrun |].
  destruct (Hok reconciledFlaggedWorld flaggedWorld_reconciled) as [_ Hfin].
  destruct (Hfin r w' Hrun) as [Hflag Hbumps].
  split; [exact Hflag |]. rewrite Hbumps. vm_compute. reflexivity.
Defined.

(** C6 as stated fails.  The flag is raised and the table of ["net"]
    cannot be iterated: [SendStats] returns the error of the reconciler,
    the flag is still 1 and [BumpCacheGenerations] was not called. *)
Lemma failed_reconciliation_keeps_the_flag :
  SendStats (model := testModel) (rt := testRuntime) netFailsFlaggedWorld
  = Done (Some (Wrapf (ErrIterator "bad file descriptor")
                  "failed to dump the statistics buffer of map net"),
          netFailsFlaggedWorld) /\
  shouldBumpGeneration (monitor netFailsFlaggedWorld) = 1 /\
  bumps (effects netFailsFlaggedWorld) = 0%nat.
Proof. repeat split; vm_compute; reflexivity. Qed.

Lemma testRuntime_sound : rangeMap_sound testRuntime.
Proof. intros A m. reflexivity. Qed.

(** ** The recorders keep the shape *)

Section RecorderShape.
Context {model : Model} {rt : GoRuntime}.

Lemma addCell_wf (sel : GridSel) (f : Field) (evt : EventType) (name : string)
  (cpu delta : Z) (pbm pbm' : PerfBufferMonitor) :
  wfMonitor pbm -> addCell sel f evt name cpu delta pbm = Done (tt, pbm') ->
  wfMonitor pbm'.
Proof.
  intros Hwf. unfold addCell.
  destruct (cellAt (gridOf sel pbm) name cpu evt) as [c |] eqn:Hc; [| discriminate].
  intros [= <-]. eapply wfMonitor_setCell; eassumption.
Qed.

Lemma CountEvent_wf (evt : EventType) (ts count size : Z) (name : string) (cpu : Z)
  (pbm pbm' : PerfBufferMonitor) :
  wfMonitor pbm -> CountEvent evt ts count size name cpu pbm = Done (tt, pbm') ->
  wfMonitor pbm'.
Proof.
  intros Hwf. unfold CountEvent.
  intros (u & pbm1 & Hcheck & Hrest)%bind_inv.
  assert (Hwf1 : wfMonitor pbm1).
  { cbv beta in Hcheck.
    destruct ((ts <? lastTimestamp pbm) && negb (lastTimestamp pbm =? 0)).
    - destruct (sortingErrorCell pbm name evt) as [c |] eqn:Hc; [| discriminate].
      injection Hcheck as _ <-.
      apply wfMonitor_set_shouldBumpGeneration.
      eapply wfMonitor_setSortingErrorCell; eassumption.
    - injection Hcheck as _ <-. apply wfMonitor_set_lastTimestamp. exact Hwf. }
  rewrite bind_getState in Hrest. cbv zeta in Hrest.
  destruct (isNil (mapSlice (stats pbm1) name)
            || (len (mapSlice (stats pbm1) name) <=? cpu)
            || (MaxEventType <=? evt)%N).
  - injection Hrest as <-. exact Hwf1.
  - apply bind_inv in Hrest as ([] & pbm2 & Hadd1 & Hadd2).
    eapply addCell_wf; [| exact Hadd2]. eapply addCell_wf; eassumption.
Qed.

Lemma CountLostEvent_wf (count : Z) (name : string) (cpu : Z)
  (pbm pbm' : PerfBufferMonitor) :
  wfMonitor pbm -> CountLostEvent count name cpu pbm = Done (tt, pbm') ->
  wfMonitor pbm'.
Proof.
  intros Hwf. unfold CountLostEvent, mapSlice.
  destruct (readLostEvents pbm !! name) as [l |] eqn:Hl; simpl.
  - destruct (isNil l || (len l <=? cpu)); [intros [= <-]; exact Hwf |].
    destruct (goIndex l cpu); [| discriminate].
    intros [= <-].
    eapply wfMonitor_update_readLostEvents; [exact Hwf | exact Hl |].
    apply length_insert.
  - intros [= <-]. exact Hwf.
Qed.

End RecorderShape.

(** A transport failure ends the cycle like a failing table: the error of
    the first [client.Count] call is returned, nothing else is sent, and
    the generation flag is not read. *)
Lemma transport_failure_ends_the_cycle :
  result (SendStats (model := testModel) (rt := testRuntime)) transportFailsWorld
    = Some (Some (ErrTransport "connection refused")) /\
  effects <$> run (SendStats (model := testModel) (rt := testRuntime))
                transportFailsWorld
    = Some [StatsdCount MetricPerfBufferEventsWrite 6
              ["cardinality:low"; "map:dns"; "event_type:open"]] /\
  (fun w => shouldBumpGeneration (monitor w))
    <$> run (SendStats (model := testModel) (rt := testRuntime)) transportFailsWorld
    = Some 1.
Proof. repeat split; vm_compute; reflexivity. Qed.

(** * Further properties *)

(** ** Construction *)

Section ConstructionTheorems.
Context {model : Model} {rt : GoRuntime}.

Lemma selectStatsMaps_succeeds (p : Probe) (names : list (string * string)) :
  forall acc,
    (exists tables, selectStatsMaps p names acc = inl tables)
    <-> Forall (resolves p) names.
Proof.
  induction names as [| [pm smn] names IH]; intros acc; simpl.
  - split; [constructor | eauto].
  - destruct (manager_GetMap p smn) as [[table ok] err] eqn:Hget.
    split.
    + intros [tables Hsel]. destruct ok; [| discriminate].
      destruct err; [discriminate |]. simpl in Hsel. constructor.
      * exists table. exact Hget.
      * apply (IH (<[pm := table]> acc)). eauto.
    + intros Hall. inversion Hall as [| x l [table' Hres] Hrest]; subst.
      simpl in Hres. rewrite Hget in Hres. injection Hres as -> -> ->. simpl.
      apply IH. exact Hrest.
Qed.

Lemma selectStatsMaps_lookup (p : Probe) (names : list (string * string)) :
  forall acc tables,
    selectStatsMaps p names acc = inl tables ->
    NoDup names.*1 ->
    forall pm,
      (forall smn, (pm, smn) ∈ names ->
                   tables !! pm = Some (manager_GetMap p smn).1.1) /\
      (pm ∉ names.*1 -> tables !! pm = acc !! pm).
Proof.
  induction names as [| [pm0 smn0] names IH]; intros acc tables Hsel Hnd pm; simpl in *.
  - injection Hsel as <-. split; [intros smn Hin; inversion Hin | reflexivity].
  - destruct (manager_GetMap p smn0) as [[table ok] err] eqn:Hget.
    destruct ok; [| discriminate]. destruct err; [discriminate |]. simpl in Hsel.
    apply NoDup_cons in Hnd as [Hfresh Hnd].
    destruct (IH _ _ Hsel Hnd pm) as [Hin Hout]. split.
    + intros smn [[= -> ->] | Hmem]%elem_of_cons.
      * rewrite Hout by exact Hfresh. rewrite lookup_insert_eq, Hget. reflexivity.
      * apply Hin. exact Hmem.
    + intros Hnot. apply not_elem_of_cons in Hnot as [Hne Hnot].
      rewrite (Hout Hnot). apply lookup_insert_ne. congruence.
Qed.

Lemma register_fold_lookup (n : Z) (names : list string) :
  forall (pbm : PerfBufferMonitor) (name : string),
    let grid := replicate (Z.to_nat n) (replicate (N.to_nat MaxEventType) zeroStats) in
    let r := foldl (fun pbm mName =>
                 mkMonitor (StatsTagsCardinality pbm) (numCPU pbm)
                   (perfBufferStatsMaps pbm)
                   (<[mName := grid]> (stats pbm))
                   (<[mName := grid]> (kernelStats pbm))
                   (<[mName := replicate (Z.to_nat n) 0]> (readLostEvents pbm))
                   (<[mName := replicate (N.to_nat MaxEventType) 0]>
                      (sortingErrorStats pbm))
                   (lastTimestamp pbm) (shouldBumpGeneration pbm))
                 pbm names in
    lastTimestamp r = lastTimestamp pbm /\
    shouldBumpGeneration r = shouldBumpGeneration pbm /\
    perfBufferStatsMaps r = perfBufferStatsMaps pbm /\
    (name ∈ names ->
     stats r !! name = Some grid /\ kernelStats r !! name = Some grid /\
     readLostEvents r !! name = Some (replicate (Z.to_nat n) 0) /\
     sortingErrorStats r !! name = Some (replicate (N.to_nat MaxEventType) 0)) /\
    (name ∉ names ->
     stats r !! name = stats pbm !! name /\
     kernelStats r !! name = kernelStats pbm !! name /\
     readLostEvents r !! name = readLostEvents pbm !! name /\
     sortingErrorStats r !! name = sortingErrorStats pbm !! name).
Proof.
  induction names as [| x names IH]; intros pbm name; cbv zeta.
  - simpl. split; [reflexivity | split; [reflexivity | split; [reflexivity | split]]].
    + intros Hin. inversion Hin.
    + intros _. auto.
  - cbn [foldl].
    match goal with
    | |- context [foldl ?f ?q names] => specialize (IH q name); cbv zeta in IH
    end.
    destruct IH as (Hts & Hflag & Htab & Hin & Hout). simpl in Hts, Hflag, Htab.
    split; [exact Hts | split; [exact Hflag | split; [exact Htab | split]]].
    + intros Hmem. destruct (decide (name ∈ names)) as [Hn | Hn]; [auto |].
      apply elem_of_cons in Hmem as [-> | Hmem]; [| contradiction].
      destruct (Hout Hn) as (H1 & H2 & H3 & H4). simpl in H1, H2, H3, H4.
      rewrite H1, H2, H3, H4, !lookup_insert_eq. auto.
    + intros Hnot. apply not_elem_of_cons in Hnot as [Hne Hnot].
      destruct (Hout Hnot) as (H1 & H2 & H3 & H4). simpl in H1, H2, H3, H4.
      rewrite H1, H2, H3, H4, !lookup_insert_ne by congruence. auto.
Qed.

(** X1: a monitor that [NewPerfBufferMonitor] returns is well formed, has
    the cpu count of the host, a watermark and a generation flag of zero,
    and registers exactly the perf maps of the manager: each of them has a
    user grid and a kernel grid of zero cells, zero lost-event counters and
    zero sorting-error counters, and no other buffer has any. *)
Theorem NewPerfBufferMonitor_fresh (p : Probe) (statisticsMaps : gmap string string)
  (n : Z) (pbm : PerfBufferMonitor) :
  0 <= n ->
  NewPerfBufferMonitor p statisticsMaps (inl n) = inl pbm ->
  wfMonitor pbm /\ numCPU pbm = n /\
  lastTimestamp pbm = 0 /\ shouldBumpGeneration pbm = 0 /\
  (forall name, name ∈ manager_PerfMaps p ->
     stats pbm !! name
       = Some (replicate (Z.to_nat n) (replicate (N.to_nat MaxEventType) zeroStats)) /\
     kernelStats pbm !! name
       = Some (replicate (Z.to_nat n) (replicate (N.to_nat MaxEventType) zeroStats)) /\
     readLostEvents pbm !! name = Some (replicate (Z.to_nat n) 0) /\
     sortingErrorStats pbm !! name = Some (replicate (N.to_nat MaxEventType) 0)) /\
  (forall name, name ∉ manager_PerfMaps p ->
     stats pbm !! name = None /\ kernelStats pbm !! name = None /\
     readLostEvents pbm !! name = None /\ sortingErrorStats pbm !! name = None).
Proof.
  intros Hn Hnew.
  destruct (NewPerfBufferMonitor_wf p statisticsMaps n pbm Hn Hnew) as [Hwf Hcpu].
  split; [exact Hwf | split; [exact Hcpu |]].
  unfold NewPerfBufferMonitor in Hnew.
  destruct (selectStatsMaps p (rangeMap statisticsMaps) ∅) as [tables | e];
    [| discriminate].
  injection Hnew as <-.
  pose proof (fun name =>
    register_fold_lookup n (manager_PerfMaps p)
      (mkMonitor (config_StatsTagsCardinality p) n tables ∅ ∅ ∅ ∅ 0 0) name) as H.
  cbv zeta in H.
  split; [apply (H ""%string) | split; [apply (H ""%string) | split]].
  - intros name Hin. apply (H name). exact Hin.
  - intros name Hnot. destruct (H name) as (_ & _ & _ & _ & Hout).
    destruct (Hout Hnot) as (H1 & H2 & H3 & H4). simpl in H1, H2, H3, H4.
    rewrite H1, H2, H3, H4. repeat split; apply lookup_empty.
Qed.

(** X2: [NewPerfBufferMonitor] fails with the wrapped error when the cpu
    count of the host cannot be fetched; otherwise it succeeds exactly when
    every statistics table of the perf buffers resolves, and then, for a
    [range] that visits every entry once, the monitor holds for each perf
    buffer the table that the manager returned for it. *)
Theorem NewPerfBufferMonitor_fails_without_tables (p : Probe)
  (statisticsMaps : gmap string string) :
  (forall e, NewPerfBufferMonitor p statisticsMaps (inr e)
             = inr (Wrapf e "couldn't fetch the host CPU count")) /\
  (forall n, (exists pbm, NewPerfBufferMonitor p statisticsMaps (inl n) = inl pbm)
             <-> Forall (resolves p) (rangeMap statisticsMaps)) /\
  (forall n pbm,
     rangeMap_sound rt ->
     NewPerfBufferMonitor p statisticsMaps (inl n) = inl pbm ->
     forall pm smn, statisticsMaps !! pm = Some smn ->
       perfBufferStatsMaps pbm !! pm = Some (manager_GetMap p smn).1.1).
Proof.
  split; [reflexivity | split].
  - intros n. rewrite <- (selectStatsMaps_succeeds p (rangeMap statisticsMaps) ∅).
    unfold NewPerfBufferMonitor.
    destruct (selectStatsMaps p (rangeMap statisticsMaps) ∅) as [tables | e].
    + split; eauto.
    + split; intros [x Hx]; discriminate.
  - intros n pbm Hsound Hnew pm smn Hpm.
    unfold NewPerfBufferMonitor in Hnew.
    destruct (selectStatsMaps p (rangeMap statisticsMaps) ∅) as [tables | e] eqn:Hsel;
      [| discriminate].
    injection Hnew as <-.
    destruct (register_fold_lookup n (manager_PerfMaps p)
                (mkMonitor (config_StatsTagsCardinality p) n tables ∅ ∅ ∅ ∅ 0 0) pm)
      as (_ & _ & Htab & _).
    cbv zeta in Htab. rewrite Htab. simpl.
    assert (Hperm : rangeMap statisticsMaps ≡ₚ map_to_list statisticsMaps)
      by apply Hsound.
    eapply (selectStatsMaps_lookup p _ ∅ tables Hsel).
    + rewrite Hperm. apply NoDup_fst_map_to_list.
    + rewrite Hperm. apply elem_of_map_to_list. exact Hpm.
Qed.

End ConstructionTheorems.

(** ** The recorders *)

Section RecorderExtras.
Context {model : Model} {rt : GoRuntime}.

Lemma getAndResetReadLostCount_wf (name : string) (cpu : Z)
  (pbm pbm' : PerfBufferMonitor) (v : Z) :
  wfMonitor pbm -> getAndResetReadLostCount name cpu pbm = Done (v, pbm') ->
  wfMonitor pbm'.
Proof.
  intros Hwf. unfold getAndResetReadLostCount, mapSlice.
  destruct (readLostEvents pbm !! name) as [l |] eqn:Hl; simpl.
  - destruct (goIndex l cpu); [| discriminate]. intros [= _ <-].
    eapply wfMonitor_update_readLostEvents; [exact Hwf | exact Hl |].
    apply length_insert.
  - unfold goIndex. destruct (cpu <? 0); discriminate.
Qed.

Lemma GetAndResetLostCount_wf (name : string) (cpu : Z)
  (pbm pbm' : PerfBufferMonitor) (v : Z) :
  wfMonitor pbm -> GetAndResetLostCount name cpu pbm = Done (v, pbm') ->
  wfMonitor pbm'.
Proof.
  intros Hwf Hrun. revert Hwf.
  apply (fun H => H pbm v pbm' Hrun). clear Hrun pbm pbm' v.
  change (keeps (fun p p' => wfMonitor p -> wfMonitor p')
            (GetAndResetLostCount name cpu)).
  assert (Hrefl : forall p : PerfBufferMonitor, wfMonitor p -> wfMonitor p) by auto.
  assert (Htrans : forall p1 p2 p3 : PerfBufferMonitor,
            (wfMonitor p1 -> wfMonitor p2) -> (wfMonitor p2 -> wfMonitor p3) ->
            wfMonitor p1 -> wfMonitor p3) by auto.
  assert (Hstep : forall i, keeps (fun p p' => wfMonitor p -> wfMonitor p')
                              (getAndResetReadLostCount name i)).
  { intros i p v p' Hrun Hwf. eapply getAndResetReadLostCount_wf; eassumption. }
  unfold GetAndResetLostCount.
  apply keeps_bind; [exact Htrans | apply keeps_getState; exact Hrefl |].
  intros pbm0. repeat apply keeps_if.
  - apply keeps_foldGo; [exact Hrefl | exact Htrans |].
    intros i total _. apply keeps_bind; [exact Htrans | apply Hstep |].
    intros v. apply keeps_ret. exact Hrefl.
  - apply keeps_bind; [exact Htrans | apply Hstep |].
    intros v. apply keeps_ret. exact Hrefl.
  - apply keeps_ret. exact Hrefl.
Qed.

(** X3: the recorders and the draining accessor keep the shape of the
    monitor: whenever [CountEvent], [CountLostEvent] or
    [GetAndResetLostCount] returns on a well-formed monitor, the monitor
    it leaves is well formed. *)
Theorem recorders_keep_shape (pbm : PerfBufferMonitor) :
  wfMonitor pbm ->
  (forall evt ts count size name cpu pbm',
     CountEvent evt ts count size name cpu pbm = Done (tt, pbm') -> wfMonitor pbm') /\
  (forall count name cpu pbm',
     CountLostEvent count name cpu pbm = Done (tt, pbm') -> wfMonitor pbm') /\
  (forall name cpu v pbm',
     GetAndResetLostCount name cpu pbm = Done (v, pbm') -> wfMonitor pbm').
Proof.
  intros Hwf. split; [| split].
  - intros evt ts count size name cpu pbm'. apply CountEvent_wf. exact Hwf.
  - intros count name cpu pbm'. apply CountLostEvent_wf. exact Hwf.
  - intros name cpu v pbm'. apply GetAndResetLostCount_wf. exact Hwf.
Qed.

Lemma CountEvent_valid_result (pbm : PerfBufferMonitor) (evt : EventType)
  (ts count size : Z) (name : string) (cpu : Z) (g : list (list PerfMapStats)) :
  wfMonitor pbm -> stats pbm !! name = Some g ->
  0 <= cpu < numCPU pbm -> (evt < MaxEventType)%N ->
  exists pbm1 c,
    CountEvent evt ts count size name cpu pbm
      = Done (tt, recordCell evt name cpu count size c pbm1) /\
    cellAt (stats pbm) name cpu evt = Some c /\
    stats pbm1 = stats pbm /\ kernelStats pbm1 = kernelStats pbm /\
    readLostEvents pbm1 = readLostEvents pbm.
Proof.
  intros Hwf Hg Hcpu Hevt.
  destruct (wf_sortingError_cell pbm name g evt Hwf Hg Hevt)
    as (arr & c & Harr & Hc & Hcell).
  destruct (wf_user_cell pbm name g cpu evt Hwf Hg Hcpu Hevt) as [c0 Hc0].
  assert (Hlen : len (mapSlice (stats pbm) name) = numCPU pbm).
  { rewrite (mapSlice_Some _ _ _ Hg). apply (wf_stats pbm Hwf name g Hg). }
  destruct ((ts <? lastTimestamp pbm) && negb (lastTimestamp pbm =? 0)) eqn:Hord.
  - exists (set_shouldBumpGeneration 1
              (setSortingErrorCell name evt (addInt64 c 1) pbm)), c0.
    split; [| auto].
    unfold CountEvent. apply CountEvent_sanity_passed.
    + cbv beta. rewrite Hord, Hcell. reflexivity.
    + simpl. lia.
    + exact Hevt.
    + exact Hc0.
  - exists (set_lastTimestamp ts pbm), c0. split; [| auto].
    unfold CountEvent. apply CountEvent_sanity_passed.
    + cbv beta. rewrite Hord. reflexivity.
    + simpl. lia.
    + exact Hevt.
    + exact Hc0.
Qed.

Lemma recordCell_cell (evt : EventType) (name : string) (cpu count size : Z)
  (c : PerfMapStats) (pbm : PerfBufferMonitor) :
  cellAt (stats pbm) name cpu evt = Some c ->
  cellAt (stats (recordCell evt name cpu count size c pbm)) name cpu evt
    = Some (mkStats (add64 (Bytes c) size) (add64 (Count c) count) (Lost c)) /\
  forall name' cpu' evt',
    (name', cpu', evt') <> (name, cpu, evt) ->
    cellAt (stats (recordCell evt name cpu count size c pbm)) name' cpu' evt'
    = cellAt (stats pbm) name' cpu' evt'.
Proof.
  intros Hc. unfold recordCell. simpl. split.
  - eapply cellAt_setCell, cellAt_setCell. exact Hc.
  - intros name' cpu' evt' Hne.
    erewrite cellAt_setCell_ne; [| eapply cellAt_setCell; exact Hc | exact Hne].
    erewrite cellAt_setCell_ne; [reflexivity | exact Hc | exact Hne].
Qed.

(** X4: for a registered buffer and indices in range [CountEvent] adds
    [count] to the count and [size] to the bytes of the cell (buffer, cpu,
    event type), on [uint64], and changes nothing else of the counters:
    every other cell of the user grid, the kernel grid and the lost-event
    counters are as before. *)
Theorem CountEvent_records (pbm : PerfBufferMonitor) (evt : EventType)
  (ts count size : Z) (name : string) (cpu : Z) (g : list (list PerfMapStats)) :
  wfMonitor pbm -> stats pbm !! name = Some g ->
  0 <= cpu < numCPU pbm -> (evt < MaxEventType)%N ->
  exists pbm' c,
    CountEvent evt ts count size name cpu pbm = Done (tt, pbm') /\
    cellAt (stats pbm) name cpu evt = Some c /\
    cellAt (stats pbm') name cpu evt
      = Some (mkStats (add64 (Bytes c) size) (add64 (Count c) count) (Lost c)) /\
    (forall name' cpu' evt',
       (name', cpu', evt') <> (name, cpu, evt) ->
       cellAt (stats pbm') name' cpu' evt' = cellAt (stats pbm) name' cpu' evt') /\
    kernelStats pbm' = kernelStats pbm /\
    readLostEvents pbm' = readLostEvents pbm.
Proof.
  intros Hwf Hg Hcpu Hevt.
  destruct (CountEvent_valid_result pbm evt ts count size name cpu g Hwf Hg Hcpu Hevt)
    as (pbm1 & c & Hrun & Hc & Hs & Hk & Hr).
  exists (recordCell evt name cpu count size c pbm1), c.
  assert (Hc1 : cellAt (stats pbm1) name cpu evt = Some c) by (rewrite Hs; exact Hc).
  destruct (recordCell_cell evt name cpu count size c pbm1 Hc1) as [Hcell Hframe].
  split; [exact Hrun | split; [exact Hc | split; [exact Hcell | split; [| split]]]].
  - intros name' cpu' evt' Hne. rewrite (Hframe name' cpu' evt' Hne), Hs. reflexivity.
  - exact Hk.
  - exact Hr.
Qed.

Lemma addCell_user_fields (f : Field) (evt : EventType) (name : string)
  (cpu delta : Z) (pbm pbm' : PerfBufferMonitor) :
  addCell UserGrid f evt name cpu delta pbm = Done (tt, pbm') ->
  lastTimestamp pbm' = lastTimestamp pbm /\
  shouldBumpGeneration pbm' = shouldBumpGeneration pbm /\
  sortingErrorStats pbm' = sortingErrorStats pbm /\
  kernelStats pbm' = kernelStats pbm /\
  readLostEvents pbm' = readLostEvents pbm.
Proof.
  unfold addCell. destruct (cellAt (gridOf UserGrid pbm) name cpu evt); [| discriminate].
  intros [= <-]. auto.
Qed.

(** X5: [CountEvent] never moves the watermark backwards: for timestamps
    and a watermark that are not negative, a call that returns leaves the
    watermark where it was or at the timestamp, and not below where it
    was; and it leaves the generation flag as it was or at 1. *)
Theorem CountEvent_watermark_monotone (pbm pbm' : PerfBufferMonitor)
  (evt : EventType) (ts count size : Z) (name : string) (cpu : Z) :
  0 <= ts -> 0 <= lastTimestamp pbm ->
  CountEvent evt ts count size name cpu pbm = Done (tt, pbm') ->
  lastTimestamp pbm <= lastTimestamp pbm' /\
  (lastTimestamp pbm' = lastTimestamp pbm \/ lastTimestamp pbm' = ts) /\
  (shouldBumpGeneration pbm' = shouldBumpGeneration pbm
   \/ shouldBumpGeneration pbm' = 1).
Proof.
  intros Hts Hlast. unfold CountEvent.
  intros (u & pbm1 & Hcheck & Hrest)%bind_inv.
  assert (H1 : lastTimestamp pbm <= lastTimestamp pbm1 /\
               (lastTimestamp pbm1 = lastTimestamp pbm \/ lastTimestamp pbm1 = ts) /\
               (shouldBumpGeneration pbm1 = shouldBumpGeneration pbm
                \/ shouldBumpGeneration pbm1 = 1)).
  { cbv beta in Hcheck.
    destruct (ts <? lastTimestamp pbm) eqn:E1;
      [destruct (lastTimestamp pbm =? 0) eqn:E2 |]; simpl in Hcheck.
    - injection Hcheck as _ <-. simpl. apply Z.eqb_eq in E2. lia.
    - destruct (sortingErrorCell pbm name evt); [| discriminate].
      injection Hcheck as _ <-. simpl. lia.
    - injection Hcheck as _ <-. simpl. apply Z.ltb_ge in E1. lia. }
  rewrite bind_getState in Hrest. cbv zeta in Hrest.
  destruct (isNil (mapSlice (stats pbm1) name)
            || (len (mapSlice (stats pbm1) name) <=? cpu)
            || (MaxEventType <=? evt)%N).
  - injection Hrest as <-. exact H1.
  - apply bind_inv in Hrest as ([] & pbm2 & Hadd1 & Hadd2).
    destruct (addCell_user_fields _ _ _ _ _ _ _ Hadd1) as (Ht1 & Hf1 & _).
    destruct (addCell_user_fields _ _ _ _ _ _ _ Hadd2) as (Ht2 & Hf2 & _).
    rewrite Ht2, Ht1, Hf2, Hf1. exact H1.
Qed.

(** X6: [CountLostEvent] on a registered buffer and a cpu index within its
    counters adds [count] to the counter of that cpu, on [uint64], and
    leaves every other lost-event counter and every other table of the
    monitor as it was; on an unregistered buffer, or with a cpu index at or
    beyond the number of counters, it returns and changes nothing. *)
Theorem CountLostEvent_accumulates (pbm : PerfBufferMonitor) (count : Z)
  (name : string) (cpu : Z) :
  (forall l v,
     readLostEvents pbm !! name = Some l -> goIndex l cpu = Some v ->
     exists pbm',
       CountLostEvent count name cpu pbm = Done (tt, pbm') /\
       getLostCount name cpu pbm' = Done (add64 v count, pbm') /\
       (forall name' cpu',
          (name', cpu') <> (name, cpu) -> 0 <= cpu' ->
          goIndex (mapSlice (readLostEvents pbm') name') cpu'
          = goIndex (mapSlice (readLostEvents pbm) name') cpu') /\
       stats pbm' = stats pbm /\ kernelStats pbm' = kernelStats pbm /\
       sortingErrorStats pbm' = sortingErrorStats pbm /\
       lastTimestamp pbm' = lastTimestamp pbm /\
       shouldBumpGeneration pbm' = shouldBumpGeneration pbm) /\
  (mapSlice (readLostEvents pbm) name = []
   \/ len (mapSlice (readLostEvents pbm) name) <= cpu ->
   CountLostEvent count name cpu pbm = Done (tt, pbm)).
Proof.
  split.
  - intros l v Hl Hv. eexists. split; [eapply CountLostEvent_Done; eassumption |].
    pose proof (proj1 (goIndex_Some _ _ _) Hv) as [Hcpu Hv'].
    pose proof (lookup_lt_Some _ _ _ Hv') as Hlt.
    split; [| split; [| simpl; auto 6]].
    + unfold getLostCount. simpl. rewrite mapSlice_insert.
      replace (goIndex (<[Z.to_nat cpu := add64 v count]> l) cpu)
        with (Some (add64 v count)); [reflexivity |].
      symmetry. apply goIndex_Some. split; [exact Hcpu |].
      apply list_lookup_insert_eq. exact Hlt.
    + intros name' cpu' Hne Hcpu'. simpl.
      destruct (decide (name = name')) as [<- | Hn].
      * rewrite mapSlice_insert, (mapSlice_Some _ _ _ Hl). unfold goIndex.
        destruct (cpu' <? 0); [reflexivity |].
        apply list_lookup_insert_ne. intros Heq. apply Hne. f_equal. lia.
      * rewrite mapSlice_insert_ne by assumption. reflexivity.
  - intros Hout. unfold CountLostEvent.
    replace (isNil (mapSlice (readLostEvents pbm) name)
             || (len (mapSlice (readLostEvents pbm) name) <=? cpu)) with true;
      [reflexivity |].
    symmetry. destruct Hout as [H | H].
    + rewrite H. reflexivity.
    + apply Z.leb_le in H. rewrite H. apply orb_true_r.
Qed.

(** X7: the sanity checks of the recorders do not cover a negative cpu
    index: on a registered buffer with at least one cpu, [CountLostEvent]
    with a negative cpu index stops with an index out of range, and so
    does [CountEvent] for an event type in range. *)
Theorem negative_cpu_panics (pbm : PerfBufferMonitor) (name : string)
  (g : list (list PerfMapStats)) (cpu : Z) :
  wfMonitor pbm -> stats pbm !! name = Some g -> 0 < numCPU pbm -> cpu < 0 ->
  (forall count, CountLostEvent count name cpu pbm = Panic IndexOutOfRange) /\
  (forall evt ts count size,
     (evt < MaxEventType)%N ->
     CountEvent evt ts count size name cpu pbm = Panic IndexOutOfRange).
Proof.
  intros Hwf Hg Hn Hcpu. split.
  - intros count.
    assert (Hin : name ∈ dom (readLostEvents pbm)).
    { rewrite (wf_dom_readLostEvents pbm Hwf). apply elem_of_dom. eauto. }
    apply elem_of_dom in Hin as [l Hl].
    pose proof (wf_readLostEvents pbm Hwf name l Hl) as Hlen.
    unfold CountLostEvent. rewrite (mapSlice_Some _ _ _ Hl).
    rewrite isNil_false by lia.
    destruct (len l <=? cpu) eqn:E; [apply Z.leb_le in E; lia |].
    rewrite goIndex_out_of_range by lia. reflexivity.
  - intros evt ts count size Hevt.
    destruct (wf_sortingError_cell pbm name g evt Hwf Hg Hevt)
      as (arr & c & Harr & Hc & Hcell).
    pose proof (wf_stats pbm Hwf name g Hg) as [Hlen _].
    assert (Hpanic : forall pbm1, stats pbm1 = stats pbm ->
              (pbm ← getState;
               let grid := mapSlice (stats pbm) name in
               if isNil grid || (len grid <=? cpu) || (MaxEventType <=? evt)%N
               then mret tt
               else
                 _ ← addCell UserGrid FCount evt name cpu count;
                 addCell UserGrid FBytes evt name cpu size) pbm1
              = Panic IndexOutOfRange).
    { intros pbm1 Hs. rewrite bind_getState. cbv zeta.
      rewrite Hs, (mapSlice_Some _ _ _ Hg). rewrite isNil_false by lia.
      destruct (len g <=? cpu) eqn:E1; [apply Z.leb_le in E1; lia |].
      destruct (MaxEventType <=? evt)%N eqn:E2; [apply N.leb_le in E2; lia |].
      change (false || false || false) with false. cbv iota.
      apply bind_Panic. unfold addCell, cellAt. simpl.
      rewrite Hs, (mapSlice_Some _ _ _ Hg).
      rewrite goIndex_out_of_range by lia. reflexivity. }
    unfold CountEvent.
    destruct ((ts <? lastTimestamp pbm) && negb (lastTimestamp pbm =? 0)) eqn:Hord.
    + erewrite bind_Done; [apply Hpanic | cbv beta; rewrite Hord, Hcell; reflexivity].
      reflexivity.
    + erewrite bind_Done; [apply Hpanic | cbv beta; rewrite Hord; reflexivity].
      reflexivity.
Qed.

End RecorderExtras.

(** ** The accessors *)

Section AccessorExtras.
Context {model : Model} {rt : GoRuntime}.

Lemma getLostCount_Done (name : string) (cpu : Z) (pbm : PerfBufferMonitor)
  (l : list Z) (v : Z) :
  readLostEvents pbm !! name = Some l -> goIndex l cpu = Some v ->
  getLostCount name cpu pbm = Done (v, pbm).
Proof.
  intros Hl Hv. unfold getLostCount. rewrite (mapSlice_Some _ _ _ Hl), Hv.
  reflexivity.
Qed.

Lemma GetLostCount_loop (name : string) (pbm : PerfBufferMonitor) (l : list Z)
  (j : nat) :
  readLostEvents pbm !! name = Some l ->
  forall (k acc : Z),
    0 <= k -> k + Z.of_nat j = len l -> is_uint64 acc ->
    foldGo (fun i total => v ← getLostCount name i; mret (add64 total v))
      (seqZ k (Z.of_nat j)) acc pbm
    = Done ((acc + sumZ (drop (Z.to_nat k) l)) mod two64, pbm).
Proof.
  intros Hl. induction j as [| j IH]; intros k acc Hk Hkj Hacc.
  - unfold len in Hkj. rewrite drop_ge by lia. simpl. rewrite Z.add_0_r.
    rewrite Z.mod_small by exact Hacc. reflexivity.
  - rewrite seqZ_cons by lia.
    replace (Z.pred (Z.of_nat (S j))) with (Z.of_nat j) by lia.
    destruct (goIndex_in_range l k) as [v Hv]; [lia |].
    pose proof (proj1 (goIndex_Some _ _ _) Hv) as [_ Hv'].
    cbn [foldGo].
    erewrite bind_Done;
      [| erewrite bind_Done; [reflexivity | eapply getLostCount_Done; eassumption]].
    rewrite IH; [| lia | lia | apply is_uint64_add64].
    replace (Z.to_nat (Z.succ k)) with (S (Z.to_nat k)) by lia.
    rewrite (drop_S l v (Z.to_nat k) Hv'). unfold add64, sumZ. cbn [foldr].
    rewrite Zplus_mod_idemp_l, Z.add_assoc. reflexivity.
Qed.

Lemma GetLostCount_all (name : string) (pbm : PerfBufferMonitor) (l : list Z) :
  readLostEvents pbm !! name = Some l ->
  GetLostCount name (-1) pbm = Done (sumZ l mod two64, pbm).
Proof.
  intros Hl. unfold GetLostCount. rewrite bind_getState.
  change (-1 =? -1) with true. cbv iota.
  rewrite (mapSlice_Some _ _ _ Hl). unfold rangeIdx.
  rewrite <- (Z2Nat.id (len l)) by (unfold len; lia).
  rewrite (GetLostCount_loop name pbm l (Z.to_nat (len l)) Hl 0 0);
    [reflexivity | lia | unfold len; lia | unfold is_uint64, two64; lia].
Qed.

Lemma GetLostCount_cpu (name : string) (cpu : Z) (pbm : PerfBufferMonitor)
  (l : list Z) (v : Z) :
  readLostEvents pbm !! name = Some l -> goIndex l cpu = Some v ->
  cpu < numCPU pbm ->
  GetLostCount name cpu pbm = Done (v mod two64, pbm).
Proof.
  intros Hl Hv Hn. pose proof (proj1 (goIndex_Some _ _ _) Hv) as [Hcpu _].
  unfold GetLostCount. rewrite bind_getState.
  destruct (cpu =? -1) eqn:E; [apply Z.eqb_eq in E; lia |].
  destruct (0 <=? cpu) eqn:E1; [| apply Z.leb_gt in E1; lia].
  destruct (cpu <? numCPU pbm) eqn:E2; [| apply Z.ltb_ge in E2; lia].
  cbn [andb].
  erewrite bind_Done; [| eapply getLostCount_Done; eassumption]. reflexivity.
Qed.

(** X8: [GetLostCount] only reads.  For a registered buffer it returns,
    with the monitor unchanged, the sum of the counters of all cpus (on
    [uint64]) for cpu -1 and the counter of the cpu for a cpu of the host;
    for a cpu index below -1, or at or beyond the cpu count, it returns
    zero; for an unregistered buffer and cpu -1 it returns zero. *)
Theorem GetLostCount_reads (pbm : PerfBufferMonitor) (name : string) :
  (forall l, readLostEvents pbm !! name = Some l ->
     GetLostCount name (-1) pbm = Done (sumZ l mod two64, pbm) /\
     forall cpu v, goIndex l cpu = Some v -> cpu < numCPU pbm ->
       GetLostCount name cpu pbm = Done (v mod two64, pbm)) /\
  (forall cpu, cpu < -1 \/ (0 <= cpu /\ numCPU pbm <= cpu) ->
     GetLostCount name cpu pbm = Done (0, pbm)) /\
  (readLostEvents pbm !! name = None ->
   GetLostCount name (-1) pbm = Done (0, pbm)).
Proof.
  split; [| split].
  - intros l Hl. split; [apply GetLostCount_all; exact Hl |].
    intros cpu v Hv Hn. eapply GetLostCount_cpu; eassumption.
  - intros cpu Hcpu. unfold GetLostCount. rewrite bind_getState.
    destruct (cpu =? -1) eqn:E; [apply Z.eqb_eq in E; lia |].
    destruct (0 <=? cpu) eqn:E1; [| reflexivity].
    destruct (cpu <? numCPU pbm) eqn:E2; [| reflexivity].
    apply Z.leb_le in E1. apply Z.ltb_lt in E2. lia.
  - intros Hnone. unfold GetLostCount. rewrite bind_getState.
    change (-1 =? -1) with true. cbv iota.
    unfold mapSlice. rewrite Hnone. reflexivity.
Qed.

Lemma drain_all_state (name : string) (j : nat) :
  forall (k acc : Z) (pbm pbm' : PerfBufferMonitor) (cur : list Z) (total : Z),
    readLostEvents pbm !! name = Some cur ->
    0 <= k -> k + Z.of_nat j = len cur ->
    foldGo (fun i total => v ← getAndResetReadLostCount name i; mret (add64 total v))
      (seqZ k (Z.of_nat j)) acc pbm = Done (total, pbm') ->
    readLostEvents pbm' !! name = Some (take (Z.to_nat k) cur ++ replicate j 0).
Proof.
  induction j as [| j IH]; intros k acc pbm pbm' cur total Hcur Hk Hkj Hrun.
  - simpl in Hrun. injection Hrun as _ <-. unfold len in Hkj.
    rewrite take_ge by lia. simpl. rewrite app_nil_r. exact Hcur.
  - rewrite seqZ_cons in Hrun by lia.
    replace (Z.pred (Z.of_nat (S j))) with (Z.of_nat j) in Hrun by lia.
    destruct (goIndex_in_range cur k) as [v Hv]; [lia |].
    pose proof (proj1 (goIndex_Some _ _ _) Hv) as [_ Hv'].
    cbn [foldGo] in Hrun.
    erewrite bind_Done in Hrun;
      [| erewrite bind_Done;
         [reflexivity | eapply getAndResetReadLostCount_Done; eassumption]].
    apply IH with (cur := <[Z.to_nat k := 0]> cur) in Hrun.
    + rewrite Hrun. f_equal.
      replace (Z.to_nat (Z.succ k)) with (S (Z.to_nat k)) by lia.
      pose proof (lookup_lt_Some _ _ _ Hv') as Hlt.
      rewrite (take_S_r (<[Z.to_nat k := 0]> cur) (Z.to_nat k) 0)
        by (apply list_lookup_insert_eq; exact Hlt).
      rewrite take_insert_ge by lia. rewrite <- app_assoc. reflexivity.
    + simpl. apply lookup_insert_eq.
    + lia.
    + unfold len in *. rewrite length_insert. lia.
Qed.

(** X9: for a registered buffer and a selector of [GetLostCount] (cpu -1
    or a cpu of the host) [GetAndResetLostCount] returns what
    [GetLostCount] reads, and [GetLostCount] reads zero afterwards. *)
Theorem GetAndResetLostCount_then_GetLostCount (pbm : PerfBufferMonitor)
  (name : string) (l : list Z) (cpu : Z) :
  wfMonitor pbm -> readLostEvents pbm !! name = Some l ->
  cpu = -1 \/ 0 <= cpu < numCPU pbm ->
  exists v pbm',
    GetLostCount name cpu pbm = Done (v, pbm) /\
    GetAndResetLostCount name cpu pbm = Done (v, pbm') /\
    GetLostCount name cpu pbm' = Done (0, pbm').
Proof.
  intros Hwf Hl Hsel. pose proof (wf_readLostEvents pbm Hwf name l Hl) as Hlen.
  destruct Hsel as [-> | Hcpu].
  - pose proof (wf_numCPU pbm Hwf) as Hn0.
    destruct (drain_loops_agree name (numCPU pbm) (Z.to_nat (numCPU pbm)) 0 pbm l 0 []
                Hl Hlen eq_refl) as (pbm' & _ & Hagg);
      [lia | lia | unfold is_uint64, two64; lia |].
    rewrite Z2Nat.id in Hagg by exact Hn0.
    change (Z.to_nat 0) with 0%nat in Hagg. rewrite drop_0, Z.add_0_l in Hagg.
    assert (Hall : GetAndResetLostCount name (-1) pbm
                   = Done (sumZ (add64 0 <$> l) mod two64, pbm')).
    { unfold GetAndResetLostCount. rewrite bind_getState.
      change (-1 =? -1) with true. cbv iota.
      rewrite (mapSlice_Some _ _ _ Hl). unfold rangeIdx. rewrite Hlen. exact Hagg. }
    exists (sumZ l mod two64), pbm'.
    assert (Hsum : sumZ (add64 0 <$> l) mod two64 = sumZ l mod two64).
    { clear. induction l as [| x l IH]; [reflexivity |].
      rewrite fmap_cons. unfold sumZ in *. cbn [foldr]. unfold add64 at 1.
      rewrite Z.add_0_l, Zplus_mod_idemp_l.
      rewrite <- Zplus_mod_idemp_r, IH, Zplus_mod_idemp_r. reflexivity. }
    rewrite Hsum in Hall.
    split; [apply GetLostCount_all; exact Hl | split; [exact Hall |]].
    assert (Hl' : readLostEvents pbm' !! name = Some (replicate (length l) 0)).
    { revert Hall. unfold GetAndResetLostCount. rewrite bind_getState.
      change (-1 =? -1) with true. cbv iota.
      rewrite (mapSlice_Some _ _ _ Hl). unfold rangeIdx.
      rewrite <- (Z2Nat.id (len l)) by (unfold len; lia). intros Hall.
      apply (drain_all_state name (Z.to_nat (len l)) 0 0 pbm pbm' l _ Hl) in Hall;
        [| lia | unfold len; lia].
      rewrite Hall. simpl. unfold len. rewrite Nat2Z.id. reflexivity. }
    rewrite (GetLostCount_all name pbm' _ Hl'). do 2 f_equal.
    clear. induction (length l) as [| n IH]; [reflexivity |].
    simpl. unfold sumZ in *. cbn [foldr]. exact IH.
  - destruct (goIndex_in_range l cpu) as [v Hv]; [lia |].
    exists (v mod two64), (set_readLostEvents
                            (<[name := <[Z.to_nat cpu := 0]> l]> (readLostEvents pbm))
                            pbm).
    split; [| split].
    + apply (GetLostCount_cpu name cpu pbm l v Hl Hv). lia.
    + rewrite (GetAndResetLostCount_cpu name cpu pbm l v Hl Hv) by lia. reflexivity.
    + pose proof (proj1 (goIndex_Some _ _ _) Hv) as [_ Hv'].
      apply (GetLostCount_cpu name cpu _ (<[Z.to_nat cpu := 0]> l) 0);
        [simpl; apply lookup_insert_eq | | simpl; lia].
      apply goIndex_Some. split; [lia |].
      apply list_lookup_insert_eq. eapply lookup_lt_Some. exact Hv'.
Qed.

End AccessorExtras.

Lemma foldGo_result {S A B : Type} (P : B -> Prop) (body : A -> B -> Go S B)
  (l : list A) :
  (forall x acc s acc' s', P acc -> body x acc s = Done (acc', s') -> P acc') ->
  forall acc s acc' s', P acc -> foldGo body l acc s = Done (acc', s') -> P acc'.
Proof.
  intros Hbody. induction l as [| x l IH]; intros acc s acc' s' Hacc; simpl.
  - intros [= <- _]. exact Hacc.
  - intros (a1 & s1 & H1 & H2)%bind_inv. eapply IH; [| exact H2].
    eapply Hbody; eassumption.
Qed.

Section EventStatsExtras.
Context {model : Model} {rt : GoRuntime}.

Lemma loadCell_keeps (sel : GridSel) (f : Field) (evt : EventType) (name : string)
  (cpu : Z) : keeps eq (loadCell sel f evt name cpu).
Proof.
  intros pbm v pbm'. unfold loadCell.
  destruct (cellAt (gridOf sel pbm) name cpu evt); [| discriminate].
  intros [= _ <-]. reflexivity.
Qed.

Lemma GetEventStats_keeps (evt : EventType) (name : string) (cpu : Z) :
  keeps eq (GetEventStats evt name cpu).
Proof.
  assert (Hrefl : forall p : PerfBufferMonitor, p = p) by reflexivity.
  assert (Htrans : forall p1 p2 p3 : PerfBufferMonitor, p1 = p2 -> p2 = p3 -> p1 = p3)
    by congruence.
  assert (Hread : forall i (st : PerfMapStats),
            keeps eq
              (c ← getEventCount evt name i;
               let st := mkStats (Bytes st) (add64 (Count st) c) (Lost st) in
               b ← getEventBytes evt name i;
               mret (mkStats (add64 (Bytes st) b) (Count st) (Lost st)))).
  { intros i st. apply keeps_bind; [exact Htrans | apply loadCell_keeps |].
    intros c. cbv zeta. apply keeps_bind; [exact Htrans | apply loadCell_keeps |].
    intros b. apply keeps_ret. exact Hrefl. }
  unfold GetEventStats.
  apply keeps_bind; [exact Htrans | apply keeps_getState; exact Hrefl |].
  intros pbm. apply keeps_if; [apply keeps_ret; exact Hrefl |]. cbv zeta.
  apply keeps_foldGo; [exact Hrefl | exact Htrans |].
  intros m st _. repeat apply keeps_if.
  - apply keeps_foldGo; [exact Hrefl | exact Htrans |].
    intros i st0 _. apply Hread.
  - apply Hread.
  - apply keeps_ret. exact Hrefl.
Qed.

Lemma GetEventStats_lost (evt : EventType) (name : string) (cpu : Z)
  (pbm pbm' : PerfBufferMonitor) (st : PerfMapStats) :
  GetEventStats evt name cpu pbm = Done (st, pbm') -> Lost st = 0.
Proof.
  assert (Hread : forall i (acc acc' : PerfMapStats) s s',
            Lost acc = 0 ->
            (c ← getEventCount evt name i;
             let st := mkStats (Bytes acc) (add64 (Count acc) c) (Lost acc) in
             b ← getEventBytes evt name i;
             mret (mkStats (add64 (Bytes st) b) (Count st) (Lost st))) s
            = Done (acc', s') ->
            Lost acc' = 0).
  { intros i acc acc' s s' Hacc (c & s1 & _ & H2)%bind_inv. cbv zeta in H2.
    apply bind_inv in H2 as (b & s2 & _ & H3). injection H3 as <- _. exact Hacc. }
  unfold GetEventStats. rewrite bind_getState.
  destruct (MaxEventType <=? evt)%N; [intros [= <- _]; reflexivity |]. cbv zeta.
  apply (foldGo_result (fun st => Lost st = 0)); [| reflexivity].
  intros m acc s acc' s' Hacc.
  destruct (cpu =? -1).
  - apply (foldGo_result (fun st => Lost st = 0)); [| exact Hacc].
    intros i acc0 s0 acc0' s0' Hacc0. apply Hread. exact Hacc0.
  - destruct ((0 <=? cpu) && (cpu <? numCPU pbm)).
    + apply Hread. exact Hacc.
    + intros [= <- _]. exact Hacc.
Qed.

Lemma foldGo_skip {S A B : Type} (l : list A) (acc : B) (s : S) :
  foldGo (fun (_ : A) (b : B) => mret b) l acc s = Done (acc, s).
Proof. induction l as [| x l IH]; simpl; [reflexivity | exact IH]. Qed.

(** X10: [GetEventStats] only reads: whenever it returns, the monitor is
    as before and the lost field of the result is zero.  It returns zero
    statistics for an event type at or beyond [MaxEventType], for a
    buffer with a non-empty name that is not registered, and for a cpu
    index that is neither -1 nor a cpu of the host. *)
Theorem GetEventStats_reads (pbm : PerfBufferMonitor) (evt : EventType)
  (name : string) (cpu : Z) :
  (forall st pbm', GetEventStats evt name cpu pbm = Done (st, pbm') ->
                   pbm' = pbm /\ Lost st = 0) /\
  ((MaxEventType <= evt)%N ->
   GetEventStats evt name cpu pbm = Done (zeroStats, pbm)) /\
  (name <> "" -> mapSlice (stats pbm) name = [] ->
   GetEventStats evt name cpu pbm = Done (zeroStats, pbm)) /\
  (cpu < -1 \/ (0 <= cpu /\ numCPU pbm <= cpu) ->
   GetEventStats evt name cpu pbm = Done (zeroStats, pbm)).
Proof.
  split; [| split; [| split]].
  - intros st pbm' Hrun. split.
    + symmetry. exact (GetEventStats_keeps evt name cpu pbm st pbm' Hrun).
    + eapply GetEventStats_lost. exact Hrun.
  - intros Hevt. unfold GetEventStats. rewrite bind_getState.
    apply N.leb_le in Hevt. rewrite Hevt. reflexivity.
  - intros Hname Hnil. unfold GetEventStats. rewrite bind_getState.
    destruct (MaxEventType <=? evt)%N; [reflexivity |].
    assert (Hlen : (String.length name =? 0)%nat = false)
      by (destruct name; [congruence | reflexivity]).
    rewrite Hlen, Hnil. reflexivity.
  - intros Hcpu. unfold GetEventStats. rewrite bind_getState.
    destruct (MaxEventType <=? evt)%N; [reflexivity |]. cbv zeta.
    destruct (cpu =? -1) eqn:E; [apply Z.eqb_eq in E; lia |].
    replace ((0 <=? cpu) && (cpu <? numCPU pbm)) with false.
    + apply foldGo_skip.
    + symmetry. apply andb_false_iff.
      destruct Hcpu as [H | [H1 H2]]; [left; apply Z.leb_gt | right; apply Z.ltb_ge]; lia.
Qed.

Lemma wf_cell_cpu_lt (pbm : PerfBufferMonitor) (name : string) (cpu : Z)
  (evt : EventType) (c : PerfMapStats) :
  wfMonitor pbm -> cellAt (stats pbm) name cpu evt = Some c -> cpu < numCPU pbm.
Proof.
  intros Hwf (row & Hrow & _)%cellAt_Some.
  destruct (stats pbm !! name) as [g |] eqn:Hg.
  - rewrite (mapSlice_Some _ _ _ Hg) in Hrow.
    apply goIndex_Some in Hrow as [_ Hrow]. apply lookup_lt_Some in Hrow.
    destruct (wf_stats pbm Hwf name g Hg) as [Hlen _]. unfold len in Hlen. lia.
  - unfold mapSlice in Hrow. rewrite Hg in Hrow. simpl in Hrow.
    apply goIndex_Some in Hrow as [_ Hrow]. discriminate.
Qed.

Lemma GetEventStats_cpu (pbm : PerfBufferMonitor) (evt : EventType) (name : string)
  (cpu : Z) (c : PerfMapStats) :
  name <> "" -> cellAt (stats pbm) name cpu evt = Some c ->
  cpu < numCPU pbm -> (evt < MaxEventType)%N ->
  GetEventStats evt name cpu pbm
  = Done (mkStats (Bytes c mod two64) (Count c mod two64) 0, pbm).
Proof.
  intros Hname Hc Hn Hevt.
  pose proof Hc as (row & Hrow & _)%cellAt_Some.
  pose proof (proj1 (goIndex_Some _ _ _) Hrow) as [Hcpu Hrow'].
  unfold GetEventStats. rewrite bind_getState.
  destruct (MaxEventType <=? evt)%N eqn:E; [apply N.leb_le in E; lia |].
  assert (Hlen : (String.length name =? 0)%nat = false)
    by (destruct name; [congruence | reflexivity]).
  rewrite Hlen. cbv zeta.
  replace (isNil (mapSlice (stats pbm) name)) with false
    by (destruct (mapSlice (stats pbm) name); [discriminate | reflexivity]).
  cbn [negb foldGo].
  destruct (cpu =? -1) eqn:E0; [apply Z.eqb_eq in E0; lia |].
  destruct (0 <=? cpu) eqn:E1; [| apply Z.leb_gt in E1; lia].
  destruct (cpu <? numCPU pbm) eqn:E2; [| apply Z.ltb_ge in E2; lia].
  cbn [andb].
  erewrite bind_Done;
    [reflexivity
    | erewrite bind_Done;
      [| unfold getEventCount, loadCell; simpl; rewrite Hc; reflexivity];
      cbv zeta;
      erewrite bind_Done;
      [reflexivity | unfold getEventBytes, loadCell; simpl; rewrite Hc; reflexivity]].
Qed.

(** X11: for a registered buffer with a non-empty name [GetEventStats]
    returns, on [uint64], the sums of the count and of the bytes cells of
    the event type over all cpus when the cpu is -1, and the count and the
    bytes of the one cell when the cpu is a cpu of the host. *)
Theorem GetEventStats_sums (pbm : PerfBufferMonitor) (name : string)
  (g : list (list PerfMapStats)) (evt : EventType) :
  wfMonitor pbm -> stats pbm !! name = Some g -> name <> "" ->
  (evt < MaxEventType)%N ->
  GetEventStats evt name (-1) pbm
    = Done (mkStats (sumField FBytes evt g) (sumField FCount evt g) 0, pbm) /\
  forall cpu c,
    cellAt (stats pbm) name cpu evt = Some c ->
    GetEventStats evt name cpu pbm
    = Done (mkStats (Bytes c mod two64) (Count c mod two64) 0, pbm).
Proof.
  intros Hwf Hg Hname Hevt. split.
  - apply GetEventStats_named_all_cpus; assumption.
  - intros cpu c Hc. apply GetEventStats_cpu; try assumption.
    pose proof Hc as (row & Hrow & _)%cellAt_Some.
    rewrite (mapSlice_Some _ _ _ Hg) in Hrow.
    apply goIndex_Some in Hrow as [_ Hrow]. apply lookup_lt_Some in Hrow.
    destruct (wf_stats pbm Hwf name g Hg) as [Hlen _]. unfold len in Hlen. lia.
Qed.

(** X12: what [CountEvent] records, [GetEventStats] reports: after
    [CountEvent] on a registered buffer with a non-empty name and indices
    in range, [GetEventStats] for the same event type, buffer and cpu
    returns the count and the bytes of the cell increased by [count] and
    [size]. *)
Theorem CountEvent_then_GetEventStats (pbm : PerfBufferMonitor) (evt : EventType)
  (ts count size : Z) (name : string) (cpu : Z) (g : list (list PerfMapStats)) :
  wfMonitor pbm -> stats pbm !! name = Some g -> name <> "" ->
  0 <= cpu < numCPU pbm -> (evt < MaxEventType)%N ->
  exists pbm' c,
    cellAt (stats pbm) name cpu evt = Some c /\
    CountEvent evt ts count size name cpu pbm = Done (tt, pbm') /\
    GetEventStats evt name cpu pbm'
    = Done (mkStats (add64 (Bytes c) size) (add64 (Count c) count) 0, pbm').
Proof.
  intros Hwf Hg Hname Hcpu Hevt.
  destruct (CountEvent_valid_result pbm evt ts count size name cpu g Hwf Hg Hcpu Hevt)
    as (pbm1 & c & Hrun & Hc & Hs & _).
  exists (recordCell evt name cpu count size c pbm1), c.
  split; [exact Hc | split; [exact Hrun |]].
  assert (Hc1 : cellAt (stats pbm1) name cpu evt = Some c) by (rewrite Hs; exact Hc).
  destruct (recordCell_cell evt name cpu count size c pbm1 Hc1) as [Hcell _].
  rewrite (GetEventStats_cpu _ evt name cpu _ Hname Hcell);
    [| | exact Hevt].
  - cbn [Bytes Count]. unfold add64. rewrite !Zmod_mod. reflexivity.
  - pose proof (CountEvent_wf evt ts count size name cpu pbm _ Hwf Hrun) as Hwf'.
    apply (wf_cell_cpu_lt _ name cpu evt _ Hwf' Hcell).
Qed.

End EventStatsExtras.

Lemma foldGo_total {S A B : Type} (I : S -> Prop) (body : A -> B -> Go S B)
  (l : list A) :
  (forall x acc s, x ∈ l -> I s -> exists r s', body x acc s = Done (r, s') /\ I s') ->
  forall acc s, I s -> exists r s', foldGo body l acc s = Done (r, s') /\ I s'.
Proof.
  induction l as [| x l IH]; intros Hbody acc s Hs; simpl.
  - eexists _, _. split; [reflexivity | exact Hs].
  - destruct (Hbody x acc s) as (a1 & s1 & H1 & Hs1); [left | exact Hs |].
    erewrite bind_Done by exact H1.
    apply IH; [| exact Hs1]. intros y acc0 s0 Hy. apply Hbody. right. exact Hy.
Qed.

Lemma metricsSent_app (es1 es2 : list Effect) :
  metricsSent (es1 ++ es2) = metricsSent es1 ++ metricsSent es2.
Proof.
  induction es1 as [| e es1 IH]; simpl; [reflexivity |].
  destruct e; simpl; rewrite IH; reflexivity.
Qed.

Lemma silent_refl (w : World) : silent w w.
Proof. split; reflexivity. Qed.

Lemma silent_trans (w1 w2 w3 : World) : silent w1 w2 -> silent w2 w3 -> silent w1 w3.
Proof. unfold silent. intros [? ?] [? ?]. split; congruence. Qed.

Lemma userSideKept_refl (w : World) : userSideKept w w.
Proof. repeat split. Qed.

Lemma userSideKept_trans (w1 w2 w3 : World) :
  userSideKept w1 w2 -> userSideKept w2 w3 -> userSideKept w1 w3.
Proof.
  unfold userSideKept.
  intros (? & ? & ? & ? & ? & ? & ?) (? & ? & ? & ? & ? & ? & ?).
  repeat split; congruence.
Qed.

Lemma liftMonitor_silent {A : Type} (m : Go PerfBufferMonitor A) :
  keeps silent (liftMonitor m).
Proof.
  intros w a w'. unfold liftMonitor.
  destruct (m (monitor w)) as [[a0 pbm] | p]; [| discriminate].
  intros [= _ <-]. split; reflexivity.
Qed.

Section ReconcilerExtras.
Context {model : Model} {rt : GoRuntime}.

Lemma wf_kernel_rows (pbm : PerfBufferMonitor) (name : string) :
  wfMonitor pbm ->
  len (mapSlice (kernelStats pbm) name) = len (mapSlice (stats pbm) name).
Proof.
  intros Hwf. unfold mapSlice.
  destruct (kernelStats pbm !! name) as [g |] eqn:Hk.
  - assert (Hin : name ∈ dom (stats pbm)).
    { rewrite <- (wf_dom_kernelStats pbm Hwf). apply elem_of_dom. eauto. }
    apply elem_of_dom in Hin as [g' Hs]. rewrite Hs. simpl.
    destruct (wf_kernelStats pbm Hwf name g Hk) as [-> _].
    destruct (wf_stats pbm Hwf name g' Hs) as [-> _]. reflexivity.
  - destruct (stats pbm !! name) as [g' |] eqn:Hs; [| reflexivity].
    assert (Hin : name ∈ dom (kernelStats pbm)).
    { rewrite (wf_dom_kernelStats pbm Hwf). apply elem_of_dom. eauto. }
    apply elem_of_dom in Hin as [g Hk']. congruence.
Qed.

Lemma readKernelLost_keeps (perfMap : string) (cpu : Z) (evtTypes : list EventType)
  (rows : list Z) (acc : Z) :
  keeps eq
    (foldGo (fun cpuID total =>
       if (cpu =? -1) || (cpu =? cpuID) then
         foldGo (fun kernelEvtType total =>
           if shouldCount evtTypes kernelEvtType then
             v ← liftMonitor (getKernelLostCount (Z.to_N kernelEvtType) perfMap cpuID);
             mret (add64 total v)
           else mret total)
           rangeEventTypes total
       else mret total) rows acc).
Proof.
  assert (Hrefl : forall w : World, w = w) by reflexivity.
  assert (Htrans : forall w1 w2 w3 : World, w1 = w2 -> w2 = w3 -> w1 = w3)
    by congruence.
  apply keeps_foldGo; [exact Hrefl | exact Htrans |].
  intros cpuID total _. apply keeps_if; [| apply keeps_ret; exact Hrefl].
  apply keeps_foldGo; [exact Hrefl | exact Htrans |].
  intros k total0 _. apply keeps_if; [| apply keeps_ret; exact Hrefl].
  apply keeps_bind; [exact Htrans | | intros v; apply keeps_ret; exact Hrefl].
  intros w v w'. unfold liftMonitor, getKernelLostCount, loadCell.
  destruct (cellAt (gridOf KernelGrid (monitor w)) perfMap cpuID (Z.to_N k));
    [| discriminate].
  intros [= _ <-]. destruct w; reflexivity.
Qed.

Lemma GetAndResetKernelLostCount_total (perfMap : string) (cpu : Z)
  (evtTypes : list EventType) (w : World) :
  wfMonitor (monitor w) ->
  exists v w', GetAndResetKernelLostCount perfMap cpu evtTypes w = Done (v, w')
               /\ wfMonitor (monitor w').
Proof.
  intros Hwf. unfold GetAndResetKernelLostCount.
  destruct (collectAndSendKernelStats_total NilClient w Hwf) as (r & w1 & Hrun & Hwf1).
  erewrite bind_Done by exact Hrun. rewrite bind_getState.
  destruct (foldGo_total (fun s => s = w1)
    (fun cpuID total =>
       if (cpu =? -1) || (cpu =? cpuID) then
         foldGo (fun kernelEvtType total =>
           if shouldCount evtTypes kernelEvtType then
             v ← liftMonitor (getKernelLostCount (Z.to_N kernelEvtType) perfMap cpuID);
             mret (add64 total v)
           else mret total)
           rangeEventTypes total
       else mret total)
    (rangeIdx (mapSlice (kernelStats (monitor w1)) perfMap))) with (acc := 0) (s := w1)
    as (v & w' & Hloop & ->); [| reflexivity |].
  - intros cpuID total s HcpuID ->.
    destruct ((cpu =? -1) || (cpu =? cpuID));
      [| eexists _, _; split; reflexivity].
    apply (foldGo_total (fun s => s = w1)); [| reflexivity].
    intros k total0 s0 Hk ->.
    destruct (shouldCount evtTypes k); [| eexists _, _; split; reflexivity].
    unfold rangeIdx in HcpuID. apply elem_of_seqZ in HcpuID.
    unfold rangeEventTypes in Hk. apply elem_of_seqZ in Hk.
    destruct (wf_cell_in_rows KernelGrid (monitor w1) perfMap cpuID (Z.to_N k) Hwf1)
      as [c Hc]; [rewrite <- wf_kernel_rows by exact Hwf1; lia | lia |].
    eexists _, _. split; [| reflexivity].
    erewrite bind_Done; [reflexivity |].
    unfold liftMonitor, getKernelLostCount, loadCell. rewrite Hc.
    destruct w1; reflexivity.
  - exists v, w1. split; [exact Hloop | exact Hwf1].
Qed.

Lemma SendStats_total (w : World) :
  wfMonitor (monitor w) ->
  exists r w', SendStats w = Done (r, w') /\ wfMonitor (monitor w').
Proof.
  intros Hwf. unfold SendStats.
  destruct (collectAndSendKernelStats_total StatsdClient w Hwf)
    as (r & w1 & Hrun & Hwf1).
  erewrite bind_Done by exact Hrun.
  destruct r as [e |]; [eexists _, _; split; [reflexivity | exact Hwf1] |].
  erewrite bind_Done by reflexivity.
  set (w2 := mkWorld (set_shouldBumpGeneration 0 (monitor w1)) (transport w1)
               (effects w1)).
  assert (Hwf2 : wfMonitor (monitor w2))
    by (apply wfMonitor_set_shouldBumpGeneration; exact Hwf1).
  assert (Hbump : exists w3,
            (if shouldBumpGeneration (monitor w1) =? 1
             then emit BumpCacheGenerations else mret tt) w2 = Done (tt, w3)
            /\ wfMonitor (monitor w3)).
  { destruct (shouldBumpGeneration (monitor w1) =? 1);
      eexists; (split; [reflexivity | exact Hwf2]). }
  destruct Hbump as (w3 & Hbump & Hwf3).
  erewrite bind_Done by exact Hbump.
  destruct (sendEventsAndBytesReadStats_total w3 Hwf3) as (r4 & w4 & Hrun4 & Hwf4).
  erewrite bind_Done by exact Hrun4.
  destruct r4 as [e |]; [eexists _, _; split; [reflexivity | exact Hwf4] |].
  apply sendLostEventsReadStats_total. exact Hwf4.
Qed.

(** X13: on a well-formed monitor the reconciliation with the kernel
    tables never panics, with a statsd client or without one, and neither
    does [GetAndResetKernelLostCount]; both leave a well-formed monitor. *)
Theorem reconciler_never_panics (w : World) :
  wfMonitor (monitor w) ->
  (forall client,
     exists r w', collectAndSendKernelStats client w = Done (r, w')
                  /\ wfMonitor (monitor w')) /\
  (forall perfMap cpu evtTypes,
     exists v w', GetAndResetKernelLostCount perfMap cpu evtTypes w = Done (v, w')
                  /\ wfMonitor (monitor w')).
Proof.
  intros Hwf. split.
  - intros client. apply collectAndSendKernelStats_total. exact Hwf.
  - intros perfMap cpu evtTypes. apply GetAndResetKernelLostCount_total. exact Hwf.
Qed.

(** X14: a reporting cycle never panics on a well-formed monitor:
    [SendStats] and the two emitters it calls return, whatever the
    transport answers, and leave a well-formed monitor. *)
Theorem SendStats_never_panics (w : World) :
  wfMonitor (monitor w) ->
  (exists r w', SendStats w = Done (r, w') /\ wfMonitor (monitor w')) /\
  (exists r w', sendEventsAndBytesReadStats w = Done (r, w')
                /\ wfMonitor (monitor w')) /\
  (exists r w', sendLostEventsReadStats w = Done (r, w') /\ wfMonitor (monitor w')).
Proof.
  intros Hwf. split; [| split].
  - apply SendStats_total. exact Hwf.
  - apply sendEventsAndBytesReadStats_total. exact Hwf.
  - apply sendLostEventsReadStats_total. exact Hwf.
Qed.

Lemma reconcileMap_userSideKept (client : ClientRef) (name : string)
  (table : StatsMap) :
  keeps userSideKept (reconcileMap client (name, table) tt).
Proof.
  apply reconcileMap_keeps;
    [apply userSideKept_refl | apply userSideKept_trans | | | |].
  - intros n v t w a w' [= _ <-]. repeat split.
  - intros f evt cpu v w a w'. unfold liftMonitor, swapCell. simpl.
    destruct (cellAt (kernelStats (monitor w)) name cpu evt); [| discriminate].
    intros [= _ <-]. repeat split.
  - intros w a w' [= _ <-]. repeat split.
  - intros perEvent w a w' [= _ <-]. repeat split.
Qed.

Lemma collectAndSendKernelStats_userSideKept (client : ClientRef) :
  keeps userSideKept (collectAndSendKernelStats client).
Proof.
  unfold collectAndSendKernelStats.
  apply keeps_bind;
    [apply userSideKept_trans | apply keeps_getState, userSideKept_refl |].
  intros w.
  apply keeps_bind; [apply userSideKept_trans | |].
  - apply keeps_forEach; [apply userSideKept_refl | apply userSideKept_trans |].
    intros [name table] [] _. apply reconcileMap_userSideKept.
  - intros [res | u]; apply keeps_ret, userSideKept_refl.
Qed.

Lemma GetAndResetKernelLostCount_inv (perfMap : string) (cpu : Z)
  (evtTypes : list EventType) (w w' : World) (v : Z) :
  GetAndResetKernelLostCount perfMap cpu evtTypes w = Done (v, w') ->
  exists r, collectAndSendKernelStats NilClient w = Done (r, w').
Proof.
  unfold GetAndResetKernelLostCount.
  intros (r & w1 & Hrun & Hrest)%bind_inv. rewrite bind_getState in Hrest.
  apply readKernelLost_keeps in Hrest. subst w'. eauto.
Qed.

(** X15: the reconciliation writes only the kernel grid and the generation
    flag: whenever [collectAndSendKernelStats] or
    [GetAndResetKernelLostCount] returns, the user grid, the lost-event
    counters, the sorting-error counters, the watermark, the cpu count and
    the statistics tables of the monitor are as before. *)
Theorem reconciler_keeps_user_side (w w' : World) :
  (forall client r,
     collectAndSendKernelStats client w = Done (r, w') -> userSideKept w w') /\
  (forall perfMap cpu evtTypes v,
     GetAndResetKernelLostCount perfMap cpu evtTypes w = Done (v, w') ->
     userSideKept w w').
Proof.
  split.
  - intros client r Hrun.
    exact (collectAndSendKernelStats_userSideKept client w r w' Hrun).
  - intros perfMap cpu evtTypes v [r Hrun]%GetAndResetKernelLostCount_inv.
    exact (collectAndSendKernelStats_userSideKept NilClient w r w' Hrun).
Qed.

Lemma emit_dispatch_silent (name : string) (perEvent : gmap string Z) :
  keeps silent (emit (DispatchLostWrite name perEvent)).
Proof.
  intros w a w' [= _ <-]. split; simpl; [reflexivity |].
  rewrite metricsSent_app. simpl. apply app_nil_r.
Qed.

Lemma reconcileMap_nil_silent (m : string * StatsMap) :
  keeps silent (reconcileMap NilClient m tt).
Proof.
  destruct m as [name table]. unfold reconcileMap.
  apply keeps_bind; [apply silent_trans | |].
  - apply keeps_forEach; [apply silent_refl | apply silent_trans |].
    intros [id cpuStats] locals _. unfold reconcileEntry.
    apply keeps_if; [apply keeps_ret, silent_refl |].
    apply keeps_bind; [apply silent_trans | apply keeps_getState, silent_refl |].
    intros w0. cbv zeta.
    apply keeps_forEach; [apply silent_refl | apply silent_trans |].
    intros [cpu st] [total perEvent] _. unfold reconcileCPU.
    apply keeps_bind; [apply silent_trans | apply keeps_getState, silent_refl |].
    intros w1. cbv zeta. apply keeps_if; [apply keeps_ret, silent_refl |].
    apply keeps_bind; [apply silent_trans | apply liftMonitor_silent |]. intros t1.
    apply keeps_bind; [apply silent_trans | apply liftMonitor_silent |]. intros t2.
    apply keeps_bind; [apply silent_trans | apply liftMonitor_silent |]. intros t3.
    apply keeps_bind; [apply silent_trans | |].
    + apply keeps_if; [apply liftMonitor_silent | apply keeps_ret, silent_refl].
    + intros _. unfold accountDelta.
      apply keeps_bind; [apply silent_trans | apply keeps_ret, silent_refl |].
      intros [e |]; apply keeps_ret, silent_refl.
  - intros [res | [total perEvent]]; [apply keeps_ret, silent_refl |].
    destruct (iterErr table); [apply keeps_ret, silent_refl |].
    apply keeps_bind; [apply silent_trans | | intros _; apply keeps_ret, silent_refl].
    apply keeps_if; [apply emit_dispatch_silent | apply keeps_ret, silent_refl].
Qed.

Lemma collectAndSendKernelStats_nil_silent :
  keeps silent (collectAndSendKernelStats NilClient).
Proof.
  unfold collectAndSendKernelStats.
  apply keeps_bind; [apply silent_trans | apply keeps_getState, silent_refl |].
  intros w.
  apply keeps_bind; [apply silent_trans | |].
  - apply keeps_forEach; [apply silent_refl | apply silent_trans |].
    intros m [] _. apply reconcileMap_nil_silent.
  - intros [res | u]; apply keeps_ret, silent_refl.
Qed.

(** X16: without a client no metric is sent: whenever
    [collectAndSendKernelStats] called with a nil client returns, no
    [client.Count] call was made and the transport is untouched.
    [GetAndResetKernelLostCount] reads the kernel lost counters and resets
    none: it ends in the very world in which its reconciliation with a nil
    client ended, having sent no metric. *)
Theorem nil_client_sends_nothing (w w' : World) :
  (forall r, collectAndSendKernelStats NilClient w = Done (r, w') -> silent w w') /\
  (forall perfMap cpu evtTypes v,
     GetAndResetKernelLostCount perfMap cpu evtTypes w = Done (v, w') ->
     (exists r, collectAndSendKernelStats NilClient w = Done (r, w')) /\
     silent w w').
Proof.
  split.
  - intros r Hrun. exact (collectAndSendKernelStats_nil_silent w r w' Hrun).
  - intros perfMap cpu evtTypes v Hrun.
    pose proof (GetAndResetKernelLostCount_inv _ _ _ _ _ _ Hrun) as [r Hr].
    split; [eauto |]. exact (collectAndSendKernelStats_nil_silent w r w' Hr).
Qed.

Lemma forEach_skip_key_zero (client : ClientRef) (name : string)
  (es : list (N * list PerfMapStats)) (locals : Z * gmap string Z) (w : World) :
  forEach (reconcileEntry client name) es locals w
  = forEach (reconcileEntry client name) (filter (fun e => e.1 <> 0%N) es) locals w.
Proof.
  revert locals w. induction es as [| [id cpuStats] es IH]; intros locals w;
    [reflexivity |].
  destruct (decide (id = 0%N)) as [-> | Hid].
  - rewrite filter_cons_False by (simpl; congruence).
    simpl. rewrite <- IH. reflexivity.
  - rewrite filter_cons_True by exact Hid.
    cbn [forEach]. unfold mbind, Go_bind.
    destruct (reconcileEntry client name (id, cpuStats) locals w)
      as [[[r | locals'] w1] | p]; [reflexivity | apply IH | reflexivity].
Qed.

(** X17: the entries of a statistics table under the key 0 are never
    used: reconciling a table gives the same result, the same monitor and
    the same effects as reconciling the table without them. *)
Theorem reconcileMap_skips_key_zero (client : ClientRef) (name : string)
  (table : StatsMap) (w : World) :
  reconcileMap client (name, table) tt w
  = reconcileMap client
      (name, mkStatsMap (filter (fun e => e.1 <> 0%N) (entries table)) (iterErr table))
      tt w.
Proof.
  unfold reconcileMap. unfold mbind at 1 3, Go_bind. cbn [entries iterErr].
  rewrite <- forEach_skip_key_zero. reflexivity.
Qed.

Lemma kernelDelta_same (st : PerfMapStats) : kernelDelta st st = zeroStats.
Proof.
  unfold kernelDelta, subtractSnapshot. rewrite !Z.leb_refl, !Z.sub_diag. reflexivity.
Qed.

Lemma initPerEvent_insert (key : string) (v : Z) (perEvent : gmap string Z) :
  <[key := v]> (initPerEvent key perEvent) = <[key := v]> perEvent.
Proof.
  unfold initPerEvent. destruct (perEvent !! key); [reflexivity |].
  apply insert_insert_eq.
Qed.

Lemma initPerEvent_lookup (key : string) (perEvent : gmap string Z) :
  default 0 (initPerEvent key perEvent !! key) = default 0 (perEvent !! key).
Proof.
  unfold initPerEvent. destruct (perEvent !! key) eqn:E; [rewrite E; reflexivity |].
  rewrite lookup_insert_eq. reflexivity.
Qed.

(** X18: a cpu entry of a statistics table that equals the snapshot the
    monitor holds is not reported again: [collectAndSendKernelStats] sends
    no metric for it, adds nothing to the lost total, and leaves every
    cell of the kernel grid and the user side of the monitor as they
    were. *)
Theorem reconcileCPU_unchanged_entry (name : string) (evt : EventType)
  (tags : list string) (cpu : Z) (st : PerfMapStats) (total : Z)
  (perEvent : gmap string Z) (w : World) :
  mapSlice (stats (monitor w)) name <> [] ->
  cpu < len (mapSlice (stats (monitor w)) name) ->
  (evt < MaxEventType)%N ->
  cellAt (kernelStats (monitor w)) name cpu evt = Some st ->
  exists w',
    reconcileCPU StatsdClient name evt tags (cpu, st) (total, perEvent) w
    = Done (inr (total mod two64,
                 <[EventType_String evt :=
                     default 0 (perEvent !! EventType_String evt) mod two64]>
                   perEvent), w') /\
    transport w' = transport w /\ effects w' = effects w /\
    (forall name' cpu' evt',
       cellAt (kernelStats (monitor w')) name' cpu' evt'
       = cellAt (kernelStats (monitor w)) name' cpu' evt') /\
    userSideKept w w'.
Proof.
  intros Hrows Hcpu Hevt Hcell.
  exists (mkWorld (afterSwaps name cpu evt st st (monitor w)) (transport w) (effects w)).
  split; [| split; [reflexivity | split; [reflexivity | split]]].
  - rewrite (reconcileCPU_sanity_passed StatsdClient name evt tags cpu st st total
               perEvent w Hrows Hcpu Hevt Hcell).
    rewrite kernelDelta_same. unfold accountDelta, sendKernelStats. simpl.
    unfold mbind, Go_bind, mret, Go_ret. simpl.
    rewrite initPerEvent_insert, initPerEvent_lookup.
    unfold add64. rewrite !Z.add_0_r. reflexivity.
  - intros name' cpu' evt'. simpl.
    destruct (decide ((name', cpu', evt') = (name, cpu, evt))) as [[= -> -> ->] | Hne].
    + rewrite Hcell. apply afterSwaps_cell. exact Hcell.
    + apply afterSwaps_frame; assumption.
  - unfold afterSwaps. destruct (isMutationEvent evt); repeat split.
Qed.

End ReconcilerExtras.

Lemma forEach_establishes {S A B Ret : Type} (P : S -> Prop)
  (body : A -> B -> Go S (Ret + B)) (l : list A) (x : A) :
  x ∈ l ->
  (forall y acc, keeps (fun s s' => P s -> P s') (body y acc)) ->
  (forall acc s acc' s', body x acc s = Done (inr acc', s') -> P s') ->
  forall acc s acc' s', forEach body l acc s = Done (inr acc', s') -> P s'.
Proof.
  intros Hx Hkeep Hest. induction l as [| y l IH]; [inversion Hx |].
  intros acc s acc' s'. simpl.
  intros ([v | acc1] & s1 & H1 & H2)%bind_inv; [discriminate |].
  apply elem_of_cons in Hx as [-> | Hx].
  - assert (Hrest : keeps (fun s s' => P s -> P s') (forEach body l acc1)).
    { apply keeps_forEach; [auto | auto |]. intros z acc0 _. apply Hkeep. }
    apply (Hrest _ _ _ H2). eapply Hest. exact H1.
  - eapply IH; [exact Hx | exact H2].
Qed.

Section EmitterDrains.
Context {model : Model} {rt : GoRuntime}.

Lemma sendEventsAndBytesReadStats_loops (w : World) :
  sendEventsAndBytesReadStats w =
    (r ← forEach (fun m (_ : unit) =>
           forEach (fun cpu (_ : unit) =>
             forEach (drainCell (monitor w) m cpu) rangeEventTypes tt)
             (rangeIdx (mapSlice (stats (monitor w)) m)) tt)
           (rangeMap (stats (monitor w))).*1 tt;
     match r with
     | inl e => mret (Some e)
     | inr _ => mret None
     end) w.
Proof. reflexivity. Qed.

Lemma sendLostEventsReadStats_loops (w : World) :
  sendLostEventsReadStats w =
    (r ← forEach (fun m (_ : unit) =>
           r ← forEach (drainLost (monitor w) m)
                 (rangeIdx (mapSlice (readLostEvents (monitor w)) m)) 0;
           match r with
           | inl e => mret (inl e)
           | inr total =>
               _ ← (if 0 <? total then emit (DispatchLostRead m total) else mret tt);
               mret (inr tt)
           end)
           (rangeMap (readLostEvents (monitor w))).*1 tt;
     match r with
     | inl e => mret (Some e)
     | inr _ => mret None
     end) w.
Proof. reflexivity. Qed.

Lemma maybeCount_monitor (b : bool) (n : MetricName) (v : Z) (t : list string)
  (w w' : World) (r : option error) :
  (if b then clientCount n v t else mret None) w = Done (r, w') ->
  monitor w' = monitor w.
Proof. destruct b; intros [= _ <-]; reflexivity. Qed.

(** What a run of [drainCell] went through. *)
Lemma drainCell_inv (pbm : PerfBufferMonitor) (m : string) (cpu eventType : Z)
  (s s' : World) (r : error + unit) :
  drainCell pbm m cpu eventType tt s = Done (r, s') ->
  exists c1 s1 s2,
    liftMonitor (swapCell UserGrid FCount (Z.to_N eventType) m cpu 0) s = Done (c1, s1)
    /\ monitor s2 = monitor s1 /\
    ((s' = s2 /\ exists e, r = inl e) \/
     exists c2 s3 s4,
       liftMonitor (swapCell UserGrid FBytes (Z.to_N eventType) m cpu 0) s2
         = Done (c2, s3)
       /\ monitor s4 = monitor s3 /\
       ((s' = s4 /\ exists e, r = inl e) \/
        exists c3 s5,
          liftMonitor (getAndResetSortingErrorCount (Z.to_N eventType) m) s4
            = Done (c3, s5)
          /\ monitor s' = monitor s5)).
Proof.
  unfold drainCell. cbv zeta.
  intros (c1 & s1 & H1 & H)%bind_inv.
  apply bind_inv in H as (e1 & s2 & H2 & H). apply maybeCount_monitor in H2.
  exists c1, s1, s2. split; [exact H1 | split; [exact H2 |]].
  destruct e1 as [e |]; [left; injection H as <- <-; eauto |]. right.
  apply bind_inv in H as (c2 & s3 & H3 & H).
  apply bind_inv in H as (e2 & s4 & H4 & H). apply maybeCount_monitor in H4.
  exists c2, s3, s4. split; [exact H3 | split; [exact H4 |]].
  destruct e2 as [e |]; [left; injection H as <- <-; eauto |]. right.
  apply bind_inv in H as (c3 & s5 & H5 & H).
  apply bind_inv in H as (e3 & s6 & H6 & H). apply maybeCount_monitor in H6.
  exists c3, s5. split; [exact H5 |].
  destruct e3; injection H as _ <-; exact H6.
Qed.

Lemma drainCell_completed (pbm : PerfBufferMonitor) (m : string) (cpu eventType : Z)
  (s s' : World) (u : unit) :
  drainCell pbm m cpu eventType tt s = Done (inr u, s') ->
  exists c1 s1 s2 c2 s3 s4 c3 s5,
    liftMonitor (swapCell UserGrid FCount (Z.to_N eventType) m cpu 0) s = Done (c1, s1)
    /\ monitor s2 = monitor s1 /\
    liftMonitor (swapCell UserGrid FBytes (Z.to_N eventType) m cpu 0) s2 = Done (c2, s3)
    /\ monitor s4 = monitor s3 /\
    liftMonitor (getAndResetSortingErrorCount (Z.to_N eventType) m) s4 = Done (c3, s5)
    /\ monitor s' = monitor s5.
Proof.
  intros (c1 & s1 & s2 & H1 & H2 & [[_ [e [=]]] | H])%drainCell_inv.
  destruct H as (c2 & s3 & s4 & H3 & H4 & [[_ [e [=]]] | H]).
  destruct H as (c3 & s5 & H5 & H6).
  exists c1, s1, s2, c2, s3, s4, c3, s5. auto 10.
Qed.

(** *** The cells of the user grid *)

Lemma swap_drains (f : Field) (evt : EventType) (m : string) (cpu : Z)
  (s s' : World) (v : Z) :
  liftMonitor (swapCell UserGrid f evt m cpu 0) s = Done (v, s') ->
  drained f m cpu evt s'.
Proof.
  unfold liftMonitor, swapCell. simpl.
  destruct (cellAt (stats (monitor s)) m cpu evt) as [c |] eqn:Hc; [| discriminate].
  intros [= _ <-] c'. simpl.
  rewrite (cellAt_setCell _ _ _ _ _ _ Hc). intros [= <-]. destruct f; reflexivity.
Qed.

Lemma swap_keeps_drained (f f' : Field) (m0 m : string) (cpu0 cpu : Z)
  (evt0 evt : EventType) (s s' : World) (v : Z) :
  liftMonitor (swapCell UserGrid f' evt m cpu 0) s = Done (v, s') ->
  drained f m0 cpu0 evt0 s -> drained f m0 cpu0 evt0 s'.
Proof.
  unfold liftMonitor, swapCell. simpl.
  destruct (cellAt (stats (monitor s)) m cpu evt) as [c |] eqn:Hc; [| discriminate].
  intros [= _ <-] HP c'. simpl.
  destruct (decide ((m0, cpu0, evt0) = (m, cpu, evt))) as [[= -> -> ->] | Hne].
  - rewrite (cellAt_setCell _ _ _ _ _ _ Hc). intros [= <-].
    specialize (HP c Hc). destruct f, f'; simpl in *; first [reflexivity | exact HP].
  - rewrite (cellAt_setCell_ne _ _ _ _ _ _ _ _ _ Hc Hne). apply HP.
Qed.

Lemma same_stats_drained (f : Field) (m0 : string) (cpu0 : Z) (evt0 : EventType)
  (s s' : World) :
  stats (monitor s') = stats (monitor s) ->
  drained f m0 cpu0 evt0 s -> drained f m0 cpu0 evt0 s'.
Proof. unfold drained. intros ->. auto. Qed.

Lemma resetSortingError_stats (evt : EventType) (m : string) (s s' : World) (v : Z) :
  liftMonitor (getAndResetSortingErrorCount evt m) s = Done (v, s') ->
  stats (monitor s') = stats (monitor s).
Proof.
  unfold liftMonitor, getAndResetSortingErrorCount.
  destruct (sortingErrorCell (monitor s) m evt); [| discriminate].
  intros [= _ <-]. reflexivity.
Qed.

Lemma drainCell_keeps_drained (f : Field) (m0 : string) (cpu0 : Z) (evt0 : EventType)
  (pbm : PerfBufferMonitor) (m : string) (cpu eventType : Z) (u : unit) :
  keeps (fun s s' => drained f m0 cpu0 evt0 s -> drained f m0 cpu0 evt0 s')
    (drainCell pbm m cpu eventType u).
Proof.
  destruct u. intros s r s' (c1 & s1 & s2 & H1 & H2 & H)%drainCell_inv HP.
  apply (swap_keeps_drained f _ m0 _ cpu0 _ evt0 _ _ _ _ H1) in HP.
  apply (same_stats_drained f m0 cpu0 evt0 s1 s2) in HP; [| congruence].
  destruct H as [[-> _] | (c2 & s3 & s4 & H3 & H4 & H)]; [exact HP |].
  apply (swap_keeps_drained f _ m0 _ cpu0 _ evt0 _ _ _ _ H3) in HP.
  apply (same_stats_drained f m0 cpu0 evt0 s3 s4) in HP; [| congruence].
  destruct H as [[-> _] | (c3 & s5 & H5 & H6)]; [exact HP |].
  apply resetSortingError_stats in H5.
  apply (same_stats_drained f m0 cpu0 evt0 s4 s'); [congruence | exact HP].
Qed.

Lemma drainCell_drains (pbm : PerfBufferMonitor) (m : string) (cpu eventType : Z)
  (s s' : World) (u : unit) :
  drainCell pbm m cpu eventType tt s = Done (inr u, s') ->
  drained FCount m cpu (Z.to_N eventType) s' /\
  drained FBytes m cpu (Z.to_N eventType) s'.
Proof.
  intros (c1 & s1 & s2 & c2 & s3 & s4 & c3 & s5 & H1 & H2 & H3 & H4 & H5 & H6)
    %drainCell_completed.
  apply resetSortingError_stats in H5.
  assert (H45 : stats (monitor s') = stats (monitor s4)) by congruence.
  split.
  - apply (same_stats_drained _ _ _ _ s4 s' H45).
    apply (same_stats_drained _ _ _ _ s3 s4); [congruence |].
    apply (swap_keeps_drained _ _ _ _ _ _ _ _ _ _ _ H3).
    apply (same_stats_drained _ _ _ _ s1 s2); [congruence |].
    eapply swap_drains. exact H1.
  - apply (same_stats_drained _ _ _ _ s4 s' H45).
    apply (same_stats_drained _ _ _ _ s3 s4); [congruence |].
    eapply swap_drains. exact H3.
Qed.

Lemma rangeMap_visits {A : Type} (g : gmap string A) (m : string) (a : A) :
  rangeMap_sound rt -> g !! m = Some a -> m ∈ (rangeMap g).*1.
Proof.
  intros Hsound Hm. apply list_elem_of_fmap. exists (m, a). split; [reflexivity |].
  rewrite (Hsound A g). apply elem_of_map_to_list. exact Hm.
Qed.

Section OneCell.
Variables (P : World -> Prop) (pbm : PerfBufferMonitor).
Hypothesis P_drainCell :
  forall m cpu eventType u,
    keeps (fun s s' => P s -> P s') (drainCell pbm m cpu eventType u).

Lemma cpu_loop_keeps (m : string) (cpu : Z) (u : unit) :
  keeps (fun s s' => P s -> P s')
    (forEach (drainCell pbm m cpu) rangeEventTypes u).
Proof using P_drainCell.
  apply keeps_forEach; [auto | auto |]. intros y acc _. apply P_drainCell.
Qed.

Lemma map_loop_keeps (m : string) (rows : list Z) (u : unit) :
  keeps (fun s s' => P s -> P s')
    (forEach (fun cpu (_ : unit) => forEach (drainCell pbm m cpu) rangeEventTypes tt)
       rows u).
Proof using P_drainCell.
  apply keeps_forEach; [auto | auto |]. intros y acc _. apply cpu_loop_keeps.
Qed.

End OneCell.

(** X19: when [sendEventsAndBytesReadStats] completes without a transport
    error it has drained the user grid: for every registered buffer, every
    cpu row and every event type, the count and the bytes of the cell are
    zero afterwards. *)
Theorem sendEventsAndBytesReadStats_drains (w w' : World) (m : string)
  (g : list (list PerfMapStats)) (cpu : Z) (evt : EventType) :
  rangeMap_sound rt ->
  sendEventsAndBytesReadStats w = Done (None, w') ->
  stats (monitor w) !! m = Some g -> 0 <= cpu < len g -> (evt < MaxEventType)%N ->
  drained FCount m cpu evt w' /\ drained FBytes m cpu evt w'.
Proof.
  intros Hsound Hrun Hg Hcpu Hevt.
  rewrite sendEventsAndBytesReadStats_loops in Hrun.
  apply bind_inv in Hrun as ([e | u] & w1 & Hloop & Hret); [discriminate |].
  injection Hret as <-.
  assert (Hm : m ∈ (rangeMap (stats (monitor w))).*1)
    by (eapply rangeMap_visits; eassumption).
  assert (Hc : cpu ∈ rangeIdx (mapSlice (stats (monitor w)) m)).
  { rewrite (mapSlice_Some _ _ _ Hg). unfold rangeIdx. apply elem_of_seqZ. lia. }
  assert (He : Z.of_N evt ∈ rangeEventTypes).
  { unfold rangeEventTypes. apply elem_of_seqZ. lia. }
  assert (Hcell : forall f,
            (forall acc s acc' s',
               drainCell (monitor w) m cpu (Z.of_N evt) acc s = Done (inr acc', s') ->
               drained f m cpu evt s') ->
            drained f m cpu evt w1).
  { intros f Hdrains.
    pose proof (drainCell_keeps_drained f m cpu evt (monitor w)) as Hkeep.
    revert Hloop. apply (forEach_establishes _ _ _ m Hm).
    - intros y acc. apply map_loop_keeps. exact Hkeep.
    - intros [] s [] s'. apply (forEach_establishes _ _ _ cpu Hc).
      + intros y acc. apply cpu_loop_keeps. exact Hkeep.
      + intros [] s0 [] s0'. apply (forEach_establishes _ _ _ (Z.of_N evt) He).
        * intros y acc. apply Hkeep.
        * exact Hdrains. }
  split; apply Hcell; intros [] s [] s' Hbody; apply drainCell_drains in Hbody;
    rewrite N2Z.id in Hbody; tauto.
Qed.

(** *** The sorting-error counters *)

Lemma same_sorting_drained (m0 : string) (evt0 : EventType) (s s' : World) :
  sortingErrorStats (monitor s') = sortingErrorStats (monitor s) ->
  sortingErrorsDrained m0 evt0 s -> sortingErrorsDrained m0 evt0 s'.
Proof. unfold sortingErrorsDrained, sortingErrorCell. intros ->. auto. Qed.

Lemma swap_sortingErrorStats (f : Field) (evt : EventType) (m : string) (cpu : Z)
  (s s' : World) (v : Z) :
  liftMonitor (swapCell UserGrid f evt m cpu 0) s = Done (v, s') ->
  sortingErrorStats (monitor s') = sortingErrorStats (monitor s).
Proof.
  unfold liftMonitor, swapCell. simpl.
  destruct (cellAt (stats (monitor s)) m cpu evt); [| discriminate].
  intros [= _ <-]. reflexivity.
Qed.

Lemma resetSortingError_drains (evt : EventType) (m : string) (s s' : World) (v : Z) :
  liftMonitor (getAndResetSortingErrorCount evt m) s = Done (v, s') ->
  sortingErrorsDrained m evt s'.
Proof.
  unfold liftMonitor, getAndResetSortingErrorCount.
  destruct (sortingErrorCell (monitor s) m evt) as [c |] eqn:Hc; [| discriminate].
  intros [= _ <-] c'. simpl.
  rewrite (sortingErrorCell_set_eq _ _ _ _ _ Hc). intros [= <-]. reflexivity.
Qed.

Lemma resetSortingError_keeps (m0 m : string) (evt0 evt : EventType)
  (s s' : World) (v : Z) :
  liftMonitor (getAndResetSortingErrorCount evt m) s = Done (v, s') ->
  sortingErrorsDrained m0 evt0 s -> sortingErrorsDrained m0 evt0 s'.
Proof.
  intros Hrun HP.
  destruct (decide ((m0, evt0) = (m, evt))) as [[= -> ->] | Hne];
    [eapply resetSortingError_drains; exact Hrun |].
  revert Hrun. unfold liftMonitor, getAndResetSortingErrorCount.
  destruct (sortingErrorCell (monitor s) m evt) as [c |] eqn:Hc; [| discriminate].
  intros [= _ <-] c'. simpl.
  rewrite (sortingErrorCell_set_ne _ _ _ _ _ _ _ Hc Hne). apply HP.
Qed.

Lemma drainCell_keeps_sorting (m0 : string) (evt0 : EventType)
  (pbm : PerfBufferMonitor) (m : string) (cpu eventType : Z) (u : unit) :
  keeps (fun s s' => sortingErrorsDrained m0 evt0 s -> sortingErrorsDrained m0 evt0 s')
    (drainCell pbm m cpu eventType u).
Proof.
  destruct u. intros s r s' (c1 & s1 & s2 & H1 & H2 & H)%drainCell_inv HP.
  apply swap_sortingErrorStats in H1.
  apply (same_sorting_drained m0 evt0 s s2) in HP; [| congruence].
  destruct H as [[-> _] | (c2 & s3 & s4 & H3 & H4 & H)]; [exact HP |].
  apply swap_sortingErrorStats in H3.
  apply (same_sorting_drained m0 evt0 s2 s4) in HP; [| congruence].
  destruct H as [[-> _] | (c3 & s5 & H5 & H6)]; [exact HP |].
  apply (resetSortingError_keeps m0 _ evt0 _ _ _ _ H5) in HP.
  apply (same_sorting_drained m0 evt0 s5 s'); [congruence | exact HP].
Qed.

(** X20: when [sendEventsAndBytesReadStats] completes without a transport
    error it has drained the sorting-error counters of every registered
    buffer that has at least one cpu row. *)
Theorem sendEventsAndBytesReadStats_drains_sorting_errors (w w' : World)
  (m : string) (g : list (list PerfMapStats)) (evt : EventType) :
  rangeMap_sound rt ->
  sendEventsAndBytesReadStats w = Done (None, w') ->
  stats (monitor w) !! m = Some g -> 0 < len g -> (evt < MaxEventType)%N ->
  sortingErrorsDrained m evt w'.
Proof.
  intros Hsound Hrun Hg Hrows Hevt.
  rewrite sendEventsAndBytesReadStats_loops in Hrun.
  apply bind_inv in Hrun as ([e | u] & w1 & Hloop & Hret); [discriminate |].
  injection Hret as <-.
  assert (Hm : m ∈ (rangeMap (stats (monitor w))).*1)
    by (eapply rangeMap_visits; eassumption).
  assert (Hc : 0 ∈ rangeIdx (mapSlice (stats (monitor w)) m)).
  { rewrite (mapSlice_Some _ _ _ Hg). unfold rangeIdx. apply elem_of_seqZ. lia. }
  assert (He : Z.of_N evt ∈ rangeEventTypes).
  { unfold rangeEventTypes. apply elem_of_seqZ. lia. }
  pose proof (drainCell_keeps_sorting m evt (monitor w)) as Hkeep.
  revert Hloop. apply (forEach_establishes _ _ _ m Hm).
  - intros y acc. apply map_loop_keeps. exact Hkeep.
  - intros [] s [] s'. apply (forEach_establishes _ _ _ 0 Hc).
    + intros y acc. apply cpu_loop_keeps. exact Hkeep.
    + intros [] s0 [] s0'. apply (forEach_establishes _ _ _ (Z.of_N evt) He).
      * intros y acc. apply Hkeep.
      * intros [] s1 [] s1'
          (c1 & s2 & s3 & c2 & s4 & s5 & c3 & s6 & _ & _ & _ & _ & H5 & H6)
          %drainCell_completed.
        rewrite N2Z.id in H5. apply resetSortingError_drains in H5.
        apply (same_sorting_drained m evt s6 s1'); [congruence | exact H5].
Qed.

(** *** The lost-event counters *)

Lemma drainLost_inv (pbm : PerfBufferMonitor) (m : string) (cpu total : Z)
  (s s' : World) (r : error + Z) :
  drainLost pbm m cpu total s = Done (r, s') ->
  exists c s1, liftMonitor (getAndResetReadLostCount m cpu) s = Done (c, s1)
               /\ monitor s' = monitor s1.
Proof.
  unfold drainLost. cbv zeta. intros (c & s1 & H1 & H)%bind_inv.
  exists c, s1. split; [exact H1 |].
  destruct (0 <? float64_of_uint64 c).
  - apply bind_inv in H as (e & s2 & H2 & H).
    pose proof (maybeCount_monitor true _ _ _ _ _ _ H2) as Hm2.
    destruct e; injection H as _ <-; exact Hm2.
  - injection H as _ <-. reflexivity.
Qed.

Lemma same_lost_drained (m0 : string) (cpu0 : Z) (s s' : World) :
  readLostEvents (monitor s') = readLostEvents (monitor s) ->
  lostDrained m0 cpu0 s -> lostDrained m0 cpu0 s'.
Proof. unfold lostDrained. intros ->. auto. Qed.

Lemma resetLost_keeps (m0 m : string) (cpu0 cpu : Z) (s s' : World) (v : Z) :
  liftMonitor (getAndResetReadLostCount m cpu) s = Done (v, s') ->
  (m0, cpu0) = (m, cpu) \/ lostDrained m0 cpu0 s -> lostDrained m0 cpu0 s'.
Proof.
  unfold liftMonitor, getAndResetReadLostCount. cbv zeta.
  destruct (goIndex (mapSlice (readLostEvents (monitor s)) m) cpu) as [v0 |] eqn:Hv;
    [| discriminate].
  intros [= _ <-] HP v'. simpl.
  apply goIndex_Some in Hv as [Hcpu Hv].
  destruct (decide (m0 = m)) as [-> | Hm].
  - rewrite mapSlice_insert. intros [Hcpu0 Hv']%goIndex_Some.
    apply list_lookup_insert_Some in Hv' as [(Heq & <- & _) | [Hne Hv']];
      [reflexivity |].
    destruct HP as [[= ->] | HP]; [congruence |].
    apply HP. apply goIndex_Some. auto.
  - rewrite mapSlice_insert_ne by congruence.
    destruct HP as [[= -> _] | HP]; [congruence |]. apply HP.
Qed.

Lemma drainLost_keeps (m0 : string) (cpu0 : Z) (pbm : PerfBufferMonitor) (m : string)
  (cpu total : Z) :
  keeps (fun s s' => lostDrained m0 cpu0 s -> lostDrained m0 cpu0 s')
    (drainLost pbm m cpu total).
Proof.
  intros s r s' (c & s1 & H1 & H2)%drainLost_inv HP.
  apply (same_lost_drained m0 cpu0 s1 s'); [congruence |].
  eapply resetLost_keeps; [exact H1 | right; exact HP].
Qed.

Lemma dispatchLostRead_keeps (m0 : string) (cpu0 : Z) (b : bool) (m : string)
  (total : Z) :
  keeps (fun s s' => lostDrained m0 cpu0 s -> lostDrained m0 cpu0 s')
    (if b then emit (DispatchLostRead m total) else mret tt).
Proof. destruct b; intros s r s' [= _ <-] HP; exact HP. Qed.

(** X21: when [sendLostEventsReadStats] completes without a transport
    error it has drained the lost-event counters: for every registered
    buffer and every cpu the counter is zero afterwards. *)
Theorem sendLostEventsReadStats_drains (w w' : World) (m : string) (l : list Z)
  (cpu : Z) :
  rangeMap_sound rt ->
  sendLostEventsReadStats w = Done (None, w') ->
  readLostEvents (monitor w) !! m = Some l -> 0 <= cpu < len l ->
  lostDrained m cpu w'.
Proof.
  intros Hsound Hrun Hl Hcpu.
  rewrite sendLostEventsReadStats_loops in Hrun.
  apply bind_inv in Hrun as ([e | u] & w1 & Hloop & Hret); [discriminate |].
  injection Hret as <-.
  assert (Hm : m ∈ (rangeMap (readLostEvents (monitor w))).*1)
    by (eapply rangeMap_visits; eassumption).
  assert (Hc : cpu ∈ rangeIdx (mapSlice (readLostEvents (monitor w)) m)).
  { rewrite (mapSlice_Some _ _ _ Hl). unfold rangeIdx. apply elem_of_seqZ. lia. }
  set (R := fun s s' : World => lostDrained m cpu s -> lostDrained m cpu s').
  assert (Rrefl : forall s, R s s) by (unfold R; auto).
  assert (Rtrans : forall s1 s2 s3, R s1 s2 -> R s2 s3 -> R s1 s3)
    by (unfold R; auto).
  revert Hloop. apply (forEach_establishes _ _ _ m Hm).
  - intros y []. fold R.
    apply keeps_bind; [exact Rtrans | |].
    + apply keeps_forEach; [exact Rrefl | exact Rtrans |].
      intros x acc _. apply drainLost_keeps.
    + intros [e | total]; [apply keeps_ret; exact Rrefl |].
      apply keeps_bind; [exact Rtrans | apply dispatchLostRead_keeps |].
      intros _. apply keeps_ret. exact Rrefl.
  - intros [] s [] s' ([e | total] & s1 & Hinner & Hrest)%bind_inv; [discriminate |].
    apply bind_inv in Hrest as (u0 & s2 & Hemit & Hret). injection Hret as <-.
    apply (dispatchLostRead_keeps m cpu _ _ _ _ _ _ Hemit).
    revert Hinner. apply (forEach_establishes _ _ _ cpu Hc).
    + intros y acc. apply drainLost_keeps.
    + intros acc s0 acc' s0' (c & s3 & H1 & H2)%drainLost_inv.
      apply (same_lost_drained m cpu s3 s0'); [congruence |].
      eapply resetLost_keeps; [exact H1 | left; reflexivity].
Qed.

End EmitterDrains.

Lemma foldGo_ext {S A B : Type} (body1 body2 : A -> B -> Go S B) (l : list A) :
  (forall x acc s, body1 x acc s = body2 x acc s) ->
  forall acc s, foldGo body1 l acc s = foldGo body2 l acc s.
Proof.
  intros Hext. induction l as [| x l IH]; intros acc s; simpl; [reflexivity |].
  unfold mbind, Go_bind. rewrite Hext.
  destruct (body2 x acc s) as [[acc' s'] | p]; [apply IH | reflexivity].
Qed.

Section DecodingAndFilter.
Context {model : Model} {rt : GoRuntime}.

(** X22: on a little-endian or big-endian probe, decoding keeps the
    fields of a cell within [uint64]: whatever the data, the receiver after
    [UnmarshalBinary] has fields in [0, 2^64) if it had before, and after a
    successful decoding it has in any case. *)
Theorem UnmarshalBinary_keeps_uint64 (s : PerfMapStats) (data : list byte) :
  ByteOrder = LittleEndian \/ ByteOrder = BigEndian ->
  ((UnmarshalBinary s data).2 = None \/
   (is_uint64 (Bytes s) /\ is_uint64 (Count s) /\ is_uint64 (Lost s))) ->
  is_uint64 (Bytes (UnmarshalBinary s data).1) /\
  is_uint64 (Count (UnmarshalBinary s data).1) /\
  is_uint64 (Lost (UnmarshalBinary s data).1).
Proof.
  intros Horder Hs.
  destruct (UnmarshalBinary s data) as [s' err] eqn:Hrun. simpl in *.
  destruct (Z_lt_ge_dec (len data) 24) as [Hshort | Hlong].
  - rewrite (UnmarshalBinary_short s data Hshort) in Hrun.
    injection Hrun as <- <-. destruct Hs as [[=] | Hs]. exact Hs.
  - pose proof (UnmarshalBinary_long s data ltac:(lia)) as Hdec.
    rewrite Hrun in Hdec. injection Hdec as _ ->.
    eapply UnmarshalBinary_uint64; eassumption.
Qed.

(** X23: the filter of [GetAndResetKernelLostCount] is used through its
    length only: two filters of the same length give the same result and
    the same world, whatever event types they name. *)
Theorem GetAndResetKernelLostCount_filter_length (perfMap : string) (cpu : Z)
  (evtTypes evtTypes' : list EventType) (w : World) :
  length evtTypes = length evtTypes' ->
  GetAndResetKernelLostCount perfMap cpu evtTypes w
  = GetAndResetKernelLostCount perfMap cpu evtTypes' w.
Proof.
  intros Hlen.
  assert (Hsc : forall k, shouldCount evtTypes k = shouldCount evtTypes' k).
  { intros k. rewrite !shouldCount_by_position. unfold len. rewrite Hlen.
    reflexivity. }
  unfold GetAndResetKernelLostCount.
  destruct (collectAndSendKernelStats NilClient w) as [[r w1] | p] eqn:Hrun;
    [| rewrite !(bind_Panic _ _ _ _ Hrun); reflexivity].
  rewrite !(bind_Done _ _ _ _ _ Hrun), !bind_getState.
  apply foldGo_ext. intros cpuID total s.
  destruct ((cpu =? -1) || (cpu =? cpuID)); [| reflexivity].
  apply foldGo_ext. intros k total0 s0. rewrite Hsc. reflexivity.
Qed.

End DecodingAndFilter.

Lemma forEach_completes {S A B Ret : Type} (I : S -> Prop)
  (body : A -> B -> Go S (Ret + B)) (l : list A) :
  (forall x acc s, x ∈ l -> I s ->
     exists acc' s', body x acc s = Done (inr acc', s') /\ I s') ->
  forall acc s, I s ->
    exists acc' s', forEach body l acc s = Done (inr acc', s') /\ I s'.
Proof.
  induction l as [| x l IH]; intros Hbody acc s Hs; simpl.
  - eexists _, _. split; [reflexivity | exact Hs].
  - destruct (Hbody x acc s) as (acc1 & s1 & H1 & Hs1); [left | exact Hs |].
    erewrite bind_Done by exact H1.
    apply IH; [| exact Hs1]. intros y acc0 s0 Hy. apply Hbody. right. exact Hy.
Qed.

Section QuietCycles.
Context {model : Model} {rt : GoRuntime}.

Lemma reconcileEntries_key_zero (client : ClientRef) (name : string)
  (es : list (N * list PerfMapStats)) (locals : Z * gmap string Z) (w : World) :
  Forall (fun e => e.1 = 0%N) es ->
  forEach (reconcileEntry client name) es locals w = Done (inr locals, w).
Proof.
  induction 1 as [| [id cpuStats] es Hid _ IH]; [reflexivity |].
  simpl in Hid. subst id. simpl. exact IH.
Qed.

(** X24: a reconciliation that finds nothing to read changes nothing: when
    every statistics table iterates without an error and delivers no entry
    but entries under the key 0, [collectAndSendKernelStats] returns nil
    and leaves the monitor, the transport and the effects as they were. *)
Theorem reconciler_idle_cycle (client : ClientRef) (w : World) :
  (forall name table,
     (name, table) ∈ rangeMap (perfBufferStatsMaps (monitor w)) ->
     iterErr table = None /\ Forall (fun e => e.1 = 0%N) (entries table)) ->
  collectAndSendKernelStats client w = Done (None, w).
Proof.
  intros Htables. unfold collectAndSendKernelStats. rewrite bind_getState.
  assert (Hloop : forall l : list (string * StatsMap),
            (forall name table, (name, table) ∈ l ->
               iterErr table = None /\ Forall (fun e => e.1 = 0%N) (entries table)) ->
            forEach (reconcileMap client) l tt w = Done (inr tt, w)).
  { induction l as [| [name table] l IH]; intros Hl; [reflexivity |].
    destruct (Hl name table) as [Herr Hzero]; [left |].
    assert (Hmap : reconcileMap client (name, table) tt w = Done (inr tt, w)).
    { unfold reconcileMap.
      rewrite (bind_Done _ _ _ _ _
                 (reconcileEntries_key_zero client name (entries table) (0, ∅) w Hzero)).
      rewrite Herr. reflexivity. }
    cbn [forEach]. rewrite (bind_Done _ _ _ _ _ Hmap).
    apply IH. intros n t Hin. apply (Hl n t). right. exact Hin. }
  rewrite (bind_Done _ _ _ _ _ (Hloop _ Htables)). reflexivity.
Qed.

(** X25: the emitter resets a counter before it sends its value, so a
    failed send loses the value: when the count of a cell is positive and
    the next [client.Count] call fails, the pass over that cell in
    [sendEventsAndBytesReadStats] returns the transport error after the one
    call, and leaves the count of the cell at zero with its bytes
    untouched. *)
Theorem failed_send_loses_the_count (pbm : PerfBufferMonitor) (m : string) (cpu : Z)
  (evt : EventType) (c : PerfMapStats) (e : error) (rest : list (option error))
  (s : World) :
  cellAt (stats (monitor s)) m cpu evt = Some c ->
  0 < int64 (Count c) ->
  transport s = Some e :: rest ->
  exists s',
    drainCell pbm m cpu (Z.of_N evt) tt s = Done (inl e, s') /\
    cellAt (stats (monitor s')) m cpu evt = Some (mkStats (Bytes c) 0 (Lost c)) /\
    transport s' = rest /\
    effects s' = effects s ++
      [StatsdCount MetricPerfBufferEventsRead (int64 (Count c))
         [StatsTagsCardinality pbm; "map:" +:+ m;
          "event_type:" +:+ EventType_String evt]].
Proof.
  intros Hc Hpos Htr. unfold drainCell. cbv zeta. rewrite N2Z.id.
  erewrite bind_Done
    by (apply liftMonitor_Done;
        apply (swapCell_Done UserGrid FCount evt m cpu 0 (monitor s) c); exact Hc).
  cbn [getField]. apply Z.ltb_lt in Hpos. rewrite Hpos.
  eexists. split; [| split; [| split]].
  - unfold mbind, Go_bind, clientCount. cbn [transport monitor effects].
    rewrite Htr. reflexivity.
  - cbn [monitor]. simpl. apply (cellAt_setCell _ _ _ _ c). exact Hc.
  - reflexivity.
  - reflexivity.
Qed.

Lemma quiet_cell (pbm0 : PerfBufferMonitor) (f : Field) (evt : EventType)
  (m : string) (cpu : Z) (s : World) :
  emitting pbm0 s -> drained f m cpu evt s ->
  0 <= cpu < len (mapSlice (stats pbm0) m) -> (evt < MaxEventType)%N ->
  exists s',
    liftMonitor (swapCell UserGrid f evt m cpu 0) s = Done (0, s') /\
    emitting pbm0 s' /\ transport s' = transport s /\ effects s' = effects s /\
    sortingErrorStats (monitor s') = sortingErrorStats (monitor s) /\
    (forall f' m' cpu' evt', drained f' m' cpu' evt' s -> drained f' m' cpu' evt' s').
Proof.
  intros Hemit Hzero Hcpu Hevt.
  destruct (drainUserCell_total pbm0 f evt m cpu s Hemit Hcpu Hevt)
    as (v & s' & Hrun & Hemit').
  assert (Hinv : v = 0 /\ transport s' = transport s /\ effects s' = effects s).
  { revert Hrun. unfold liftMonitor, swapCell. simpl.
    destruct (cellAt (stats (monitor s)) m cpu evt) as [c |] eqn:Hc; [| discriminate].
    intros [= <- <-]. split; [exact (Hzero c Hc) | split; reflexivity]. }
  destruct Hinv as (-> & Htr & Heff).
  exists s'. split; [exact Hrun | split; [exact Hemit' |]].
  split; [exact Htr | split; [exact Heff | split]].
  - eapply swap_sortingErrorStats. exact Hrun.
  - intros f' m' cpu' evt'.
    apply (swap_keeps_drained f' f m' m cpu' cpu evt' evt s s' 0 Hrun).
Qed.

Lemma quiet_sorting_error (pbm0 : PerfBufferMonitor) (evt : EventType) (m : string)
  (s : World) :
  emitting pbm0 s -> sortingErrorsDrained m evt s ->
  0 < len (mapSlice (stats pbm0) m) -> (evt < MaxEventType)%N ->
  exists s',
    liftMonitor (getAndResetSortingErrorCount evt m) s = Done (0, s') /\
    emitting pbm0 s' /\ transport s' = transport s /\ effects s' = effects s /\
    stats (monitor s') = stats (monitor s) /\
    (forall m' evt', sortingErrorsDrained m' evt' s -> sortingErrorsDrained m' evt' s').
Proof.
  intros Hemit Hzero Hrows Hevt.
  destruct (drainSortingError_total pbm0 evt m s Hemit Hrows Hevt)
    as (v & s' & Hrun & Hemit').
  assert (Hinv : v = 0 /\ transport s' = transport s /\ effects s' = effects s).
  { revert Hrun. unfold liftMonitor, getAndResetSortingErrorCount.
    destruct (sortingErrorCell (monitor s) m evt) as [c |] eqn:Hc; [| discriminate].
    intros [= <- <-]. split; [exact (Hzero c Hc) | split; reflexivity]. }
  destruct Hinv as (-> & Htr & Heff).
  exists s'. split; [exact Hrun | split; [exact Hemit' |]].
  split; [exact Htr | split; [exact Heff | split]].
  - eapply resetSortingError_stats. exact Hrun.
  - intros m' evt'. apply (resetSortingError_keeps m' m evt' evt s s' 0 Hrun).
Qed.

(** X26: a monitor with nothing to report sends nothing: on a well-formed
    monitor whose user grid has only zero counts and bytes and whose
    sorting-error counters are zero, [sendEventsAndBytesReadStats] returns
    nil without a [client.Count] call. *)
Theorem quiet_monitor_sends_nothing (w : World) :
  wfMonitor (monitor w) ->
  (forall f m cpu evt, f <> FLost -> drained f m cpu evt w) ->
  (forall m evt, sortingErrorsDrained m evt w) ->
  exists w',
    sendEventsAndBytesReadStats w = Done (None, w') /\
    transport w' = transport w /\ effects w' = effects w.
Proof.
  intros Hwf Hcells Hsort. rewrite sendEventsAndBytesReadStats_loops.
  set (pbm0 := monitor w).
  set (I := fun s : World =>
              emitting pbm0 s /\ transport s = transport w /\ effects s = effects w /\
              (forall f m cpu evt, f <> FLost -> drained f m cpu evt s) /\
              (forall m evt, sortingErrorsDrained m evt s)).
  assert (HI : I w).
  { split; [split; [exact Hwf | apply sameShape_refl] |]. auto. }
  destruct (forEach_completes I
    (fun m (_ : unit) =>
       forEach (fun cpu (_ : unit) =>
         forEach (drainCell pbm0 m cpu) rangeEventTypes tt)
         (rangeIdx (mapSlice (stats pbm0) m)) tt)
    (rangeMap (stats pbm0)).*1) with (acc := tt) (s := w)
    as (u & w' & Hrun & (_ & Htr & Heff & _)); [| exact HI |].
  - intros m [] s _ Hs. apply forEach_completes; [| exact Hs].
    intros cpu [] s0 Hcpu Hs0. apply elem_of_seqZ in Hcpu.
    apply forEach_completes; [| exact Hs0].
    intros eventType [] s1 Hevt (Hemit & Htr & Heff & Hc & Hso).
    apply elem_of_seqZ in Hevt.
    unfold drainCell. cbv zeta.
    unfold getAndResetEventCount, getAndResetEventBytes.
    destruct (quiet_cell pbm0 FCount (Z.to_N eventType) m cpu s1 Hemit)
      as (s2 & H1 & Hemit2 & Htr2 & Heff2 & Hsort2 & Hkeep2);
      [apply Hc; discriminate | lia | lia |].
    rewrite (bind_Done _ _ _ _ _ H1).
    change (0 <? int64 0) with false. cbv iota. erewrite bind_Done by reflexivity.
    destruct (quiet_cell pbm0 FBytes (Z.to_N eventType) m cpu s2 Hemit2)
      as (s3 & H2 & Hemit3 & Htr3 & Heff3 & Hsort3 & Hkeep3);
      [apply Hkeep2, Hc; discriminate | lia | lia |].
    rewrite (bind_Done _ _ _ _ _ H2).
    change (0 <? int64 0) with false. cbv iota. erewrite bind_Done by reflexivity.
    assert (Hso3 : forall m' evt', sortingErrorsDrained m' evt' s3).
    { intros m' evt'. apply (same_sorting_drained m' evt' s1 s3); [congruence |].
      apply Hso. }
    destruct (quiet_sorting_error pbm0 (Z.to_N eventType) m s3 Hemit3)
      as (s4 & H3 & Hemit4 & Htr4 & Heff4 & Hstats4 & Hkeep4);
      [apply Hso3 | lia | lia |].
    rewrite (bind_Done _ _ _ _ _ H3).
    change (0 <? 0) with false. cbv iota. erewrite bind_Done by reflexivity.
    exists tt, s4. split; [reflexivity |].
    split; [exact Hemit4 |]. split; [congruence |]. split; [congruence |].
    split.
    + intros f m' cpu' evt' Hf.
      apply (same_stats_drained f m' cpu' evt' s3 s4 Hstats4).
      apply Hkeep3, Hkeep2, Hc. exact Hf.
    + intros m' evt'. apply Hkeep4, Hso3.
  - exists w'. rewrite (bind_Done _ _ _ _ _ Hrun). auto.
Qed.

End QuietCycles.

(** ** Instances

    The theorems of this part at the monitors and worlds of the test
    configuration. *)

Lemma dnsScenario_wf : wfMonitor (model := testModel) dnsScenario.
Proof.
  pose (p1 := default (dnsMonitor (okTable []))
                (run (CountEvent (model := testModel) 3 10 5 500 "dns" 0)
                   (dnsMonitor (okTable [])))).
  apply (CountEvent_wf (model := testModel) 3 11 3 300 "dns" 1 p1);
    [| vm_compute; reflexivity].
  apply (CountEvent_wf (model := testModel) 3 10 5 500 "dns" 0
           (dnsMonitor (okTable []))); [apply dnsMonitor_wf | vm_compute; reflexivity].
Qed.

Lemma NewPerfBufferMonitor_fresh_witness :
  numCPU (dnsMonitor (okTable [])) = 2 /\
  readLostEvents (dnsMonitor (okTable [])) !! "dns" = Some [0; 0].
Proof.
  destruct (NewPerfBufferMonitor_fresh (model := testModel) (rt := testRuntime)
              (dnsProbe (okTable [])) {["dns" := "dns_stats"]} 2
              (dnsMonitor (okTable [])) ltac:(lia) (dnsMonitor_built _))
    as (_ & Hn & _ & _ & Hin & _).
  split; [exact Hn |].
  destruct (Hin "dns") as (_ & _ & Hl & _); [apply list_elem_of_here | exact Hl].
Defined.

Lemma NewPerfBufferMonitor_fails_without_tables_witness :
  NewPerfBufferMonitor (model := testModel) (rt := testRuntime)
    (dnsProbe lostTable) {["dns" := "dns_stats"]} (inr (ErrOther "no cpu"))
  = inr (Wrapf (ErrOther "no cpu") "couldn't fetch the host CPU count") /\
  perfBufferStatsMaps (dnsMonitor lostTable) !! "dns" = Some lostTable.
Proof.
  destruct (NewPerfBufferMonitor_fails_without_tables (model := testModel)
              (rt := testRuntime) (dnsProbe lostTable) {["dns" := "dns_stats"]})
    as (Herr & _ & Htables).
  split; [apply Herr |].
  apply (Htables 2 (dnsMonitor lostTable) testRuntime_sound (dnsMonitor_built _)
           "dns" "dns_stats").
  vm_compute. reflexivity.
Defined.

Lemma recorders_keep_shape_witness :
  wfMonitor (model := testModel)
    (set_readLostEvents (<["dns" := [4; 0]]> (readLostEvents (dnsMonitor (okTable []))))
       (dnsMonitor (okTable []))).
Proof.
  apply (proj1 (proj2 (recorders_keep_shape (model := testModel)
                         (dnsMonitor (okTable [])) (dnsMonitor_wf _)))
           4 "dns" 0).
  vm_compute. reflexivity.
Defined.

Lemma CountEvent_records_witness :
  exists pbm',
    CountEvent (model := testModel) 3 10 5 500 "dns" 0 (dnsMonitor (okTable []))
      = Done (tt, pbm') /\
    cellAt (stats pbm') "dns" 0 3 = Some (mkStats 500 5 0).
Proof.
  destruct (CountEvent_records (model := testModel) (dnsMonitor (okTable [])) 3 10 5 500
              "dns" 0 (replicate 2 (replicate 8 zeroStats)) (dnsMonitor_wf _))
    as (pbm' & c & Hrun & Hc & Hcell & _).
  - vm_compute. reflexivity.
  - vm_compute. split; [discriminate | reflexivity].
  - reflexivity.
  - exists pbm'. split; [exact Hrun |].
    rewrite Hcell. vm_compute in Hc. injection Hc as <-. reflexivity.
Defined.

Lemma CountEvent_watermark_monotone_witness :
  exists pbm',
    CountEvent (model := testModel) 3 7 1 10 "dns" 0 lateMonitor = Done (tt, pbm') /\
    10 <= lastTimestamp pbm'.
Proof.
  pose (pbm' := default lateMonitor
                  (run (CountEvent (model := testModel) 3 7 1 10 "dns" 0) lateMonitor)).
  assert (Hrun : CountEvent (model := testModel) 3 7 1 10 "dns" 0 lateMonitor
                 = Done (tt, pbm')) by (vm_compute; reflexivity).
  exists pbm'. split; [exact Hrun |].
  apply (CountEvent_watermark_monotone (model := testModel) lateMonitor pbm'
           3 7 1 10 "dns" 0 ltac:(lia) ltac:(vm_compute; discriminate) Hrun).
Defined.

Lemma CountLostEvent_accumulates_witness :
  exists pbm',
    CountLostEvent 2 "dns" 0 lossyMonitor = Done (tt, pbm') /\
    getLostCount "dns" 0 pbm' = Done (6, pbm').
Proof.
  destruct (proj1 (CountLostEvent_accumulates lossyMonitor 2 "dns" 0) [4; 3] 4
              ltac:(vm_compute; reflexivity) ltac:(reflexivity))
    as (pbm' & Hrun & Hread & _).
  exists pbm'. split; [exact Hrun | exact Hread].
Defined.

Lemma negative_cpu_panics_witness :
  CountLostEvent 1 "dns" (-1) (dnsMonitor (okTable [])) = Panic IndexOutOfRange /\
  CountEvent (model := testModel) 3 10 1 100 "dns" (-1) (dnsMonitor (okTable []))
    = Panic IndexOutOfRange.
Proof.
  destruct (negative_cpu_panics (model := testModel) (dnsMonitor (okTable [])) "dns"
              (replicate 2 (replicate 8 zeroStats)) (-1) (dnsMonitor_wf _)
              ltac:(vm_compute; reflexivity) ltac:(vm_compute; reflexivity)
              ltac:(lia)) as [Hlost Hevent].
  split; [apply Hlost | apply Hevent; reflexivity].
Defined.

Lemma GetLostCount_reads_witness :
  GetLostCount "dns" (-1) lossyMonitor = Done (7, lossyMonitor) /\
  GetLostCount "dns" 1 lossyMonitor = Done (3, lossyMonitor) /\
  GetLostCount "dns" 2 lossyMonitor = Done (0, lossyMonitor).
Proof.
  destruct (GetLostCount_reads lossyMonitor "dns") as (Hreg & Hzero & _).
  destruct (Hreg [4; 3] ltac:(vm_compute; reflexivity)) as [Hall Hone].
  split; [exact Hall | split].
  - apply (Hone 1 3); [reflexivity | vm_compute; reflexivity].
  - apply Hzero. right. vm_compute. split; discriminate.
Defined.

Lemma GetAndResetLostCount_then_GetLostCount_witness :
  exists v pbm',
    GetAndResetLostCount "dns" (-1) lossyMonitor = Done (v, pbm') /\
    GetLostCount "dns" (-1) pbm' = Done (0, pbm').
Proof.
  destruct (GetAndResetLostCount_then_GetLostCount (model := testModel) lossyMonitor
              "dns" [4; 3] (-1) lossyMonitor_wf ltac:(vm_compute; reflexivity)
              ltac:(left; reflexivity)) as (v & pbm' & _ & Hdrain & Hread).
  exists v, pbm'. split; [exact Hdrain | exact Hread].
Defined.

Lemma GetEventStats_reads_witness :
  GetEventStats (model := testModel) (rt := testRuntime) 9 "dns" 0 dnsScenario = Done (zeroStats, dnsScenario) /\
  GetEventStats (model := testModel) (rt := testRuntime) 3 "net" 0 dnsScenario = Done (zeroStats, dnsScenario) /\
  GetEventStats (model := testModel) (rt := testRuntime) 3 "dns" 2 dnsScenario = Done (zeroStats, dnsScenario).
Proof.
  split; [| split].
  - apply (proj1 (proj2 (GetEventStats_reads (model := testModel) (rt := testRuntime) dnsScenario 9 "dns" 0))).
    vm_compute. discriminate.
  - apply (proj1 (proj2 (proj2 (GetEventStats_reads (model := testModel) (rt := testRuntime) dnsScenario
                                  3 "net" 0)))); [discriminate | vm_compute; reflexivity].
  - apply (proj2 (proj2 (proj2 (GetEventStats_reads (model := testModel) (rt := testRuntime) dnsScenario
                                  3 "dns" 2)))).
    right. vm_compute. split; discriminate.
Defined.

Lemma GetEventStats_sums_witness :
  GetEventStats (model := testModel) (rt := testRuntime) 3 "dns" (-1) dnsScenario
    = Done (mkStats 800 8 0, dnsScenario) /\
  GetEventStats (model := testModel) (rt := testRuntime) 3 "dns" 1 dnsScenario
    = Done (mkStats 300 3 0, dnsScenario).
Proof.
  destruct (GetEventStats_sums (model := testModel) (rt := testRuntime) dnsScenario "dns"
              (mapSlice (stats dnsScenario) "dns") 3 dnsScenario_wf
              ltac:(vm_compute; reflexivity) ltac:(discriminate) ltac:(reflexivity))
    as [Hall Hone].
  split; [exact Hall |].
  apply (Hone 1 (mkStats 300 3 0)). vm_compute. reflexivity.
Defined.

Lemma CountEvent_then_GetEventStats_witness :
  exists pbm',
    CountEvent (model := testModel) 3 10 5 500 "dns" 0 (dnsMonitor (okTable []))
      = Done (tt, pbm') /\
    GetEventStats (model := testModel) (rt := testRuntime) 3 "dns" 0 pbm' = Done (mkStats 500 5 0, pbm').
Proof.
  destruct (CountEvent_then_GetEventStats (model := testModel) (rt := testRuntime) (dnsMonitor (okTable []))
              3 10 5 500 "dns" 0 (replicate 2 (replicate 8 zeroStats)) (dnsMonitor_wf _)
              ltac:(vm_compute; reflexivity) ltac:(discriminate)
              ltac:(vm_compute; split; [discriminate | reflexivity])
              ltac:(reflexivity)) as (pbm' & c & Hc & Hrun & Hread).
  exists pbm'. split; [exact Hrun |].
  rewrite Hread. vm_compute in Hc. injection Hc as <-. reflexivity.
Defined.

Lemma reconciler_never_panics_witness :
  (exists r w',
     collectAndSendKernelStats (model := testModel) (rt := testRuntime) StatsdClient
       flaggedWorld = Done (r, w') /\ wfMonitor (model := testModel) (monitor w')) /\
  (exists v w',
     GetAndResetKernelLostCount (model := testModel) (rt := testRuntime) "dns" (-1) []
       flaggedWorld = Done (v, w') /\ wfMonitor (model := testModel) (monitor w')).
Proof.
  destruct (reconciler_never_panics (model := testModel) (rt := testRuntime) flaggedWorld)
    as [Hrec Hread].
  - simpl. apply wfMonitor_set_shouldBumpGeneration, dnsMonitor_wf.
  - split; [apply Hrec | apply Hread].
Defined.

Lemma SendStats_never_panics_witness :
  exists r w',
    SendStats (model := testModel) (rt := testRuntime) transportFailsWorld = Done (r, w')
    /\ wfMonitor (model := testModel) (monitor w').
Proof.
  apply (SendStats_never_panics (model := testModel) (rt := testRuntime)
           transportFailsWorld).
  simpl. apply wfMonitor_set_shouldBumpGeneration, dnsMonitor_wf.
Defined.

Lemma reconciler_keeps_user_side_witness :
  userSideKept flaggedWorld reconciledFlaggedWorld.
Proof.
  apply (proj1 (reconciler_keeps_user_side (model := testModel) (rt := testRuntime)
                  flaggedWorld reconciledFlaggedWorld) StatsdClient None).
  vm_compute. reflexivity.
Defined.

Lemma nil_client_sends_nothing_witness :
  exists v w',
    GetAndResetKernelLostCount (model := testModel) (rt := testRuntime) "dns" (-1) []
      flaggedWorld = Done (v, w') /\
    silent flaggedWorld w'.
Proof.
  pose (w' := default flaggedWorld
                (run (GetAndResetKernelLostCount (model := testModel)
                        (rt := testRuntime) "dns" (-1) []) flaggedWorld)).
  assert (Hrun : GetAndResetKernelLostCount (model := testModel) (rt := testRuntime)
                   "dns" (-1) [] flaggedWorld = Done (14, w'))
    by (vm_compute; reflexivity).
  exists 14, w'. split; [exact Hrun |].
  apply (proj2 (nil_client_sends_nothing (model := testModel) (rt := testRuntime)
                  flaggedWorld w') "dns" (-1) [] 14 Hrun).
Defined.

Lemma reconcileCPU_unchanged_entry_witness :
  exists w',
    reconcileCPU (model := testModel) StatsdClient "dns" 4
      ["cardinality:low"; "map:dns"; "event_type:rename"] (0, mkStats 10 10 10) (0, ∅)
      snapshotWorld
    = Done (inr (0, <["rename" := 0]> ∅), w') /\
    effects w' = effects snapshotWorld.
Proof.
  destruct (reconcileCPU_unchanged_entry (model := testModel) "dns" 4
              ["cardinality:low"; "map:dns"; "event_type:rename"] 0 (mkStats 10 10 10)
              0 ∅ snapshotWorld
              ltac:(vm_compute; discriminate) ltac:(vm_compute; reflexivity)
              ltac:(reflexivity) ltac:(vm_compute; reflexivity))
    as (w' & Hrun & _ & Heff & _).
  exists w'. split; [exact Hrun | exact Heff].
Defined.

Lemma sendEventsAndBytesReadStats_drains_witness :
  exists w',
    sendEventsAndBytesReadStats (model := testModel) (rt := testRuntime)
      (mkWorld dnsScenario [] []) = Done (None, w') /\
    drained FCount "dns" 0 3 w' /\ drained FBytes "dns" 0 3 w'.
Proof.
  pose (w' := default (mkWorld dnsScenario [] [])
                (run (sendEventsAndBytesReadStats (model := testModel)
                        (rt := testRuntime)) (mkWorld dnsScenario [] []))).
  assert (Hrun : sendEventsAndBytesReadStats (model := testModel) (rt := testRuntime)
                   (mkWorld dnsScenario [] []) = Done (None, w'))
    by (vm_compute; reflexivity).
  exists w'. split; [exact Hrun |].
  apply (sendEventsAndBytesReadStats_drains (model := testModel) (rt := testRuntime)
           (mkWorld dnsScenario [] []) w' "dns" (mapSlice (stats dnsScenario) "dns") 0 3
           testRuntime_sound Hrun).
  - vm_compute. reflexivity.
  - vm_compute. split; [discriminate | reflexivity].
  - reflexivity.
Defined.

Lemma sendEventsAndBytesReadStats_drains_sorting_errors_witness :
  exists w',
    sendEventsAndBytesReadStats (model := testModel) (rt := testRuntime)
      (mkWorld dnsScenario [] []) = Done (None, w') /\
    sortingErrorsDrained (model := testModel) "dns" 3 w'.
Proof.
  pose (w' := default (mkWorld dnsScenario [] [])
                (run (sendEventsAndBytesReadStats (model := testModel)
                        (rt := testRuntime)) (mkWorld dnsScenario [] []))).
  assert (Hrun : sendEventsAndBytesReadStats (model := testModel) (rt := testRuntime)
                   (mkWorld dnsScenario [] []) = Done (None, w'))
    by (vm_compute; reflexivity).
  exists w'. split; [exact Hrun |].
  apply (sendEventsAndBytesReadStats_drains_sorting_errors (model := testModel)
           (rt := testRuntime) (mkWorld dnsScenario [] []) w' "dns"
           (mapSlice (stats dnsScenario) "dns") 3 testRuntime_sound Hrun).
  - vm_compute. reflexivity.
  - vm_compute. reflexivity.
  - reflexivity.
Defined.

Lemma sendLostEventsReadStats_drains_witness :
  exists w',
    sendLostEventsReadStats (rt := testRuntime)
      (mkWorld lossyMonitor [] []) = Done (None, w') /\
    lostDrained "dns" 1 w'.
Proof.
  pose (w' := default (mkWorld lossyMonitor [] [])
                (run (sendLostEventsReadStats (rt := testRuntime)) (mkWorld lossyMonitor [] []))).
  assert (Hrun : sendLostEventsReadStats (rt := testRuntime)
                   (mkWorld lossyMonitor [] []) = Done (None, w'))
    by (vm_compute; reflexivity).
  exists w'. split; [exact Hrun |].
  apply (sendLostEventsReadStats_drains (rt := testRuntime)
           (mkWorld lossyMonitor [] []) w' "dns" [4; 3] 1 testRuntime_sound Hrun).
  - vm_compute. reflexivity.
  - vm_compute. split; [discriminate | reflexivity].
Defined.

Lemma UnmarshalBinary_keeps_uint64_witness :
  is_uint64 (Bytes (UnmarshalBinary (model := testModel) (mkStats (-1) 0 0) sampleEntry).1).
Proof.
  apply (UnmarshalBinary_keeps_uint64 (model := testModel) (mkStats (-1) 0 0) sampleEntry).
  - left. reflexivity.
  - left. vm_compute. reflexivity.
Defined.

Lemma GetAndResetKernelLostCount_filter_length_witness :
  GetAndResetKernelLostCount (model := testModel) (rt := testRuntime) "dns" (-1) [4%N]
    flaggedWorld
  = GetAndResetKernelLostCount (model := testModel) (rt := testRuntime) "dns" (-1) [1%N]
      flaggedWorld.
Proof.
  apply (GetAndResetKernelLostCount_filter_length (model := testModel)
           (rt := testRuntime) "dns" (-1) [4%N] [1%N] flaggedWorld).
  reflexivity.
Defined.

Lemma reconciler_idle_cycle_witness :
  collectAndSendKernelStats (model := testModel) (rt := testRuntime) StatsdClient
    (mkWorld (dnsMonitor (okTable [(0%N, [mkStats 1 1 1; zeroStats])])) [] [])
  = Done (None,
          mkWorld (dnsMonitor (okTable [(0%N, [mkStats 1 1 1; zeroStats])])) [] []).
Proof.
  apply (reconciler_idle_cycle (model := testModel) (rt := testRuntime)).
  intros name table Hin.
  assert (Hl : rangeMap (GoRuntime := testRuntime)
                 (perfBufferStatsMaps
                    (dnsMonitor (okTable [(0%N, [mkStats 1 1 1; zeroStats])])))
               = [("dns", okTable [(0%N, [mkStats 1 1 1; zeroStats])])])
    by (vm_compute; reflexivity).
  cbn [monitor] in Hin. rewrite Hl in Hin.
  apply list_elem_of_singleton in Hin. injection Hin as -> ->.
  split; [reflexivity | repeat constructor].
Defined.

Lemma failed_send_loses_the_count_witness :
  exists s',
    drainCell (model := testModel) dnsScenario "dns" 0 3 tt
      (mkWorld dnsScenario [Some (ErrTransport "connection refused")] [])
    = Done (inl (ErrTransport "connection refused"), s') /\
    cellAt (stats (monitor s')) "dns" 0 3 = Some (mkStats 500 0 0).
Proof.
  destruct (failed_send_loses_the_count (model := testModel) dnsScenario "dns" 0 3
              (mkStats 500 5 0) (ErrTransport "connection refused") []
              (mkWorld dnsScenario [Some (ErrTransport "connection refused")] [])
              ltac:(vm_compute; reflexivity) ltac:(vm_compute; reflexivity)
              ltac:(reflexivity)) as (s' & Hrun & Hcell & _).
  exists s'. split; [exact Hrun | exact Hcell].
Defined.

Lemma fresh_dnsMonitor_quiet (f : Field) (m : string) (cpu : Z) (evt : EventType) :
  drained f m cpu evt (mkWorld (dnsMonitor (okTable [])) [] []).
Proof.
  intros c. cbn [monitor].
  replace (stats (dnsMonitor (okTable [])))
    with ({["dns" := replicate 2 (replicate 8 zeroStats)]}
            : gmap string (list (list PerfMapStats)))
    by (vm_compute; reflexivity).
  intros (row & Hrow & Hc)%cellAt_Some. unfold mapSlice in Hrow.
  destruct (decide (m = "dns")) as [-> | Hm].
  - rewrite lookup_singleton_eq in Hrow. simpl in Hrow.
    apply goIndex_Some in Hrow as [_ Hrow].
    assert (Hall : Forall (fun r => Forall (fun c => c = zeroStats) r)
                     (replicate 2 (replicate 8 zeroStats)))
      by (repeat constructor).
    pose proof (Forall_lookup_1 _ _ _ _ Hall Hrow) as Hr.
    pose proof (Forall_lookup_1 _ _ _ _ Hr Hc) as ->. destruct f; reflexivity.
  - rewrite lookup_singleton_ne in Hrow by congruence. simpl in Hrow.
    apply goIndex_Some in Hrow as [_ Hrow]. discriminate.
Qed.

Lemma fresh_dnsMonitor_no_sorting_errors (m : string) (evt : EventType) :
  sortingErrorsDrained (model := testModel) m evt
    (mkWorld (dnsMonitor (okTable [])) [] []).
Proof.
  intros c. cbn [monitor]. unfold sortingErrorCell.
  replace (sortingErrorStats (dnsMonitor (okTable [])))
    with ({["dns" := replicate 8 0]} : gmap string (list Z))
    by (vm_compute; reflexivity).
  destruct (MaxEventType <=? evt)%N; [discriminate |].
  destruct (decide (m = "dns")) as [-> | Hm].
  - rewrite lookup_singleton_eq.
    destruct (replicate 8 0 !! N.to_nat evt) as [c' |] eqn:Hc; [| discriminate].
    intros [= <-].
    assert (Hall : Forall (fun c => c = 0) (replicate 8 0)) by (repeat constructor).
    exact (Forall_lookup_1 _ _ _ _ Hall Hc).
  - rewrite lookup_singleton_ne by congruence. discriminate.
Qed.

Lemma quiet_monitor_sends_nothing_witness :
  exists w',
    sendEventsAndBytesReadStats (model := testModel) (rt := testRuntime)
      (mkWorld (dnsMonitor (okTable [])) [] []) = Done (None, w') /\
    effects w' = [].
Proof.
  destruct (quiet_monitor_sends_nothing (model := testModel) (rt := testRuntime)
              (mkWorld (dnsMonitor (okTable [])) [] []) (dnsMonitor_wf _)
              (fun f m cpu evt _ => fresh_dnsMonitor_quiet f m cpu evt)
              fresh_dnsMonitor_no_sorting_errors) as (w' & Hrun & _ & Heff).
  exists w'. split; [exact Hrun | exact Heff].
Defined.
